(** * Ageis task manager: the request pipeline of the Express/Mongoose API

    A shallow embedding of the backend (controllers, middleware, models,
    routes, response helpers) as pure functions over an explicit store, and
    the properties of the authorization and task-ownership pipeline proved
    on it.

    Conventions of the embedding:
    - strings are Rocq [string]s (bytes); case mapping and white space are
      the ASCII ones;
    - a JavaScript value that may be [undefined] is an [option]; the fields
      of a body, of the URL parameters and of the query string are strings;
    - a MongoDB collection is the list of its documents in natural order;
      Mongoose is modelled by what the schemas ask of it: setters,
      validators, the [select: false] of the password, the pre-save hook,
      the unique indexes and the timestamps;
    - an ObjectId is represented by its canonical hexadecimal string; the
      identifiers that reach a query are well formed (they come from a
      verified token, from a stored document, or went through [isMongoId]);
    - a Date is the number of milliseconds since the epoch;
    - a middleware is a function from the request and the store to an
      outcome (a response, [next()] or [next(error)]) and the store;
    - the libraries the code calls into (bcryptjs, jsonwebtoken, validator.js,
      the MongoDB text index) are the fields of a record [Libs].  *)

From Stdlib Require Import String Ascii List ZArith Bool Lia.
Import ListNotations.
Open Scope string_scope.
Open Scope Z_scope.

(* ================================================================= *)
(** ** JavaScript strings *)

Module Str.

Definition is_upper (c : ascii) : bool :=
  let n := nat_of_ascii c in (Nat.leb 65 n && Nat.leb n 90)%bool.

Definition is_lower (c : ascii) : bool :=
  let n := nat_of_ascii c in (Nat.leb 97 n && Nat.leb n 122)%bool.

Definition is_digit (c : ascii) : bool :=
  let n := nat_of_ascii c in (Nat.leb 48 n && Nat.leb n 57)%bool.

(** [\s] restricted to ASCII: TAB, LF, VT, FF, CR and SPACE. *)
Definition is_space (c : ascii) : bool :=
  let n := nat_of_ascii c in ((Nat.leb 9 n && Nat.leb n 13) || Nat.eqb n 32)%bool.

Definition is_hex (c : ascii) : bool :=
  let n := nat_of_ascii c in
  (is_digit c || (Nat.leb 65 n && Nat.leb n 70) || (Nat.leb 97 n && Nat.leb n 102))%bool.

Definition lower_char (c : ascii) : ascii :=
  if is_upper c then ascii_of_nat (nat_of_ascii c + 32) else c.

Definition upper_char (c : ascii) : ascii :=
  if is_lower c then ascii_of_nat (nat_of_ascii c - 32) else c.

Fixpoint toLowerCase (s : string) : string :=
  match s with
  | EmptyString => EmptyString
  | String c r => String (lower_char c) (toLowerCase r)
  end.

Fixpoint all_chars (p : ascii -> bool) (s : string) : bool :=
  match s with
  | EmptyString => true
  | String c r => (p c && all_chars p r)%bool
  end.

Fixpoint any_char (p : ascii -> bool) (s : string) : bool :=
  match s with
  | EmptyString => false
  | String c r => (p c || any_char p r)%bool
  end.

Fixpoint mem_char (c : ascii) (s : string) : bool :=
  match s with
  | EmptyString => false
  | String d r => (Ascii.eqb c d || mem_char c r)%bool
  end.

Fixpoint trimStart (s : string) : string :=
  match s with
  | EmptyString => EmptyString
  | String c r => if is_space c then trimStart r else s
  end.

Fixpoint trimEnd (s : string) : string :=
  match s with
  | EmptyString => EmptyString
  | String c r =>
      match trimEnd r with
      | EmptyString => if is_space c then EmptyString else String c EmptyString
      | r' => String c r'
      end
  end.

Definition trim (s : string) : string := trimEnd (trimStart s).

Definition startsWith (s prefix : string) : bool := String.prefix prefix s.

(** [s.split(sep)] for a one-character separator. *)
Fixpoint split (sep : ascii) (s : string) : list string :=
  match s with
  | EmptyString => [EmptyString]
  | String c r =>
      if Ascii.eqb c sep then EmptyString :: split sep r
      else match split sep r with
           | [] => [String c EmptyString]
           | h :: t => String c h :: t
           end
  end.

Definition join (sep : string) (l : list string) : string := String.concat sep l.

(** [s.charAt(0).toUpperCase() + s.slice(1)] *)
Definition capitalize (s : string) : string :=
  match s with
  | EmptyString => EmptyString
  | String c r => String (upper_char c) r
  end.

(** A JavaScript string is truthy when it is not empty. *)
Definition truthy (s : string) : bool :=
  match s with EmptyString => false | _ => true end.

Definition dquote : string := String (ascii_of_nat 34) EmptyString.

End Str.

(** Truthiness of a possibly undefined string. *)
Definition truthy (v : option string) : bool :=
  match v with
  | Some s => Str.truthy s
  | None => false
  end.

Definition opt_eqb (a b : option string) : bool :=
  match a, b with
  | Some x, Some y => String.eqb x y
  | None, None => true
  | _, _ => false
  end.

(* ================================================================= *)
(** ** JSON values and JavaScript objects *)

#[warnings="-register-all"] Inductive json : Type :=
| JNull
| JBool (b : bool)
| JNum (n : Z)
| JStr (s : string)
| JArr (items : list json)
| JObj (fields : list (string * json)).

Definition Obj := list (string * json).

Fixpoint obj_get (k : string) (o : Obj) : option json :=
  match o with
  | [] => None
  | (k', v) :: r => if String.eqb k' k then Some v else obj_get k r
  end.

(** [o[k] = v]: an existing key keeps its position. *)
Fixpoint obj_set (k : string) (v : json) (o : Obj) : Obj :=
  match o with
  | [] => [(k, v)]
  | (k', v') :: r =>
      if String.eqb k' k then (k, v) :: r else (k', v') :: obj_set k v r
  end.

(** [delete o[k]] *)
Fixpoint obj_delete (k : string) (o : Obj) : Obj :=
  match o with
  | [] => []
  | (k', v) :: r =>
      if String.eqb k' k then obj_delete k r else (k', v) :: obj_delete k r
  end.

(** [{...o, ...data}] *)
Definition obj_spread (o data : Obj) : Obj :=
  fold_left (fun acc kv => obj_set (fst kv) (snd kv) acc) data o.

(** Does the key occur anywhere in the value, at any depth? *)
Fixpoint mentions_key (k : string) (j : json) : bool :=
  match j with
  | JArr items =>
      (fix in_items (l : list json) : bool :=
         match l with
         | [] => false
         | x :: r => (mentions_key k x || in_items r)%bool
         end) items
  | JObj fields =>
      (fix in_fields (l : list (string * json)) : bool :=
         match l with
         | [] => false
         | (k', v) :: r => (String.eqb k' k || mentions_key k v || in_fields r)%bool
         end) fields
  | _ => false
  end.

Definition obj_mentions (k : string) (o : Obj) : bool := mentions_key k (JObj o).

Definition items_mention (k : string) (l : list json) : bool := mentions_key k (JArr l).

(* ================================================================= *)
(** ** config/constants.js *)

Module STATUS_CODES.
Definition OK := 200.
Definition CREATED := 201.
Definition BAD_REQUEST := 400.
Definition UNAUTHORIZED := 401.
Definition FORBIDDEN := 403.
Definition NOT_FOUND := 404.
Definition CONFLICT := 409.
Definition UNPROCESSABLE_ENTITY := 422.
Definition INTERNAL_SERVER_ERROR := 500.
End STATUS_CODES.

Module TASK_STATUS.
Definition TODO := "todo".
Definition IN_PROGRESS := "in-progress".
Definition COMPLETED := "completed".
  (** [Object.values(TASK_STATUS)] *)
Definition values : list string := [TODO; IN_PROGRESS; COMPLETED].
End TASK_STATUS.

Module VALIDATION_RULES.
Definition PASSWORD_MIN_LENGTH := 8%nat.
Definition USERNAME_MIN_LENGTH := 3%nat.
Definition USERNAME_MAX_LENGTH := 30%nat.
End VALIDATION_RULES.

Module ERROR_MESSAGES.
Definition INVALID_CREDENTIALS := "Invalid credentials".
Definition USER_EXISTS := "User already exists".
Definition USER_NOT_FOUND := "User not found".
Definition UNAUTHORIZED := "Unauthorized access".
Definition INVALID_TOKEN := "Invalid or expired token".
Definition TASK_NOT_FOUND := "Task not found".
Definition VALIDATION_ERROR := "Validation error".
Definition SERVER_ERROR := "Internal server error".
End ERROR_MESSAGES.

(* ================================================================= *)
(** ** Data model *)

Definition ObjectId := string.
Definition Date := Z.

(** A user document.  [u_password] is [None] on a document that was loaded
    without the password path ([select: false] in the schema, or
    [.select('-password')]); every stored document has one. *)
Record User := mkUser {
  u_id : ObjectId;
  u_username : string;
  u_email : string;
  u_password : option string;
  u_createdAt : Date;
  u_updatedAt : Date
}.

Record Task := mkTask {
  t_id : ObjectId;
  t_title : string;
  t_description : string;
  t_status : string;
  t_userId : ObjectId;
  t_createdAt : Date;
  t_updatedAt : Date
}.

Record Store := mkStore {
  users : list User;
  tasks : list Task
}.

(** The payload of a bearer token. *)
Record JwtPayload := mkPayload {
  jwt_id : ObjectId;
  jwt_iat : Z;
  jwt_exp : option Z
}.

(** The libraries behind the code. *)
Record Libs := mkLibs {
  (** [bcrypt.hash(plain, salt)] *)
  bcrypt_hash : string -> string -> string;
  (** [bcrypt.compare(plain, hash)] *)
  bcrypt_compare : string -> string -> bool;
  (** jsonwebtoken: serialisation of a signed payload under a secret *)
  jwt_encode : string -> JwtPayload -> string;
  (** jsonwebtoken: the payload of a well-formed token *)
  jwt_decode : string -> option JwtPayload;
  (** jsonwebtoken: does the signature of the token match the secret? *)
  jwt_signature_ok : string -> string -> bool;
  (** validator.js [isEmail] and [normalizeEmail] *)
  isEmail : string -> bool;
  normalizeEmail : string -> string;
  (** MongoDB [$text] search over the (title, description) text index *)
  text_search : string -> Task -> bool;
  (** Does Mongoose apply the schema setters (trim, lowercase) to the
      values of a query filter?  It does from version 5 on. *)
  setters_on_query : bool
}.

(** What a request sees of the process and of the outside world. *)
Record Env := mkEnv {
  JWT_SECRET : string;
  (** [process.env.JWT_EXPIRES_IN], in seconds; [None] when unset *)
  JWT_EXPIRES_IN : option Z;
  (** [process.env.NODE_ENV === 'development'] *)
  development : bool;
  (** [Date.now()] *)
  now : Date;
  (** the ObjectId the driver gives to the next inserted document *)
  fresh_id : ObjectId;
  (** the salt [bcrypt.genSalt(10)] returns *)
  salt : string
}.

(* ================================================================= *)
(** ** Requests, responses and middleware *)

(** An entry of [validationResult(req).array()]. *)
Record FieldError := mkFieldError {
  fe_location : string;
  fe_path : string;
  fe_value : option string;
  fe_msg : string
}.

(** [req.body], [req.params] and [req.query] are objects with string
    values (the JSON body of the client, the URL parameters, the query
    string); an absent key reads as [undefined]. *)
Definition Fields := list (string * string).

Fixpoint field_get (k : string) (o : Fields) : option string :=
  match o with
  | [] => None
  | (k', v) :: r => if String.eqb k' k then Some v else field_get k r
  end.

Fixpoint field_set (k : string) (v : string) (o : Fields) : Fields :=
  match o with
  | [] => [(k, v)]
  | (k', v') :: r =>
      if String.eqb k' k then (k, v) :: r else (k', v') :: field_set k v r
  end.

Record Req := mkReq {
  originalUrl : string;
  authorization : option string;     (* req.headers.authorization *)
  params : Fields;
  query : Fields;
  body : Fields;
  user : option User;                (* req.user *)
  validation_errors : list FieldError
}.

Record Response := mkResponse {
  res_status : Z;
  res_body : json
}.

(** Errors passed to [next(error)]. *)
Inductive Error :=
| ValidationError (messages : list string)
| DuplicateKeyError (field value : string)
| CastError (path value : string)
| OtherError (statusCode : option Z) (message stack : string).

(** What a middleware does with a request: it answers, it hands the
    (possibly updated) request to the next middleware, or it hands an
    error to the error handler. *)
Inductive Outcome :=
| Respond (r : Response)
| Next (req : Req)
| NextErr (e : Error).

Definition Middleware := Libs -> Env -> Req -> Store -> Outcome * Store.

(* ================================================================= *)
(** ** utils/response.js *)

Definition sendSuccess (statusCode : Z) (data : Obj) (message : string) : Response :=
  let response := obj_spread [("success", JBool true)] data in
  let response :=
    if Str.truthy message then obj_set "message" (JStr message) response
    else response in
  mkResponse statusCode (JObj response).

Definition sendError (statusCode : Z) (message : string) : Response :=
  mkResponse statusCode
    (JObj [("success", JBool false); ("message", JStr message)]).

(** The numbers [parseInt] and [Math.ceil(total / limit)] can produce. *)
Inductive JsNum :=
| Num (z : Z)
| NaN
| Infinity.

Definition num_truthy (n : JsNum) : bool :=
  match n with
  | Num z => negb (z =? 0)
  | NaN => false
  | Infinity => true
  end.

(** [a < b] *)
Definition num_lt (a b : JsNum) : bool :=
  match a, b with
  | Num x, Num y => x <? y
  | Num _, Infinity => true
  | _, _ => false
  end.

(** [JSON.stringify] writes a number that is not finite as [null]. *)
Definition num_json (n : JsNum) : json :=
  match n with
  | Num z => JNum z
  | _ => JNull
  end.

(** [Math.ceil(total / limit)] for a count [total]: the quotient of two
    integers rounded up ([Z.div] rounds towards minus infinity); a division
    by zero gives [Infinity], or [NaN] when [total] is zero too. *)
Definition Math_ceil_div (total : Z) (limit : JsNum) : JsNum :=
  match limit with
  | Num l =>
      if l =? 0 then (if total =? 0 then NaN else Infinity)
      else Num (- ((- total) / l))
  | NaN => NaN
  | Infinity => Num 0
  end.

Definition sendPaginatedResponse
    (data : list json) (page limit : JsNum) (total : Z) : Response :=
  let totalPages := Math_ceil_div total limit in
  let hasNextPage := num_lt page totalPages in
  let hasPrevPage := num_lt (Num 1) page in
  mkResponse STATUS_CODES.OK
    (JObj [("success", JBool true);
           ("data", JArr data);
           ("pagination",
            JObj [("currentPage", num_json page);
                  ("totalPages", num_json totalPages);
                  ("totalItems", JNum total);
                  ("itemsPerPage", num_json limit);
                  ("hasNextPage", JBool hasNextPage);
                  ("hasPrevPage", JBool hasPrevPage)])]).

(* ================================================================= *)
(** ** middleware/errorHandler.js *)

Definition handleValidationError (messages : list string) : string * Z :=
  (Str.join ", " messages, STATUS_CODES.UNPROCESSABLE_ENTITY).

Definition handleDuplicateKeyError (field value : string) : string * Z :=
  (Str.capitalize field ++ " '" ++ value ++ "' already exists",
   STATUS_CODES.CONFLICT).

Definition handleCastError (path value : string) : string * Z :=
  ("Invalid " ++ path ++ ": " ++ value, STATUS_CODES.BAD_REQUEST).

Definition errorHandler (E : Env) (err : Error) : Response :=
  match err with
  | ValidationError messages =>
      let formatted := handleValidationError messages in
      mkResponse (snd formatted)
        (JObj [("success", JBool false); ("message", JStr (fst formatted))])
  | DuplicateKeyError field value =>
      let formatted := handleDuplicateKeyError field value in
      mkResponse (snd formatted)
        (JObj [("success", JBool false); ("message", JStr (fst formatted))])
  | CastError path value =>
      let formatted := handleCastError path value in
      mkResponse (snd formatted)
        (JObj [("success", JBool false); ("message", JStr (fst formatted))])
  | OtherError statusCode message stack =>
      let code :=
        match statusCode with
        | Some c => if c =? 0 then STATUS_CODES.INTERNAL_SERVER_ERROR else c
        | None => STATUS_CODES.INTERNAL_SERVER_ERROR
        end in
      let message :=
        if Str.truthy message then message else ERROR_MESSAGES.SERVER_ERROR in
      mkResponse code
        (JObj ([("success", JBool false); ("message", JStr message)]
               ++ (if development E then [("stack", JStr stack)] else [])))
  end.

(** The [TypeError] of reading a property of [undefined]. *)
Definition type_error (what : string) : Error :=
  OtherError None ("Cannot read properties of undefined (reading '" ++ what ++ "')") "".

(* ================================================================= *)
(** ** models/User.js *)

(** The setters of [username] and [email]: [trim: true, lowercase: true]. *)
Definition set_string (s : string) : string := Str.toLowerCase (Str.trim s).

Definition set_opt (v : option string) : string :=
  match v with
  | Some s => set_string s
  | None => ""
  end.

(** [/^[a-zA-Z0-9_-]+$/] *)
Definition username_char (c : ascii) : bool :=
  (Str.is_upper c || Str.is_lower c || Str.is_digit c
   || Ascii.eqb c "_" || Ascii.eqb c "-")%bool.

Definition username_pattern (s : string) : bool :=
  (Str.truthy s && Str.all_chars username_char s)%bool.

(** [/^\S+@\S+\.\S+$/]: no white space, an [@] after at least one
    character, and after it a dot with a character on both sides. *)
Fixpoint dot_then_more (r : string) : bool :=
  match r with
  | EmptyString => false
  | String c rest => ((Ascii.eqb c "." && Str.truthy rest) || dot_then_more rest)%bool
  end.

Definition domain_pattern (r : string) : bool :=
  match r with
  | EmptyString => false
  | String _ rest => dot_then_more rest
  end.

Fixpoint at_then_domain (s : string) : bool :=
  match s with
  | EmptyString => false
  | String c rest => ((Ascii.eqb c "@" && domain_pattern rest) || at_then_domain rest)%bool
  end.

Definition email_pattern (s : string) : bool :=
  (Str.all_chars (fun c => negb (Str.is_space c)) s
   && match s with
      | EmptyString => false
      | String _ rest => at_then_domain rest
      end)%bool.

(** Mongoose reports, for a path, the first of its validators that fails. *)
Definition first_failure (checks : list (bool * string)) : list string :=
  match find (fun c => negb (fst c)) checks with
  | Some c => [snd c]
  | None => []
  end.

Definition validate_username (v : string) : list string :=
  first_failure
    [(Str.truthy v, "Username is required");
     (Nat.leb VALIDATION_RULES.USERNAME_MIN_LENGTH (String.length v),
      "Username must be at least 3 characters");
     (Nat.leb (String.length v) VALIDATION_RULES.USERNAME_MAX_LENGTH,
      "Username cannot exceed 30 characters");
     (username_pattern v,
      "Username can only contain letters, numbers, underscores, and hyphens")].

Definition validate_email (v : string) : list string :=
  first_failure
    [(Str.truthy v, "Email is required");
     (email_pattern v, "Please provide a valid email address")].

Definition validate_password (v : string) : list string :=
  first_failure
    [(Str.truthy v, "Password is required");
     (Nat.leb VALIDATION_RULES.PASSWORD_MIN_LENGTH (String.length v),
      "Password must be at least 8 characters")].

(** Validation of a user document before it is saved.  A password path that
    was not selected when the document was loaded is not validated; on a new
    document it is required. *)
Definition validate_user (isNew : bool) (doc : User) : list string :=
  (validate_username (u_username doc)
   ++ validate_email (u_email doc)
   ++ match u_password doc with
      | Some p => validate_password p
      | None => if isNew then ["Password is required"] else []
      end)%list.

(** [userSchema.pre('save')]: hash the password when it was modified. *)
Definition pre_save (L : Libs) (E : Env) (isModified_password : bool) (doc : User) : User :=
  if negb isModified_password then doc
  else
    mkUser (u_id doc) (u_username doc) (u_email doc)
      (option_map (fun p => bcrypt_hash L p (salt E)) (u_password doc))
      (u_createdAt doc) (u_updatedAt doc).

(** [userSchema.methods.comparePassword]; [bcrypt.compare] throws when one
    of its arguments is [undefined]. *)
Definition comparePassword (L : Libs) (this : User) (enteredPassword : option string)
  : Error + bool :=
  match enteredPassword, u_password this with
  | Some p, Some h => inr (bcrypt_compare L p h)
  | _, _ => inl (OtherError None "Illegal arguments" "")
  end.

(** [userSchema.methods.toPublicJSON] *)
Definition toPublicJSON (this : User) : Obj :=
  [("id", JStr (u_id this));
   ("username", JStr (u_username this));
   ("email", JStr (u_email this));
   ("createdAt", JNum (u_createdAt this));
   ("updatedAt", JNum (u_updatedAt this))].

(** [doc.toObject()]: the paths the document holds. *)
Definition user_toObject (doc : User) : Obj :=
  ([("_id", JStr (u_id doc));
    ("username", JStr (u_username doc));
    ("email", JStr (u_email doc))]
   ++ match u_password doc with
      | Some p => [("password", JStr p)]
      | None => []
      end
   ++ [("createdAt", JNum (u_createdAt doc));
       ("updatedAt", JNum (u_updatedAt doc));
       ("__v", JNum 0)])%list.

(** The [toJSON] transform of the user schema. *)
Definition user_transform (doc : User) (ret : Obj) : Obj :=
  let ret := obj_set "id" (JStr (u_id doc)) ret in
  let ret := obj_delete "_id" ret in
  let ret := obj_delete "__v" ret in
  let ret := obj_delete "password" ret in
  ret.

Definition user_toJSON (doc : User) : json :=
  JObj (user_transform doc (user_toObject doc)).

(** *** Queries over the users collection *)

Inductive UserCond :=
| ByEmail (v : option string)
| ByUsername (v : option string)
| IdNe (id : ObjectId).

Inductive UserQuery :=
| QAnd (conds : list UserCond)
| QOr (alternatives : list (list UserCond)).

(** Casting of a string value of a filter. *)
Definition cast_string (L : Libs) (v : string) : string :=
  if setters_on_query L then set_string v else v.

Definition match_cond (L : Libs) (u : User) (c : UserCond) : bool :=
  match c with
  | ByEmail (Some v) => String.eqb (u_email u) (cast_string L v)
  | ByUsername (Some v) => String.eqb (u_username u) (cast_string L v)
  | ByEmail None | ByUsername None => false
  | IdNe id => negb (String.eqb (u_id u) id)
  end.

Definition match_query (L : Libs) (q : UserQuery) (u : User) : bool :=
  match q with
  | QAnd conds => forallb (match_cond L u) conds
  | QOr alternatives => existsb (forallb (match_cond L u)) alternatives
  end.

Definition without_password (u : User) : User :=
  mkUser (u_id u) (u_username u) (u_email u) None (u_createdAt u) (u_updatedAt u).

(** [User.findOne(q)]; the password path is loaded only with
    [.select('+password')]. *)
Definition User_findOne (L : Libs) (q : UserQuery) (selectPassword : bool)
    (us : list User) : option User :=
  match find (match_query L q) us with
  | Some u => Some (if selectPassword then u else without_password u)
  | None => None
  end.

(** [User.findById(id)], also with [.select('-password')]. *)
Definition User_findById (id : ObjectId) (us : list User) : option User :=
  option_map without_password (find (fun u => String.eqb (u_id u) id) us).

(** The unique indexes ([_id], [username], [email]): the first key of
    [doc] that another document already holds. *)
Definition unique_violation (doc : User) (us : list User) : option (string * string) :=
  let others := filter (fun u => negb (String.eqb (u_id u) (u_id doc))) us in
  if existsb (fun u => String.eqb (u_username u) (u_username doc)) others
  then Some ("username", u_username doc)
  else if existsb (fun u => String.eqb (u_email u) (u_email doc)) others
  then Some ("email", u_email doc)
  else None.

(** [User.create({email, username, password})] *)
Definition User_create (L : Libs) (E : Env)
    (email username password : option string) (us : list User)
  : Error + (User * list User) :=
  let doc := mkUser (fresh_id E) (set_opt username) (set_opt email) password
               (now E) (now E) in
  match validate_user true doc with
  | _ :: _ as messages => inl (ValidationError messages)
  | [] =>
      let doc := pre_save L E true doc in
      if existsb (fun u => String.eqb (u_id u) (u_id doc)) us
      then inl (DuplicateKeyError "_id" (u_id doc))
      else
        match unique_violation doc us with
        | Some (field, value) => inl (DuplicateKeyError field value)
        | None => inr (doc, (us ++ [doc])%list)
        end
  end.

Definition user_eqb_paths (a b : User) : bool :=
  (String.eqb (u_username a) (u_username b)
   && String.eqb (u_email a) (u_email b)
   && opt_eqb (u_password a) (u_password b))%bool.

(** The stored document after [doc] is written over [old]: a password
    path that [doc] does not hold is left as it is. *)
Definition write_user (doc old : User) : User :=
  mkUser (u_id old) (u_username doc) (u_email doc)
    (match u_password doc with
     | Some p => Some p
     | None => u_password old
     end)
    (u_createdAt doc) (u_updatedAt doc).

Fixpoint replace_user (doc : User) (us : list User) : list User :=
  match us with
  | [] => []
  | u :: r =>
      if String.eqb (u_id u) (u_id doc) then write_user doc u :: r
      else u :: replace_user doc r
  end.

(** [doc.save()] on a document that was loaded as [loaded]. *)
Definition User_save (L : Libs) (E : Env) (loaded doc : User) (us : list User)
  : Error + (User * list User) :=
  match validate_user false doc with
  | _ :: _ as messages => inl (ValidationError messages)
  | [] =>
      let isModified_password := negb (opt_eqb (u_password doc) (u_password loaded)) in
      let doc := pre_save L E isModified_password doc in
      let doc :=
        if user_eqb_paths doc loaded then doc
        else mkUser (u_id doc) (u_username doc) (u_email doc) (u_password doc)
               (u_createdAt doc) (now E) in
      if negb (existsb (fun u => String.eqb (u_id u) (u_id doc)) us)
      then inl (OtherError None "No document found for query" "")
      else
        match unique_violation doc us with
        | Some (field, value) => inl (DuplicateKeyError field value)
        | None => inr (doc, replace_user doc us)
        end
  end.

(** Assignments to the paths of a user document run the setters. *)
Definition set_username (v : string) (doc : User) : User :=
  mkUser (u_id doc) (set_string v) (u_email doc) (u_password doc)
    (u_createdAt doc) (u_updatedAt doc).

Definition set_email (v : string) (doc : User) : User :=
  mkUser (u_id doc) (u_username doc) (set_string v) (u_password doc)
    (u_createdAt doc) (u_updatedAt doc).

Definition set_password (v : string) (doc : User) : User :=
  mkUser (u_id doc) (u_username doc) (u_email doc) (Some v)
    (u_createdAt doc) (u_updatedAt doc).

(* ================================================================= *)
(** ** JavaScript numbers of the task listing *)

Definition digit_value (c : ascii) : Z := Z.of_nat (nat_of_ascii c - 48).

Fixpoint parse_digits (acc : option Z) (s : string) : option Z :=
  match s with
  | EmptyString => acc
  | String c r =>
      if Str.is_digit c
      then parse_digits
             (Some (10 * match acc with Some a => a | None => 0 end + digit_value c)) r
      else acc
  end.

(** [parseInt(s, 10)]: leading white space, an optional sign, then the
    longest run of decimal digits; [NaN] when there is none. *)
Definition parseInt (s : string) : JsNum :=
  let s := Str.trimStart s in
  let '(negative, digits) :=
    match s with
    | String "-" r => (true, r)
    | String "+" r => (false, r)
    | _ => (false, s)
    end in
  match parse_digits None digits with
  | Some v => Num (if negative then - v else v)
  | None => NaN
  end.

(* ================================================================= *)
(** ** models/Task.js *)

Definition validate_title (v : string) : list string :=
  first_failure
    [(Str.truthy v, "Task title is required");
     (Nat.leb (String.length v) 200, "Title cannot exceed 200 characters")].

Definition validate_description (v : string) : list string :=
  first_failure
    [(Nat.leb (String.length v) 2000, "Description cannot exceed 2000 characters")].

Definition validate_status (v : string) : list string :=
  first_failure
    [(existsb (String.eqb v) TASK_STATUS.values,
      "Status must be one of: " ++ Str.join ", " TASK_STATUS.values)].

Definition validate_task (doc : Task) : list string :=
  (validate_title (t_title doc)
   ++ validate_description (t_description doc)
   ++ validate_status (t_status doc))%list.

(** [doc.toObject()] followed by the [toJSON] transform of the task schema. *)
Definition task_toObject (doc : Task) : Obj :=
  [("_id", JStr (t_id doc));
   ("title", JStr (t_title doc));
   ("description", JStr (t_description doc));
   ("status", JStr (t_status doc));
   ("userId", JStr (t_userId doc));
   ("createdAt", JNum (t_createdAt doc));
   ("updatedAt", JNum (t_updatedAt doc));
   ("__v", JNum 0)].

Definition task_transform (doc : Task) (ret : Obj) : Obj :=
  let ret := obj_set "id" (JStr (t_id doc)) ret in
  let ret := obj_delete "_id" ret in
  let ret := obj_delete "__v" ret in
  ret.

Definition task_toJSON (doc : Task) : json :=
  JObj (task_transform doc (task_toObject doc)).

(** The filter [{ _id, userId }] of the single-task queries. *)
Definition owned_by (id userId : ObjectId) (t : Task) : bool :=
  (String.eqb (t_id t) id && String.eqb (t_userId t) userId)%bool.

(** [Task.findOne({ _id, userId })] *)
Definition Task_findOne (id userId : ObjectId) (ts : list Task) : option Task :=
  find (owned_by id userId) ts.

Fixpoint remove_first (p : Task -> bool) (ts : list Task) : list Task :=
  match ts with
  | [] => []
  | t :: r => if p t then r else t :: remove_first p r
  end.

(** [Task.findOneAndDelete({ _id, userId })] *)
Definition Task_findOneAndDelete (id userId : ObjectId) (ts : list Task)
  : option Task * list Task :=
  match find (owned_by id userId) ts with
  | Some t => (Some t, remove_first (owned_by id userId) ts)
  | None => (None, ts)
  end.

(** [Task.create({title, description, status, userId})]: setters ([trim]),
    validation, insertion under a fresh [_id]. *)
Definition Task_create (E : Env) (title : option string)
    (description status : string) (userId : ObjectId) (ts : list Task)
  : Error + (Task * list Task) :=
  let doc := mkTask (fresh_id E)
               (match title with Some v => Str.trim v | None => "" end)
               (Str.trim description) status userId (now E) (now E) in
  match validate_task doc with
  | _ :: _ as messages => inl (ValidationError messages)
  | [] =>
      if existsb (fun t => String.eqb (t_id t) (t_id doc)) ts
      then inl (DuplicateKeyError "_id" (t_id doc))
      else inr (doc, (ts ++ [doc])%list)
  end.

(** Assignments to the paths of a task document run the setters. *)
Definition set_title (v : string) (doc : Task) : Task :=
  mkTask (t_id doc) (Str.trim v) (t_description doc) (t_status doc)
    (t_userId doc) (t_createdAt doc) (t_updatedAt doc).

Definition set_description (v : string) (doc : Task) : Task :=
  mkTask (t_id doc) (t_title doc) (Str.trim v) (t_status doc)
    (t_userId doc) (t_createdAt doc) (t_updatedAt doc).

Definition set_status (v : string) (doc : Task) : Task :=
  mkTask (t_id doc) (t_title doc) (t_description doc) v
    (t_userId doc) (t_createdAt doc) (t_updatedAt doc).

Definition task_eqb_paths (a b : Task) : bool :=
  (String.eqb (t_title a) (t_title b)
   && String.eqb (t_description a) (t_description b)
   && String.eqb (t_status a) (t_status b))%bool.

Fixpoint replace_task (doc : Task) (ts : list Task) : list Task :=
  match ts with
  | [] => []
  | t :: r =>
      if String.eqb (t_id t) (t_id doc) then doc :: r
      else t :: replace_task doc r
  end.

(** [doc.save()] on a task that was loaded as [loaded]: validation, the
    [updatedAt] timestamp when a path was modified, the write by [_id]. *)
Definition Task_save (E : Env) (loaded doc : Task) (ts : list Task)
  : Error + (Task * list Task) :=
  match validate_task doc with
  | _ :: _ as messages => inl (ValidationError messages)
  | [] =>
      let doc :=
        if task_eqb_paths doc loaded then doc
        else mkTask (t_id doc) (t_title doc) (t_description doc) (t_status doc)
               (t_userId doc) (t_createdAt doc) (now E) in
      if negb (existsb (fun t => String.eqb (t_id t) (t_id doc)) ts)
      then inl (OtherError None "No document found for query" "")
      else inr (doc, replace_task doc ts)
  end.

(** The filters and options of [findByUser] / [countByUser]. *)
Record TaskFilters := mkFilters {
  f_status : option string;
  f_search : option string
}.

Record TaskOptions := mkOptions {
  o_page : option JsNum;
  o_limit : option JsNum
}.

(** The MongoDB query [{ userId, status?, $text? }]. *)
Record TaskQuery := mkQuery {
  q_userId : ObjectId;
  q_status : option string;
  q_text : option string
}.

Definition build_query (userId : ObjectId) (filters : TaskFilters) : TaskQuery :=
  let q := mkQuery userId None None in
  let q := if truthy (f_status filters)
           then mkQuery (q_userId q) (f_status filters) (q_text q) else q in
  let q := if truthy (f_search filters)
           then mkQuery (q_userId q) (q_status q) (f_search filters) else q in
  q.

Definition match_task (L : Libs) (q : TaskQuery) (t : Task) : bool :=
  (String.eqb (t_userId t) (q_userId q)
   && match q_status q with
      | Some st => String.eqb (t_status t) st
      | None => true
      end
   && match q_text q with
      | Some text => text_search L text t
      | None => true
      end)%bool.

(** [.sort('-createdAt')]: newest first, stable. *)
Fixpoint insert_newest (t : Task) (l : list Task) : list Task :=
  match l with
  | [] => [t]
  | x :: r =>
      if t_createdAt x <=? t_createdAt t then t :: l
      else x :: insert_newest t r
  end.

Definition sort_newest_first (l : list Task) : list Task :=
  fold_right insert_newest [] l.

Definition opt_truthy (n : option JsNum) : bool :=
  match n with
  | Some v => num_truthy v
  | None => false
  end.

(** [.skip(skip).limit(limit)]: MongoDB refuses a negative skip, and
    reads a negative limit as its absolute value. *)
Definition skip_limit (skip limit : Z) (l : list Task) : Error + list Task :=
  if skip <? 0 then inl (OtherError None "Skip value must be non-negative" "")
  else inr (firstn (Z.abs_nat limit) (skipn (Z.to_nat skip) l)).

(** [taskSchema.statics.findByUser] *)
Definition findByUser (L : Libs) (userId : ObjectId) (filters : TaskFilters)
    (options : TaskOptions) (ts : list Task) : Error + list Task :=
  let query := build_query userId filters in
  let taskQuery := filter (match_task L query) ts in
  let taskQuery := sort_newest_first taskQuery in
  if (opt_truthy (o_page options) && opt_truthy (o_limit options))%bool then
    match o_page options, o_limit options with
    | Some (Num page), Some (Num limit) =>
        let skip := (page - 1) * limit in
        skip_limit skip limit taskQuery
    | _, _ => inl (OtherError None "Invalid pagination value" "")
    end
  else inr taskQuery.

(** [taskSchema.statics.countByUser] *)
Definition countByUser (L : Libs) (userId : ObjectId) (filters : TaskFilters)
    (ts : list Task) : Z :=
  let query := build_query userId filters in
  Z.of_nat (List.length (filter (match_task L query) ts)).

(* ================================================================= *)
(** ** utils/jwt.js and the jsonwebtoken library *)

(** The clock of jsonwebtoken, in seconds. *)
Definition clock_seconds (E : Env) : Z := now E / 1000.

(** ['7d'] *)
Definition seven_days : Z := 7 * 24 * 60 * 60.

(** [jwt.sign({ id }, secret, { expiresIn })]: the payload gets the issue
    time and the expiry time. *)
Definition jwt_sign (L : Libs) (E : Env) (id : ObjectId) (expiresIn : Z) : string :=
  jwt_encode L (JWT_SECRET E)
    (mkPayload id (clock_seconds E) (Some (clock_seconds E + expiresIn))).

(** [generateToken] *)
Definition generateToken (L : Libs) (E : Env) (id : ObjectId) : string :=
  jwt_sign L E id
    (match JWT_EXPIRES_IN E with
     | Some lifetime => lifetime
     | None => seven_days
     end).

Inductive JwtError :=
| TokenExpiredError
| JsonWebTokenError.

Definition error_name (e : JwtError) : string :=
  match e with
  | TokenExpiredError => "TokenExpiredError"
  | JsonWebTokenError => "JsonWebTokenError"
  end.

(** [jwt.verify(token, secret)]: a token that is missing, malformed or
    signed under another secret is refused, then one whose expiry time is
    not in the future. *)
Definition jwt_verify (L : Libs) (E : Env) (token : option string)
  : JwtError + JwtPayload :=
  match token with
  | None => inl JsonWebTokenError
  | Some t =>
      match jwt_decode L t with
      | None => inl JsonWebTokenError
      | Some payload =>
          if negb (jwt_signature_ok L (JWT_SECRET E) t) then inl JsonWebTokenError
          else
            match jwt_exp payload with
            | Some exp =>
                if exp <=? clock_seconds E then inl TokenExpiredError
                else inr payload
            | None => inr payload
            end
      end
  end.

(* ================================================================= *)
(** ** middleware/auth.js *)

Definition set_user (u : option User) (req : Req) : Req :=
  mkReq (originalUrl req) (authorization req) (params req) (query req) (body req) u
    (validation_errors req).

(** The 401 answers of the gate. *)
Definition unauthorized (message : string) : Response :=
  mkResponse STATUS_CODES.UNAUTHORIZED
    (JObj [("success", JBool false); ("message", JStr message)]).

(** The header is there and starts with [Bearer]. *)
Definition has_bearer (req : Req) : bool :=
  match authorization req with
  | Some h => (Str.truthy h && Str.startsWith h "Bearer")%bool
  | None => false
  end.

(** [req.headers.authorization.split(' ')[1]] *)
Definition bearer_token (req : Req) : option string :=
  match authorization req with
  | Some h => nth_error (Str.split " " h) 1
  | None => None
  end.

Definition token_error_message (name : string) : string :=
  if String.eqb name "TokenExpiredError" then "Token has expired"
  else if String.eqb name "JsonWebTokenError" then "Invalid token"
  else ERROR_MESSAGES.INVALID_TOKEN.

Definition protect : Middleware := fun L E req s =>
  if has_bearer req then
    let token := bearer_token req in
    match jwt_verify L E token with
    | inr decoded =>
        match User_findById (jwt_id decoded) (users s) with
        | None => (Respond (unauthorized ERROR_MESSAGES.USER_NOT_FOUND), s)
        | Some u => (Next (set_user (Some u) req), s)
        end
    | inl error =>
        (Respond (unauthorized (token_error_message (error_name error))), s)
    end
  else (Respond (unauthorized ERROR_MESSAGES.UNAUTHORIZED), s).

Definition optionalAuth : Middleware := fun L E req s =>
  if has_bearer req then
    let token := bearer_token req in
    match jwt_verify L E token with
    | inr decoded =>
        (Next (set_user (User_findById (jwt_id decoded) (users s)) req), s)
    | inl _ => (Next req, s)
    end
  else (Next req, s).

(* ================================================================= *)
(** ** controllers/authController.js *)

Definition set_users (us : list User) (s : Store) : Store := mkStore us (tasks s).

Definition set_tasks (ts : list Task) (s : Store) : Store := mkStore (users s) ts.

Definition signup : Middleware := fun L E req s =>
  let email := field_get "email" (body req) in
  let username := field_get "username" (body req) in
  let password := field_get "password" (body req) in
  match username with
  | None => (NextErr (type_error "toLowerCase"), s)
  | Some username =>
      let existingUser :=
        User_findOne L
          (QOr [[ByEmail email]; [ByUsername (Some (Str.toLowerCase username))]])
          false (users s) in
      match existingUser with
      | Some existingUser =>
          (Respond
             (sendError STATUS_CODES.CONFLICT
                (if opt_eqb (Some (u_email existingUser)) email
                 then "Email already registered"
                 else "Username already taken")), s)
      | None =>
          match User_create L E email (Some (Str.toLowerCase username)) password
                  (users s) with
          | inl error => (NextErr error, s)
          | inr (user, us) =>
              let token := generateToken L E (u_id user) in
              (Respond
                 (sendSuccess STATUS_CODES.CREATED
                    [("token", JStr token); ("user", JObj (toPublicJSON user))] ""),
               set_users us s)
          end
      end
  end.

(** The filter of [login]: the lowercased identifier as email or as
    username. *)
Definition login_query (emailOrUsername : string) : UserQuery :=
  QOr [[ByEmail (Some (Str.toLowerCase emailOrUsername))];
       [ByUsername (Some (Str.toLowerCase emailOrUsername))]].

(** [sendError(res, STATUS_CODES.UNAUTHORIZED, ERROR_MESSAGES.INVALID_CREDENTIALS)] *)
Definition invalid_credentials : Response :=
  sendError STATUS_CODES.UNAUTHORIZED ERROR_MESSAGES.INVALID_CREDENTIALS.

Definition login : Middleware := fun L E req s =>
  let emailOrUsername := field_get "emailOrUsername" (body req) in
  let password := field_get "password" (body req) in
  match emailOrUsername with
  | None => (NextErr (type_error "toLowerCase"), s)
  | Some emailOrUsername =>
      let user := User_findOne L (login_query emailOrUsername) true (users s) in
      match user with
      | None => (Respond invalid_credentials, s)
      | Some user =>
          match comparePassword L user password with
          | inl error => (NextErr error, s)
          | inr isPasswordValid =>
              if negb isPasswordValid then (Respond invalid_credentials, s)
              else
                let token := generateToken L E (u_id user) in
                (Respond
                   (sendSuccess STATUS_CODES.OK
                      [("token", JStr token); ("user", JObj (toPublicJSON user))] ""),
                 s)
          end
      end
  end.

Definition getProfile : Middleware := fun L E req s =>
  match user req with
  | None => (NextErr (type_error "id"), s)
  | Some req_user =>
      match User_findById (u_id req_user) (users s) with
      | None =>
          (Respond (sendError STATUS_CODES.NOT_FOUND ERROR_MESSAGES.USER_NOT_FOUND), s)
      | Some user =>
          (Respond (sendSuccess STATUS_CODES.OK (toPublicJSON user) ""), s)
      end
  end.

(** The filter of the uniqueness check of [updateProfile]. *)
Definition profile_conflict_query (username email : option string) (self : ObjectId)
  : UserQuery :=
  QAnd ((if truthy username
         then [ByUsername (option_map Str.toLowerCase username)] else [])
        ++ (if truthy email
            then [ByEmail (option_map Str.toLowerCase email)] else [])
        ++ [IdNe self])%list.

Definition updateProfile : Middleware := fun L E req s =>
  let username := field_get "username" (body req) in
  let email := field_get "email" (body req) in
  let password := field_get "password" (body req) in
  match user req with
  | None => (NextErr (type_error "id"), s)
  | Some req_user =>
      match User_findById (u_id req_user) (users s) with
      | None =>
          (Respond (sendError STATUS_CODES.NOT_FOUND ERROR_MESSAGES.USER_NOT_FOUND), s)
      | Some user =>
          let existingUser :=
            if (truthy username || truthy email)%bool
            then User_findOne L (profile_conflict_query username email (u_id user))
                   false (users s)
            else None in
          match existingUser with
          | Some existingUser =>
              (Respond
                 (sendError STATUS_CODES.CONFLICT
                    (if opt_eqb (Some (u_username existingUser))
                          (option_map Str.toLowerCase username)
                     then "Username already taken"
                     else "Email already registered")), s)
          | None =>
              let doc := user in
              let doc :=
                match username with
                | Some v => if Str.truthy v then set_username (Str.toLowerCase v) doc else doc
                | None => doc
                end in
              let doc :=
                match email with
                | Some v => if Str.truthy v then set_email (Str.toLowerCase v) doc else doc
                | None => doc
                end in
              let doc :=
                match password with
                | Some v => if Str.truthy v then set_password v doc else doc
                | None => doc
                end in
              match User_save L E user doc (users s) with
              | inl error => (NextErr error, s)
              | inr (saved, us) =>
                  (Respond (sendSuccess STATUS_CODES.OK (toPublicJSON saved) ""),
                   set_users us s)
              end
          end
      end
  end.

(* ================================================================= *)
(** ** controllers/taskController.js *)

Definition json_of_tasks (ts : list Task) : list json := map task_toJSON ts.

Definition task_not_found : Response :=
  sendError STATUS_CODES.NOT_FOUND ERROR_MESSAGES.TASK_NOT_FOUND.

(** The filters [getTasks] builds from the query string. *)
Definition query_filters (req : Req) : TaskFilters :=
  let status := field_get "status" (query req) in
  let search := field_get "search" (query req) in
  mkFilters (if truthy status then status else None)
            (if truthy search then search else None).

Definition getTasks : Middleware := fun L E req s =>
  let page := field_get "page" (query req) in
  let limit := field_get "limit" (query req) in
  let filters := query_filters req in
  let usePagination := (truthy page && truthy limit)%bool in
  match user req with
  | None => (NextErr (type_error "id"), s)
  | Some req_user =>
      if usePagination then
        let pageNum := parseInt (match page with Some p => p | None => "" end) in
        let limitNum := parseInt (match limit with Some l => l | None => "" end) in
        match findByUser L (u_id req_user) filters
                (mkOptions (Some pageNum) (Some limitNum)) (tasks s) with
        | inl error => (NextErr error, s)
        | inr found =>
            let total := countByUser L (u_id req_user) filters (tasks s) in
            (Respond
               (sendPaginatedResponse (json_of_tasks found) pageNum limitNum total), s)
        end
      else
        match findByUser L (u_id req_user) filters (mkOptions None None) (tasks s) with
        | inl error => (NextErr error, s)
        | inr found =>
            (Respond (mkResponse STATUS_CODES.OK (JArr (json_of_tasks found))), s)
        end
  end.

(** [{ _id: req.params.id, userId: req.user.id }] on the tasks; a filter
    whose [_id] is [undefined] matches no document. *)
Definition find_owned (req : Req) (req_user : User) (ts : list Task) : option Task :=
  match field_get "id" (params req) with
  | Some id => Task_findOne id (u_id req_user) ts
  | None => None
  end.

Definition getTaskById : Middleware := fun L E req s =>
  match user req with
  | None => (NextErr (type_error "id"), s)
  | Some req_user =>
      match find_owned req req_user (tasks s) with
      | None => (Respond task_not_found, s)
      | Some task => (Respond (mkResponse STATUS_CODES.OK (task_toJSON task)), s)
      end
  end.

Definition createTask : Middleware := fun L E req s =>
  let title := field_get "title" (body req) in
  let description := field_get "description" (body req) in
  let status := field_get "status" (body req) in
  match user req with
  | None => (NextErr (type_error "id"), s)
  | Some req_user =>
      match Task_create E title
              (match description with
               | Some d => if Str.truthy d then d else ""
               | None => ""
               end)
              (match status with
               | Some st => if Str.truthy st then st else "todo"
               | None => "todo"
               end)
              (u_id req_user) (tasks s) with
      | inl error => (NextErr error, s)
      | inr (task, ts) =>
          (Respond (mkResponse STATUS_CODES.CREATED (task_toJSON task)),
           set_tasks ts s)
      end
  end.

(** The assignments of [updateTask]: a path is written when the body
    holds it. *)
Definition apply_patch (title description status : option string) (task : Task) : Task :=
  let task := match title with Some v => set_title v task | None => task end in
  let task := match description with Some v => set_description v task | None => task end in
  let task := match status with Some v => set_status v task | None => task end in
  task.

Definition updateTask : Middleware := fun L E req s =>
  let title := field_get "title" (body req) in
  let description := field_get "description" (body req) in
  let status := field_get "status" (body req) in
  match user req with
  | None => (NextErr (type_error "id"), s)
  | Some req_user =>
      match find_owned req req_user (tasks s) with
      | None => (Respond task_not_found, s)
      | Some task =>
          let doc := apply_patch title description status task in
          match Task_save E task doc (tasks s) with
          | inl error => (NextErr error, s)
          | inr (saved, ts) =>
              (Respond (mkResponse STATUS_CODES.OK (task_toJSON saved)),
               set_tasks ts s)
          end
      end
  end.

Definition deleteTask : Middleware := fun L E req s =>
  match user req with
  | None => (NextErr (type_error "id"), s)
  | Some req_user =>
      match field_get "id" (params req) with
      | None => (Respond task_not_found, s)
      | Some id =>
          match Task_findOneAndDelete id (u_id req_user) (tasks s) with
          | (None, _) => (Respond task_not_found, s)
          | (Some _, ts) =>
              (Respond (sendSuccess STATUS_CODES.OK [] "Task deleted successfully"),
               set_tasks ts s)
          end
      end
  end.

(* ================================================================= *)
(** ** middleware/validation.js and the express-validator chains *)

Inductive Location := InBody | InParams | InQuery.

Definition location_name (l : Location) : string :=
  match l with
  | InBody => "body"
  | InParams => "params"
  | InQuery => "query"
  end.

(** The steps of a validation chain, in the order they were chained: a
    validator with the message [withMessage] gave it, or a sanitizer.
    A validator sees the request and the current value of the field. *)
Inductive ChainItem :=
| Validator (check : Req -> option string -> bool) (message : string)
| Sanitizer (f : string -> string).

Record Chain := mkChain {
  c_location : Location;
  c_field : string;
  c_optional : bool;
  c_items : list ChainItem
}.

(** express-validator hands [toString(value)] to the standard validators
    and sanitizers; [undefined] becomes the empty string. *)
Definition to_str (v : option string) : string :=
  match v with
  | Some s => s
  | None => ""
  end.

Definition standard (p : string -> bool) : Req -> option string -> bool :=
  fun _ v => p (to_str v).

Definition read_field (l : Location) (field : string) (req : Req) : option string :=
  match l with
  | InBody => field_get field (body req)
  | InParams => field_get field (params req)
  | InQuery => field_get field (query req)
  end.

Definition write_field (l : Location) (field : string) (v : string) (req : Req) : Req :=
  match l with
  | InBody =>
      mkReq (originalUrl req) (authorization req) (params req) (query req)
        (field_set field v (body req)) (user req) (validation_errors req)
  | InParams =>
      mkReq (originalUrl req) (authorization req) (field_set field v (params req)) (query req)
        (body req) (user req) (validation_errors req)
  | InQuery =>
      mkReq (originalUrl req) (authorization req) (params req) (field_set field v (query req))
        (body req) (user req) (validation_errors req)
  end.

Definition add_error (e : FieldError) (req : Req) : Req :=
  mkReq (originalUrl req) (authorization req) (params req) (query req) (body req) (user req)
    (validation_errors req ++ [e])%list.

(** One step of a chain: a failing validator records an error and the chain
    goes on; a sanitizer replaces the value, in the request too when it
    changed. *)
Definition run_item (l : Location) (field : string) (item : ChainItem)
    (state : Req * option string) : Req * option string :=
  let '(req, value) := state in
  match item with
  | Validator check message =>
      if check req value then (req, value)
      else (add_error (mkFieldError (location_name l) field value message) req, value)
  | Sanitizer f =>
      let newValue := f (to_str value) in
      (if opt_eqb (read_field l field req) (Some newValue) then req
       else write_field l field newValue req,
       Some newValue)
  end.

Definition run_items (l : Location) (field : string) (items : list ChainItem)
    (state : Req * option string) : Req * option string :=
  fold_left (fun st item => run_item l field item st) items state.

(** A chain run as a middleware: an optional chain is skipped when the
    field is [undefined]. *)
Definition run_chain (c : Chain) (req : Req) : Req :=
  let value := read_field (c_location c) (c_field c) req in
  match value with
  | None =>
      if c_optional c then req
      else fst (run_items (c_location c) (c_field c) (c_items c) (req, value))
  | Some _ => fst (run_items (c_location c) (c_field c) (c_items c) (req, value))
  end.

Definition run_chains (cs : list Chain) (req : Req) : Req :=
  fold_left (fun r c => run_chain c r) cs req.

(** An entry of [errors.array()] as JSON. *)
Definition field_error_json (e : FieldError) : json :=
  JObj ([("type", JStr "field")]
        ++ match fe_value e with
           | Some v => [("value", JStr v)]
           | None => []
           end
        ++ [("msg", JStr (fe_msg e));
            ("path", JStr (fe_path e));
            ("location", JStr (fe_location e))])%list.

(** [validate] *)
Definition validate : Middleware := fun L E req s =>
  let errors := validation_errors req in
  match errors with
  | _ :: _ =>
      let errorMessages := map fe_msg errors in
      (Respond
         (mkResponse STATUS_CODES.UNPROCESSABLE_ENTITY
            (JObj [("success", JBool false);
                   ("message", JStr (Str.join ", " errorMessages));
                   ("errors", JArr (map field_error_json errors))])), s)
  | [] => (Next req, s)
  end.

(** *** The validators of validator.js the rule sets use *)

Definition isLength (min : nat) (max : option nat) (s : string) : bool :=
  (Nat.leb min (String.length s)
   && match max with
      | Some m => Nat.leb (String.length s) m
      | None => true
      end)%bool.

Definition notEmpty (s : string) : bool := Str.truthy s.

Definition isIn (values : list string) (s : string) : bool :=
  existsb (String.eqb s) values.

(** A hexadecimal string of 24 characters. *)
Definition isMongoId (s : string) : bool :=
  (Str.all_chars Str.is_hex s && Nat.eqb (String.length s) 24)%bool.

(** The syntax of an integer: an optional sign, then either a single 0 or
    digits that do not start with 0. *)
Definition int_syntax (s : string) : bool :=
  let digits :=
    match s with
    | String "-" r => r
    | String "+" r => r
    | _ => s
    end in
  match digits with
  | EmptyString => false
  | String "0" EmptyString => true
  | String c r => (Str.is_digit c && negb (Ascii.eqb c "0") && Str.all_chars Str.is_digit r)%bool
  end.

Definition isInt (min : option Z) (max : option Z) (s : string) : bool :=
  (int_syntax s
   && match parseInt s with
      | Num v =>
          (match min with Some m => m <=? v | None => true end
           && match max with Some m => v <=? m | None => true end)%bool
      | _ => false
      end)%bool.

(** The character class of the special-character rule; the double quote
    is one of its members. *)
Definition special_chars : string := "!@#$%^&*(),.?" ++ Str.dquote ++ ":{}|<>".

Definition is_special (c : ascii) : bool := Str.mem_char c special_chars.

(** *** The rule sets *)

Definition username_items : list ChainItem :=
  [Sanitizer Str.trim;
   Validator (standard (isLength VALIDATION_RULES.USERNAME_MIN_LENGTH
                          (Some VALIDATION_RULES.USERNAME_MAX_LENGTH)))
     "Username must be between 3 and 30 characters";
   Validator (standard username_pattern)
     "Username can only contain letters, numbers, underscores, and hyphens"].

Definition email_items (L : Libs) : list ChainItem :=
  [Validator (standard (isEmail L)) "Please provide a valid email address";
   Sanitizer (normalizeEmail L)].

Definition special_message : string :=
  "Password must contain at least one special character (" ++ special_chars ++ ")".

Definition signupValidation (L : Libs) : list Chain :=
  [mkChain InBody "email" false (email_items L);
   mkChain InBody "username" false username_items;
   mkChain InBody "password" false
     [Validator (standard (isLength VALIDATION_RULES.PASSWORD_MIN_LENGTH None))
        "Password must be at least 8 characters long";
      Validator (standard (Str.any_char Str.is_upper))
        "Password must contain at least one uppercase letter";
      Validator (standard (Str.any_char Str.is_lower))
        "Password must contain at least one lowercase letter";
      Validator (standard (Str.any_char Str.is_digit))
        "Password must contain at least one number";
      Validator (standard (Str.any_char is_special)) special_message];
   mkChain InBody "confirmPassword" false
     [Validator (fun req value => opt_eqb value (field_get "password" (body req)))
        "Passwords do not match"]].

Definition loginValidation : list Chain :=
  [mkChain InBody "emailOrUsername" false
     [Sanitizer Str.trim;
      Validator (standard notEmpty) "Email or username is required"];
   mkChain InBody "password" false
     [Validator (standard notEmpty) "Password is required"]].

Definition updateProfileValidation (L : Libs) : list Chain :=
  [mkChain InBody "username" true username_items;
   mkChain InBody "email" true (email_items L);
   mkChain InBody "password" true
     [Validator (standard (isLength VALIDATION_RULES.PASSWORD_MIN_LENGTH None))
        "Password must be at least 8 characters long"]].

Definition status_message : string :=
  "Status must be one of: " ++ Str.join ", " TASK_STATUS.values.

Definition description_chain : Chain :=
  mkChain InBody "description" true
    [Sanitizer Str.trim;
     Validator (standard (isLength 0 (Some 2000%nat)))
       "Description cannot exceed 2000 characters"].

Definition status_chain (l : Location) : Chain :=
  mkChain l "status" true
    [Validator (standard (isIn TASK_STATUS.values)) status_message].

Definition id_chain : Chain :=
  mkChain InParams "id" false [Validator (standard isMongoId) "Invalid task ID"].

Definition createTaskValidation : list Chain :=
  [mkChain InBody "title" false
     [Sanitizer Str.trim;
      Validator (standard notEmpty) "Task title is required";
      Validator (standard (isLength 0 (Some 200%nat)))
        "Title cannot exceed 200 characters"];
   description_chain;
   status_chain InBody].

Definition updateTaskValidation : list Chain :=
  [id_chain;
   mkChain InBody "title" true
     [Sanitizer Str.trim;
      Validator (standard notEmpty) "Task title cannot be empty";
      Validator (standard (isLength 0 (Some 200%nat)))
        "Title cannot exceed 200 characters"];
   description_chain;
   status_chain InBody].

Definition taskIdValidation : list Chain := [id_chain].

Definition taskQueryValidation : list Chain :=
  [status_chain InQuery;
   mkChain InQuery "search" true
     [Sanitizer Str.trim;
      Validator (standard (isLength 1 (Some 100%nat)))
        "Search query must be between 1 and 100 characters"];
   mkChain InQuery "page" true
     [Validator (standard (isInt (Some 1) None)) "Page must be a positive integer"];
   mkChain InQuery "limit" true
     [Validator (standard (isInt (Some 1) (Some 100))) "Limit must be between 1 and 100"]].

(* ================================================================= *)
(** ** routes/authRoutes.js, routes/taskRoutes.js and the Express dispatch *)

(** The gates of the pipeline a middleware belongs to. *)
Inductive Gate :=
| ValidationGate
| AuthorizationGate
| HandlerGate.

Definition gate_eqb (a b : Gate) : bool :=
  match a, b with
  | ValidationGate, ValidationGate => true
  | AuthorizationGate, AuthorizationGate => true
  | HandlerGate, HandlerGate => true
  | _, _ => false
  end.

Record Stage := mkStage {
  gate : Gate;
  run : Middleware
}.

(** A validation chain of express-validator is a middleware that records
    its errors in the request and always calls [next()]. *)
Definition chain_stage (c : Chain) : Stage :=
  mkStage ValidationGate (fun _ _ req s => (Next (run_chain c req), s)).

Definition rules (cs : list Chain) : list Stage := map chain_stage cs.

Definition validate_stage : Stage := mkStage ValidationGate validate.

Definition protect_stage : Stage := mkStage AuthorizationGate protect.

Definition handler (h : Middleware) : Stage := mkStage HandlerGate h.

Inductive Endpoint :=
| POST_signup
| POST_login
| GET_profile
| PUT_profile
| GET_tasks
| POST_tasks
| GET_tasks_id
| PUT_tasks_id
| DELETE_tasks_id.

(** The routes of [authRoutes.js], as they are registered. *)
Definition authRoutes (L : Libs) (ep : Endpoint) : option (list Stage) :=
  match ep with
  | POST_signup =>
      Some (rules (signupValidation L) ++ [validate_stage; handler signup])%list
  | POST_login =>
      Some (rules loginValidation ++ [validate_stage; handler login])%list
  | GET_profile =>
      Some [protect_stage; handler getProfile]
  | PUT_profile =>
      Some ([protect_stage] ++ rules (updateProfileValidation L)
            ++ [validate_stage; handler updateProfile])%list
  | _ => None
  end.

(** [router.use(protect)] of [taskRoutes.js]: it runs before every route
    of the router. *)
Definition taskRoutes_use : list Stage := [protect_stage].

Definition taskRoutes (ep : Endpoint) : option (list Stage) :=
  match ep with
  | GET_tasks =>
      Some (rules taskQueryValidation ++ [validate_stage; handler getTasks])%list
  | POST_tasks =>
      Some (rules createTaskValidation ++ [validate_stage; handler createTask])%list
  | GET_tasks_id =>
      Some (rules taskIdValidation ++ [validate_stage; handler getTaskById])%list
  | PUT_tasks_id =>
      Some (rules updateTaskValidation ++ [validate_stage; handler updateTask])%list
  | DELETE_tasks_id =>
      Some (rules taskIdValidation ++ [validate_stage; handler deleteTask])%list
  | _ => None
  end.

(** The middleware stack an endpoint goes through, in order. *)
Definition route (L : Libs) (ep : Endpoint) : list Stage :=
  match authRoutes L ep with
  | Some stack => stack
  | None =>
      match taskRoutes ep with
      | Some stack => (taskRoutes_use ++ stack)%list
      | None => []
      end
  end.

(** [notFound] of errorHandler.js, for a request no route answers. *)
Definition notFound (req : Req) : Response :=
  mkResponse STATUS_CODES.NOT_FOUND
    (JObj [("success", JBool false);
           ("message", JStr ("Route " ++ originalUrl req ++ " not found"))]).

(** The outcome of a request: the gates that ran, in order, the response
    and the store afterwards. *)
Record Result := mkResult {
  trace : list Gate;
  response : Response;
  store : Store
}.

(** Express runs the stack in order until a middleware answers or passes
    an error, which goes to [errorHandler]. *)
Fixpoint dispatch (stack : list Stage) (L : Libs) (E : Env) (req : Req) (s : Store)
    (ran : list Gate) : Result :=
  match stack with
  | [] => mkResult ran (notFound req) s
  | stage :: rest =>
      match run stage L E req s with
      | (Respond r, s') => mkResult (ran ++ [gate stage]) r s'
      | (Next req', s') => dispatch rest L E req' s' (ran ++ [gate stage])
      | (NextErr e, s') => mkResult (ran ++ [gate stage]) (errorHandler E e) s'
      end
  end.

Definition handle (L : Libs) (E : Env) (ep : Endpoint) (req : Req) (s : Store) : Result :=
  dispatch (route L ep) L E req s [].

(** The order of the gates of an endpoint, as registered. *)
Definition gates (L : Libs) (ep : Endpoint) : list Gate := map gate (route L ep).

(** A successful response. *)
Definition is_success (r : Response) : bool :=
  ((200 <=? res_status r) && (res_status r <? 300))%bool.

(* ================================================================= *)
(** ** A small concrete instance *)

Module Demo.

(** Stand-ins for the libraries, good enough to run the pipeline on. *)
Definition hash (plain salt : string) : string := "$" ++ salt ++ "$" ++ plain.

Definition compare (plain h : string) : bool := String.eqb h (hash plain "salt").

Definition alice_payload : JwtPayload := mkPayload "a1" 1000 (Some 1001).

Definition bob_payload : JwtPayload := mkPayload "b2" 1000 (Some 605800).

Definition encode (secret : string) (p : JwtPayload) : string :=
  jwt_id p ++ "." ++ secret.

Definition decode (token : string) : option JwtPayload :=
  if String.eqb token "a1.secret" then Some alice_payload
  else if String.eqb token "b2.secret" then Some bob_payload
  else None.

Definition signature_ok (secret token : string) : bool :=
  (String.eqb token ("a1." ++ secret) || String.eqb token ("b2." ++ secret))%bool.

Definition libs (settersOnQuery : bool) : Libs :=
  mkLibs hash compare encode decode signature_ok
    (fun s => email_pattern s) Str.toLowerCase
    (fun text t => String.eqb text (t_title t))
    settersOnQuery.

Definition env : Env := mkEnv "secret" (Some 1) false 1000000 "f9" "salt".

(** Two seconds after [env]. *)
Definition later : Env := mkEnv "secret" (Some 1) false 1002000 "f9" "salt".

Definition alice : User :=
  mkUser "a1" "alice" "alice@example.com" (Some (hash "Passw0rd!" "salt")) 10 10.

Definition bob : User :=
  mkUser "b2" "bob" "bob@example.com" (Some (hash "S3cret!pw" "salt")) 20 20.

Definition task1 : Task := mkTask "t1" "Write report" "" "todo" "a1" 100 100.

Definition task2 : Task := mkTask "t2" "Buy milk" "two litres" "completed" "b2" 200 200.

Definition db : Store := mkStore [alice; bob] [task1; task2].

Definition request (auth : option string) (ps qs bd : Fields) (u : option User) : Req :=
  mkReq "/api" auth ps qs bd u [].

(** A signup with the password "password". *)
Definition weak_signup : Req :=
  request None [] []
    [("email", "carol@example.com"); ("username", "carol");
     ("password", "password"); ("confirmPassword", "password")] None.

(** A profile update without a token, with a user name that is too short. *)
Definition anonymous_short_name : Req :=
  request None [] [] [("username", "x")] None.

(** A signup under the email of Alice, in capitals. *)
Definition second_signup : Req :=
  request None [] []
    [("email", "ALICE@example.com"); ("username", "alice2");
     ("password", "Passw0rd!"); ("confirmPassword", "Passw0rd!")] None.

(** Alice renames her task. *)
Definition rename_request : Req :=
  request None [("id", "t1")] [] [("title", " Write the report ")] (Some alice).

Definition carol : User :=
  mkUser "c3" "carol" "carol@example.com" (Some (hash "Tr1cky!pw" "salt")) 30 30.

Definition crowd : Store := mkStore [alice; bob; carol] [task1; task2].

(** Alice asks for the user name of Bob and the email of Carol. *)
Definition greedy_update : Req :=
  request None [] [] [("username", "Bob"); ("email", "carol@example.com")]
    (Some (without_password alice)).

(** Alice logs in. *)
Definition alice_login : Req :=
  request None [] [] [("emailOrUsername", "alice"); ("password", "Passw0rd!")] None.




(** Bob, with a token that is still good, asks for a user name of one
    character. *)
Definition bob_short_name : Req :=
  request (Some "Bearer b2.secret") [] [] [("username", "x")] None.

(** The store of [db] after everybody changed password. *)
Definition rehashed : Store :=
  mkStore
    [mkUser "a1" "alice" "alice@example.com" (Some (hash "N3w!passw" "salt")) 10 10;
     mkUser "b2" "bob" "bob@example.com" (Some (hash "0ther!pw" "salt")) 20 20]
    [task1; task2].

(** Alice deletes her task. *)
Definition alice_deletes : Req := request None [("id", "t1")] [] [] (Some alice).

(** Alice creates a task, and tries to give it to Bob. *)
Definition alice_creates : Req :=
  request None [] [] [("title", " Call Bob "); ("userId", "b2")] (Some alice).

(** A request under the token of Alice. *)
Definition alice_expired : Req := request (Some "Bearer a1.secret") [] [] [] None.

(** Carol registers, then logs in. *)
Definition carol_signup : Req :=
  request None [] []
    [("email", "carol@example.com"); ("username", "Carol");
     ("password", "Tr1cky!pw"); ("confirmPassword", "Tr1cky!pw")] None.

Definition carol_login : Req :=
  request None [] [] [("emailOrUsername", "CAROL"); ("password", "Tr1cky!pw")] None.

(** Alice changes her email and her password. *)
Definition alice_update : Req :=
  request None [] [] [("email", "Alice@New.example.com"); ("password", "N3w!passw")]
    (Some (without_password alice)).


(** Alice lists her tasks. *)
Definition alice_lists : Req := request None [] [] [] (Some alice).

(** Bob reads his profile. *)
Definition bob_profile : Req := request (Some "Bearer b2.secret") [] [] [] None.

End Demo.

(* ================================================================= *)
(** ** Reading responses *)

Definition body_field (k : string) (r : Response) : option json :=
  match res_body r with
  | JObj fields => obj_get k fields
  | _ => None
  end.



(** The rule messages the entries of [body.errors] list, for all fields or
    for the field [path]. *)
Definition entry_string (k : string) (entry : json) : option string :=
  match entry with
  | JObj fields =>
      match obj_get k fields with
      | Some (JStr v) => Some v
      | _ => None
      end
  | _ => None
  end.

Definition error_entries (r : Response) : list json :=
  match body_field "errors" r with
  | Some (JArr items) => items
  | _ => []
  end.

Definition listed_messages (r : Response) : list string :=
  flat_map (fun entry =>
              match entry_string "msg" entry with
              | Some m => [m]
              | None => []
              end) (error_entries r).

Definition listed_for (path : string) (r : Response) : list string :=
  flat_map (fun entry =>
              match entry_string "path" entry, entry_string "msg" entry with
              | Some p, Some m => if String.eqb p path then [m] else []
              | _, _ => []
              end) (error_entries r).

(** A chain applies to a request unless it is optional and the field is
    [undefined]. *)
Definition chain_applies (c : Chain) (req : Req) : bool :=
  match read_field (c_location c) (c_field c) req with
  | None => negb (c_optional c)
  | Some _ => true
  end.

(** The request and the value of the field a chain has reached after the
    steps [done]. *)
Definition chain_state (c : Chain) (done : list ChainItem) (req : Req)
  : Req * option string :=
  run_items (c_location c) (c_field c) done
    (req, read_field (c_location c) (c_field c) req).

(** The value of the field [k] of a task document, if it has that field. *)
Definition task_field (k : string) (t : Task) : option json :=
  obj_get k (task_toObject t).

(** The task with the identifier [id] in the store. *)
Definition stored_task (id : ObjectId) (s : Store) : option Task :=
  find (fun t => String.eqb (t_id t) id) (tasks s).


(** The tasks of [owner] the filters of the request select, newest first:
    what the listing pages through and what the count query counts. *)
Definition matching_tasks (L : Libs) (owner : ObjectId) (req : Req) (s : Store)
  : list Task :=
  sort_newest_first
    (filter (match_task L (build_query owner (query_filters req))) (tasks s)).


(* ================================================================= *)
(** ** Reading the pipeline *)

(** The endpoints behind the authorization gate. *)
Definition protected (ep : Endpoint) : bool :=
  match ep with
  | POST_signup | POST_login => false
  | _ => true
  end.

(** The rule set of an endpoint. *)
Definition rule_set (L : Libs) (ep : Endpoint) : list Chain :=
  match ep with
  | POST_signup => signupValidation L
  | POST_login => loginValidation
  | GET_profile => []
  | PUT_profile => updateProfileValidation L
  | GET_tasks => taskQueryValidation
  | POST_tasks => createTaskValidation
  | GET_tasks_id => taskIdValidation
  | PUT_tasks_id => updateTaskValidation
  | DELETE_tasks_id => taskIdValidation
  end.

(** The controller of an endpoint. *)
Definition controller (ep : Endpoint) : Middleware :=
  match ep with
  | POST_signup => signup
  | POST_login => login
  | GET_profile => getProfile
  | PUT_profile => updateProfile
  | GET_tasks => getTasks
  | POST_tasks => createTask
  | GET_tasks_id => getTaskById
  | PUT_tasks_id => updateTask
  | DELETE_tasks_id => deleteTask
  end.

(** [GET /profile] is the one route without [validate]. *)
Definition has_validate (ep : Endpoint) : bool :=
  match ep with
  | GET_profile => false
  | _ => true
  end.

(** No [first] gate comes after a [second] gate. *)
Fixpoint ordered (first second : Gate) (l : list Gate) : bool :=
  match l with
  | [] => true
  | g :: r =>
      ((if gate_eqb g second then negb (existsb (gate_eqb first) r) else true)
       && ordered first second r)%bool
  end.

(** The answer of a controller on its own: its response, or the response
    [errorHandler] makes of the error it passes on. *)
Definition answer (h : Middleware) (L : Libs) (E : Env) (req : Req) (s : Store)
  : Result :=
  dispatch [handler h] L E req s [].

(** A user document as the schema stores it: its user name and its email
    went through the setters. *)
Definition normalized (u : User) : Prop :=
  set_string (u_username u) = u_username u /\ set_string (u_email u) = u_email u.

(** The document [User.create] builds from the body of a signup. *)
Definition signup_document (E : Env) (email username password : string) : User :=
  mkUser (fresh_id E) (set_string (Str.toLowerCase username)) (set_string email)
    (Some password) (now E) (now E).

(** The body of the response has no [password] key, at any depth. *)
Definition hides_password (r : Response) : Prop :=
  mentions_key "password" (res_body r) = false.

(** The same of whatever response an outcome leads to. *)
Definition outcome_hides (E : Env) (o : Outcome) : Prop :=
  match o with
  | Respond r => hides_password r
  | NextErr e => hides_password (errorHandler E e)
  | Next _ => True
  end.

(** The store without the passwords: what a response may depend on. *)
Definition public_view (s : Store) : list User * list Task :=
  (map without_password (users s), tasks s).

(** The response an outcome leads to; a controller that hands the request
    on meets no further route. *)
Definition final_response (E : Env) (o : Outcome) : Response :=
  match o with
  | Respond r => r
  | NextErr e => errorHandler E e
  | Next req => notFound req
  end.

(** A stage before the controller: it leaves the store alone and what it
    does depends on the public view of the store only. *)
Definition view_stage (L : Libs) (E : Env) (m : Middleware) : Prop :=
  forall req s1 s2,
    public_view s1 = public_view s2 ->
    fst (m L E req s1) = fst (m L E req s2)
    /\ snd (m L E req s1) = s1 /\ snd (m L E req s2) = s2.

(** The last stage: when it succeeds on two stores with the same public
    view, it answers the same. *)
Definition blind_stage (L : Libs) (E : Env) (m : Middleware) : Prop :=
  forall req s1 s2,
    public_view s1 = public_view s2 ->
    is_success (final_response E (fst (m L E req s1))) = true ->
    is_success (final_response E (fst (m L E req s2))) = true ->
    res_body (final_response E (fst (m L E req s1)))
    = res_body (final_response E (fst (m L E req s2))).

(** What [User.create] and [doc.save()] give back to the controller. *)
Definition written {A : Type} (r : Error + (User * A)) : Error + User :=
  match r with
  | inl e => inl e
  | inr (doc, _) => inr doc
  end.

(** What a stage answers, if it answers, does not mention the password. *)
Definition stage_hides (L : Libs) (E : Env) (m : Middleware) : Prop :=
  forall req s, outcome_hides E (fst (m L E req s)).

Create HintDb hides.

(** Case analysis along the branches of a controller. *)
Ltac hide_cases :=
  repeat match goal with
         | |- outcome_hides _ (fst (match ?x with _ => _ end)) => destruct x
         | |- outcome_hides _ (fst (if ?x then _ else _)) => destruct x
         | |- outcome_hides _ (fst (let '(_, _) := ?x in _)) => destruct x
         end;
  cbn [fst outcome_hides];
  auto with hides.

(** The request the stages after the authorization gate see, if any. *)
Definition after_authorization (L : Libs) (E : Env) (ep : Endpoint) (req : Req)
    (s : Store) : option Req :=
  if protected ep then
    match protect L E req s with
    | (Next req', _) => Some req'
    | _ => None
    end
  else Some req.

(* ================================================================= *)
(** ** utils/jwt.js, continued *)





(* ================================================================= *)
(** ** app.js: the origin check of CORS *)

(** [allowed.replace(/\/$/, '')]: without its last character when that is a
    slash. *)
Fixpoint strip_trailing_slash (s : string) : string :=
  match s with
  | EmptyString => EmptyString
  | String c r =>
      match r with
      | EmptyString => if Ascii.eqb c "/" then EmptyString else s
      | _ => String c (strip_trailing_slash r)
      end
  end.

(** The list of allowed origins; [.filter(Boolean)] drops a
    [FRONTEND_URL] that is unset or empty. *)
Definition allowedOrigins (FRONTEND_URL : option string) : list string :=
  (match FRONTEND_URL with
   | Some url => if Str.truthy url then [url] else []
   | None => []
   end
   ++ ["https://ageis.vercel.app";
       "https://ageis.vercel.app/";
       "http://localhost:5173";
       "http://localhost:8081";
       "http://localhost:3000";
       "http://127.0.0.1:5173";
       "http://127.0.0.1:8081"])%list.

(** [corsOptions.origin]: [true] for [callback(null, true)], [false] for
    [callback(new Error('Not allowed by CORS'))]. *)
Definition cors_origin (FRONTEND_URL : option string) (origin : option string) : bool :=
  if negb (truthy origin) then true
  else
    existsb (fun allowed =>
               Str.startsWith (to_str origin) (strip_trailing_slash allowed))
      (allowedOrigins FRONTEND_URL).

(* ================================================================= *)
(** ** The invariants of the store *)

(** The unique indexes of the users collection. *)
Definition unique_users (us : list User) : Prop :=
  NoDup (map u_id us) /\ NoDup (map u_username us) /\ NoDup (map u_email us).

(** A user document as the schema lets it in: its user name and email went
    through the setters and pass the validators, and it has a password. *)
Definition valid_user (u : User) : Prop :=
  normalized u
  /\ validate_username (u_username u) = []
  /\ validate_email (u_email u) = []
  /\ u_password u <> None.

(** A task document as the schema lets it in, of a user of the store. *)
Definition valid_task (us : list User) (t : Task) : Prop :=
  validate_task t = [] /\ In (t_userId t) (map u_id us).

(** A store as the application leaves it: unique task and user
    identifiers, unique user names and emails, valid users, valid tasks
    whose owners exist. *)
Definition wf_store (s : Store) : Prop :=
  NoDup (map t_id (tasks s))
  /\ unique_users (users s)
  /\ (forall u, In u (users s) -> valid_user u)
  /\ (forall t, In t (tasks s) -> valid_task (users s) t).

(** The request carries a user of the store, as [protect] leaves it. *)
Definition known_user (s : Store) (req : Req) : Prop :=
  exists u, user req = Some u /\ In (u_id u) (map u_id (users s)).

(** The user with the identifier [id] in the store. *)
Definition stored_user (id : ObjectId) (s : Store) : option User :=
  find (fun u => String.eqb (u_id u) id) (users s).

(** Newest first. *)
Fixpoint newest_first (l : list Task) : Prop :=
  match l with
  | [] => True
  | t :: r => (forall x, In x r -> t_createdAt x <= t_createdAt t) /\ newest_first r
  end.



(** The request a chain that trims or normalizes leaves: the value is
    written back when it changed. *)
Definition sanitized (l : Location) (field : string) (v : string) (req : Req) : Req :=
  if opt_eqb (read_field l field req) (Some v) then req else write_field l field v req.

(** A field of the body that the controllers take as sent: present and not
    the empty string. *)
Definition supplied (name : string) (req : Req) : option string :=
  match field_get name (body req) with
  | Some v => if Str.truthy v then Some v else None
  | None => None
  end.




(** The last binding of a key, which is the one a spread keeps. *)
Definition obj_get_last (k : string) (o : Obj) : option json := obj_get k (rev o).

(* ================================================================= *)
(** * Properties *)

(** ** Lists and documents *)

Lemma find_none_iff {A} (p : A -> bool) (l : list A) :
  find p l = None <-> forall x, In x l -> p x = false.
Proof.
  split.
  - intros H x Hx. exact (find_none p l H x Hx).
  - induction l as [|a l IH]; intros H; simpl; [reflexivity|].
    rewrite (H a (or_introl eq_refl)). apply IH.
    intros x Hx. apply H. right. exact Hx.
Qed.

Lemma NoDup_map_inj {A B} (f : A -> B) (l : list A) (a b : A) :
  NoDup (map f l) -> In a l -> In b l -> f a = f b -> a = b.
Proof.
  induction l as [|x l IH]; simpl; intros Hnd Ha Hb Hf; [contradiction|].
  inversion Hnd as [|? ? Hnotin Hnd']; subst.
  destruct Ha as [Ha|Ha], Hb as [Hb|Hb]; subst.
  - reflexivity.
  - exfalso. apply Hnotin. rewrite Hf. apply in_map. exact Hb.
  - exfalso. apply Hnotin. rewrite <- Hf. apply in_map. exact Ha.
  - apply IH; assumption.
Qed.

(** ** Task ownership *)

(** No task with the identifier of [t] belongs to somebody else. *)
Lemma foreign_find_none (ts : list Task) (t : Task) (caller : ObjectId) :
  NoDup (map t_id ts) -> In t ts -> caller <> t_userId t ->
  find (owned_by (t_id t) caller) ts = None.
Proof.
  intros Hnd Hin Hneq. apply find_none_iff. intros x Hx.
  unfold owned_by.
  destruct (String.eqb (t_id x) (t_id t)) eqn:Hid; simpl; [|reflexivity].
  apply String.eqb_eq in Hid.
  assert (x = t) by (eapply NoDup_map_inj; eauto). subst x.
  apply String.eqb_neq. congruence.
Qed.

(** Nor does an identifier no task has. *)
Lemma missing_find_none (ts : list Task) (id caller : ObjectId) :
  (forall t, In t ts -> t_id t <> id) ->
  find (owned_by id caller) ts = None.
Proof.
  intros H. apply find_none_iff. intros x Hx. unfold owned_by.
  apply (H x) in Hx. apply String.eqb_neq in Hx. rewrite Hx. reflexivity.
Qed.

(** The three single-task handlers on a request whose filter matches
    nothing. *)
Lemma single_task_handlers_not_found (L : Libs) (E : Env) (req : Req) (s : Store)
    (caller : User) (id : ObjectId) :
  user req = Some caller ->
  field_get "id" (params req) = Some id ->
  find (owned_by id (u_id caller)) (tasks s) = None ->
  getTaskById L E req s = (Respond task_not_found, s)
  /\ updateTask L E req s = (Respond task_not_found, s)
  /\ deleteTask L E req s = (Respond task_not_found, s).
Proof.
  intros Hu Hid Hfind.
  unfold getTaskById, updateTask, deleteTask, find_owned,
    Task_findOne, Task_findOneAndDelete.
  rewrite Hu, Hid, Hfind. auto.
Qed.

Lemma replace_task_keeps (doc t : Task) (ts : list Task) :
  t_id t <> t_id doc -> In t ts -> In t (replace_task doc ts).
Proof.
  intros Hne. induction ts as [|x r IH]; simpl; [auto|].
  intros [Hx|Hin].
  - subst x. apply String.eqb_neq in Hne. rewrite Hne. left. reflexivity.
  - destruct (String.eqb (t_id x) (t_id doc)); right; auto.
Qed.

Lemma remove_first_keeps (p : Task -> bool) (t : Task) (ts : list Task) :
  p t = false -> In t ts -> In t (remove_first p ts).
Proof.
  intros Hp. induction ts as [|x r IH]; simpl; [auto|].
  intros [Hx|Hin].
  - subst x. rewrite Hp. left. reflexivity.
  - destruct (p x); [exact Hin|]. right. auto.
Qed.

Lemma find_owned_by (id caller : ObjectId) (ts : list Task) (x : Task) :
  find (owned_by id caller) ts = Some x ->
  In x ts /\ t_id x = id /\ t_userId x = caller.
Proof.
  intros H. apply find_some in H. destruct H as (Hin & Hp).
  unfold owned_by in Hp. apply andb_prop in Hp. destruct Hp as (H1 & H2).
  apply String.eqb_eq in H1, H2. auto.
Qed.

(** Whatever a user asks of the update and delete handlers, the tasks of
    the other users stay in the store as they are. *)
Lemma foreign_task_survives (L : Libs) (E : Env) (s : Store) (t : Task) (B : User)
    (req : Req) :
  NoDup (map t_id (tasks s)) -> In t (tasks s) -> u_id B <> t_userId t ->
  user req = Some B ->
  In t (tasks (snd (updateTask L E req s)))
  /\ In t (tasks (snd (deleteTask L E req s))).
Proof.
  intros Hnd Hin Hneq Hu. split.
  - unfold updateTask, find_owned, Task_findOne. rewrite Hu.
    destruct (field_get "id" (params req)) as [id|]; [|exact Hin].
    destruct (find (owned_by id (u_id B)) (tasks s)) as [x|] eqn:Hf; [|exact Hin].
    destruct (find_owned_by _ _ _ _ Hf) as (Hx & Hxid & Hxo).
    set (doc := apply_patch _ _ _ x).
    assert (Hdoc : t_id doc = t_id x)
      by (unfold doc, apply_patch;
          destruct (field_get "title" (body req)), (field_get "description" (body req)),
            (field_get "status" (body req)); reflexivity).
    unfold Task_save. destruct (validate_task doc); [|exact Hin].
    match goal with
    | |- context [existsb ?f (tasks s)] => destruct (existsb f (tasks s))
    end; [|exact Hin].
    cbn [negb snd set_tasks tasks]. apply replace_task_keeps; [|exact Hin].
    intros Heq.
    assert (t = x).
    { apply (NoDup_map_inj t_id (tasks s)); auto.
      rewrite Heq. destruct (task_eqb_paths doc x); simpl; exact Hdoc. }
    subst x. congruence.
  - unfold deleteTask, Task_findOneAndDelete. rewrite Hu.
    destruct (field_get "id" (params req)) as [id|]; [|exact Hin].
    destruct (find (owned_by id (u_id B)) (tasks s)) as [x|]; [|exact Hin].
    cbn [snd set_tasks tasks]. apply remove_first_keeps; [|exact Hin].
    unfold owned_by. apply andb_false_iff. right. apply String.eqb_neq. congruence.
Qed.

(** C1: a task created with owner A is out of reach of every other user B:
    [getTaskById], [updateTask] and [deleteTask], called by B with the
    identifier of the task, answer 404 "Task not found" and leave the store
    as it is, exactly as they do for an identifier that no task has; and
    whatever identifier and patch B sends, the task stays in the store as
    it is. *)
Theorem C1_foreign_task_is_not_found :
  forall (L : Libs) (E : Env) (s : Store) (t : Task) (B : User) (req : Req),
    NoDup (map t_id (tasks s)) ->
    In t (tasks s) ->
    u_id B <> t_userId t ->
    user req = Some B ->
    field_get "id" (params req) = Some (t_id t) ->
    (getTaskById L E req s = (Respond task_not_found, s)
     /\ updateTask L E req s = (Respond task_not_found, s)
     /\ deleteTask L E req s = (Respond task_not_found, s))
    /\ res_status task_not_found = STATUS_CODES.NOT_FOUND
    /\ (forall (req' : Req) (missing : ObjectId),
          user req' = Some B ->
          field_get "id" (params req') = Some missing ->
          (forall t', In t' (tasks s) -> t_id t' <> missing) ->
          getTaskById L E req' s = getTaskById L E req s
          /\ updateTask L E req' s = updateTask L E req s
          /\ deleteTask L E req' s = deleteTask L E req s)
    /\ (forall req' : Req,
          user req' = Some B ->
          In t (tasks (snd (updateTask L E req' s)))
          /\ In t (tasks (snd (deleteTask L E req' s)))
          /\ fst (getTaskById L E req' s)
             <> Respond (mkResponse STATUS_CODES.OK (task_toJSON t))).
Proof.
  intros L E s t B req Hnd Hin Hneq Hu Hid.
  pose proof (single_task_handlers_not_found L E req s B (t_id t) Hu Hid
                (foreign_find_none _ _ _ Hnd Hin Hneq)) as (Hg & Hup & Hd).
  split; [auto|]. split; [reflexivity|]. split.
  - intros req' missing Hu' Hid' Hmiss.
    pose proof (single_task_handlers_not_found L E req' s B missing Hu' Hid'
                  (missing_find_none _ _ _ Hmiss)) as (Hg' & Hup' & Hd').
    rewrite Hg, Hup, Hd, Hg', Hup', Hd'. auto.
  - intros req' Hu'.
    destruct (foreign_task_survives L E s t B req' Hnd Hin Hneq Hu') as (H1 & H2).
    split; [exact H1|]. split; [exact H2|].
    unfold getTaskById, find_owned, Task_findOne. rewrite Hu'.
    destruct (field_get "id" (params req')) as [id|]; [|discriminate].
    destruct (find (owned_by id (u_id B)) (tasks s)) as [x|] eqn:Hf; [|discriminate].
    destruct (find_owned_by _ _ _ _ Hf) as (_ & _ & Hxo).
    cbn [fst]. intros Heq. inversion Heq. congruence.
Qed.

(** Bob asks for, patches and deletes the task of Alice. *)
Lemma C1_witness :
  let req := Demo.request None [("id", "t1")] [] [("title", "mine now")] (Some Demo.bob) in
  (getTaskById (Demo.libs true) Demo.env req Demo.db = (Respond task_not_found, Demo.db)
   /\ updateTask (Demo.libs true) Demo.env req Demo.db = (Respond task_not_found, Demo.db)
   /\ deleteTask (Demo.libs true) Demo.env req Demo.db = (Respond task_not_found, Demo.db)).
Proof.
  intro req.
  refine (proj1 (C1_foreign_task_is_not_found (Demo.libs true) Demo.env Demo.db
                   Demo.task1 Demo.bob req _ _ _ _ _)).
  - simpl. repeat constructor; simpl; intuition discriminate.
  - simpl. auto.
  - discriminate.
  - reflexivity.
  - reflexivity.
Defined.

(** ** Pagination *)

Lemma insert_newest_length (t : Task) (l : list Task) :
  List.length (insert_newest t l) = S (List.length l).
Proof.
  induction l as [|x r IH]; simpl; [reflexivity|].
  destruct (t_createdAt x <=? t_createdAt t); simpl; congruence.
Qed.

Lemma sort_newest_first_length (l : list Task) :
  List.length (sort_newest_first l) = List.length l.
Proof.
  induction l as [|x r IH]; simpl; [reflexivity|].
  rewrite insert_newest_length. congruence.
Qed.





(** ** Partial update of a task *)

Lemma find_unique (ts : list Task) (t : Task) (p : Task -> bool) :
  NoDup (map t_id ts) -> In t ts -> p t = true ->
  (forall x, p x = true -> t_id x = t_id t) ->
  find p ts = Some t.
Proof.
  intros Hnd Hin Hp Hid.
  destruct (find p ts) as [x|] eqn:Hf.
  - apply find_some in Hf. destruct Hf as (Hx & Hpx).
    f_equal. eapply NoDup_map_inj; eauto.
  - rewrite (find_none p ts Hf t Hin) in Hp. discriminate.
Qed.

Lemma find_own_task (ts : list Task) (t : Task) :
  NoDup (map t_id ts) -> In t ts ->
  find (owned_by (t_id t) (t_userId t)) ts = Some t.
Proof.
  intros Hnd Hin. apply find_unique; auto.
  - unfold owned_by. rewrite !String.eqb_refl. reflexivity.
  - intros x Hx. unfold owned_by in Hx. apply andb_prop in Hx.
    apply String.eqb_eq. tauto.
Qed.

Lemma existsb_id (ts : list Task) (t : Task) (id : ObjectId) :
  In t ts -> t_id t = id ->
  existsb (fun x => String.eqb (t_id x) id) ts = true.
Proof.
  intros Hin Hid. apply existsb_exists. exists t. split; [exact Hin|].
  apply String.eqb_eq. exact Hid.
Qed.

(** Under unique identifiers, the write of [doc] replaces the task with its
    identifier and nothing else. *)
Lemma replace_task_map (doc : Task) (ts : list Task) :
  NoDup (map t_id ts) ->
  replace_task doc ts
  = map (fun t => if String.eqb (t_id t) (t_id doc) then doc else t) ts.
Proof.
  induction ts as [|x r IH]; simpl; intros Hnd; [reflexivity|].
  inversion Hnd as [|? ? Hnotin Hnd']; subst.
  destruct (String.eqb (t_id x) (t_id doc)) eqn:Hx.
  - f_equal. apply String.eqb_eq in Hx.
    clear IH Hnd Hnd'. induction r as [|y r IHr]; simpl; [reflexivity|].
    simpl in Hnotin.
    destruct (String.eqb (t_id y) (t_id doc)) eqn:Hy.
    + apply String.eqb_eq in Hy. exfalso. apply Hnotin. left. congruence.
    + f_equal. apply IHr. tauto.
  - f_equal. apply IH. exact Hnd'.
Qed.

Lemma apply_patch_frame (title description status : option string) (task : Task) :
  let doc := apply_patch title description status task in
  t_id doc = t_id task
  /\ t_userId doc = t_userId task
  /\ t_createdAt doc = t_createdAt task
  /\ t_updatedAt doc = t_updatedAt task
  /\ t_title doc = match title with Some v => Str.trim v | None => t_title task end
  /\ t_description doc
     = match description with Some v => Str.trim v | None => t_description task end
  /\ t_status doc = match status with Some v => v | None => t_status task end.
Proof.
  destruct title, description, status; simpl; repeat split; reflexivity.
Qed.

(** Two task documents that agree on every path but [updatedAt] agree on
    every field but [updatedAt]. *)
Lemma task_field_frame (k : string) (a b : Task) :
  k <> "updatedAt" ->
  t_id a = t_id b -> t_userId a = t_userId b -> t_createdAt a = t_createdAt b ->
  (k = "title" -> t_title a = t_title b) ->
  (k = "description" -> t_description a = t_description b) ->
  (k = "status" -> t_status a = t_status b) ->
  task_field k a = task_field k b.
Proof.
  intros Hk Hi Ho Hc Ht Hd Hs. unfold task_field, task_toObject. cbn [obj_get].
  rewrite Hi, Ho, Hc.
  destruct (String.eqb "_id" k); [reflexivity|].
  destruct (String.eqb "title" k) eqn:E1;
    [apply String.eqb_eq in E1; rewrite Ht by auto; reflexivity|].
  destruct (String.eqb "description" k) eqn:E2;
    [apply String.eqb_eq in E2; rewrite Hd by auto; reflexivity|].
  destruct (String.eqb "status" k) eqn:E3;
    [apply String.eqb_eq in E3; rewrite Hs by auto; reflexivity|].
  destruct (String.eqb "userId" k); [reflexivity|].
  destruct (String.eqb "createdAt" k); [reflexivity|].
  destruct (String.eqb "updatedAt" k) eqn:E4;
    [apply String.eqb_eq in E4; congruence|].
  reflexivity.
Qed.

(** C8, as the code has it: [updateTask] by the owner writes the fields the
    patch holds and, of the others, only the update timestamp.  Either the
    save is refused by the schema and nothing changes at all, or the stored
    task is the old one with the patched fields (title and description
    trimmed by their setter) and it is the one returned: a title, description
    or status that the patch does not hold keeps its value, and so do the
    identifier, the owner and the creation time, whatever the patch; every
    field other than [updatedAt] that the patch does not hold has the value
    it had; the other tasks and the users are untouched.  [updatedAt] keeps
    its value when the patch changes nothing and is the current time
    otherwise. *)
Theorem C8_update_writes_only_patched_fields :
  forall (L : Libs) (E : Env) (req : Req) (s : Store) (owner : User) (task : Task),
    NoDup (map t_id (tasks s)) ->
    In task (tasks s) ->
    t_userId task = u_id owner ->
    user req = Some owner ->
    field_get "id" (params req) = Some (t_id task) ->
    let title := field_get "title" (body req) in
    let description := field_get "description" (body req) in
    let status := field_get "status" (body req) in
    (exists e, updateTask L E req s = (NextErr e, s))
    \/ (exists task' : Task,
          updateTask L E req s
          = (Respond (mkResponse STATUS_CODES.OK (task_toJSON task')),
             mkStore (users s)
               (map (fun t => if String.eqb (t_id t) (t_id task) then task' else t)
                  (tasks s)))
          /\ t_id task' = t_id task
          /\ t_userId task' = t_userId task
          /\ t_createdAt task' = t_createdAt task
          /\ t_title task'
             = match title with Some v => Str.trim v | None => t_title task end
          /\ t_description task'
             = match description with
               | Some v => Str.trim v
               | None => t_description task
               end
          /\ t_status task' = match status with Some v => v | None => t_status task end
          /\ (forall k, k <> "updatedAt" -> field_get k (body req) = None ->
                        task_field k task' = task_field k task)
          /\ ((t_updatedAt task' = t_updatedAt task
               /\ t_title task' = t_title task
               /\ t_description task' = t_description task
               /\ t_status task' = t_status task)
              \/ t_updatedAt task' = now E)).
Proof.
  intros L E req s owner task Hnd Hin Hown Hu Hid title description status.
  unfold updateTask, find_owned, Task_findOne.
  rewrite Hu, Hid, <- Hown, (find_own_task _ _ Hnd Hin).
  fold title description status.
  pose proof (apply_patch_frame title description status task) as Hframe.
  set (doc := apply_patch title description status task) in *.
  simpl in Hframe.
  destruct Hframe as (Hi & Ho & Hc & Hupd & Ht & Hd & Hs).
  unfold Task_save.
  destruct (validate_task doc) as [|m ms]; [|left; eexists; reflexivity].
  right.
  set (saved := if task_eqb_paths doc task then doc
                else mkTask (t_id doc) (t_title doc) (t_description doc)
                       (t_status doc) (t_userId doc) (t_createdAt doc) (now E)).
  assert (Hsaved : t_id saved = t_id task /\ t_userId saved = t_userId task
                   /\ t_createdAt saved = t_createdAt task
                   /\ t_title saved = t_title doc
                   /\ t_description saved = t_description doc
                   /\ t_status saved = t_status doc
                   /\ ((t_updatedAt saved = t_updatedAt task
                        /\ t_title doc = t_title task
                        /\ t_description doc = t_description task
                        /\ t_status doc = t_status task)
                       \/ t_updatedAt saved = now E)).
  { unfold saved. destruct (task_eqb_paths doc task) eqn:Heq; simpl;
      repeat split; try congruence; [left|right; reflexivity].
    unfold task_eqb_paths in Heq.
    apply andb_prop in Heq. destruct Heq as (Heq & H3).
    apply andb_prop in Heq. destruct Heq as (H1 & H2).
    apply String.eqb_eq in H1, H2, H3. auto. }
  destruct Hsaved as (Hi' & Ho' & Hc' & Ht' & Hd' & Hs' & Hstamp).
  rewrite (existsb_id _ _ _ Hin (eq_sym Hi')). simpl negb. cbv iota.
  exists saved. rewrite (replace_task_map _ _ Hnd), Hi'.
  unfold set_tasks.
  split; [reflexivity|].
  repeat (split; [congruence|]).
  split.
  - intros k Hk Habsent. apply task_field_frame; auto.
    + intros ->. unfold title in Ht. rewrite Habsent in Ht. congruence.
    + intros ->. unfold description in Hd. rewrite Habsent in Hd. congruence.
    + intros ->. unfold status in Hs. rewrite Habsent in Hs. congruence.
  - destruct Hstamp as [(H0 & H1 & H2 & H3)|H0]; [left|right; exact H0].
    repeat split; congruence.
Qed.

(** Alice renames her task: the description, the status, the owner and the
    creation time stay. *)
Lemma C8_witness :
  exists task' : Task,
    updateTask (Demo.libs true) Demo.env Demo.rename_request Demo.db
    = (Respond (mkResponse STATUS_CODES.OK (task_toJSON task')),
       mkStore [Demo.alice; Demo.bob] [task'; Demo.task2])
    /\ t_title task' = "Write the report"
    /\ t_description task' = ""
    /\ t_status task' = "todo"
    /\ t_userId task' = "a1"
    /\ t_createdAt task' = 100.
Proof.
  destruct (C8_update_writes_only_patched_fields (Demo.libs true) Demo.env
              Demo.rename_request Demo.db Demo.alice Demo.task1)
    as [(e & He)|(task' & H)].
  - simpl. repeat constructor; simpl; intuition discriminate.
  - simpl. auto.
  - reflexivity.
  - reflexivity.
  - reflexivity.
  - discriminate He.
  - exists task'. simpl in H. intuition.
Defined.

(** The claim that every field the patch does not hold keeps its value
    fails on [updatedAt]: Alice's patch holds a title only, and the task
    stored after the update, last updated at 100, is updated at the time of
    the request. *)
Lemma C8_counterexample :
  exists task' : Task,
    stored_task "t1"
      (snd (updateTask (Demo.libs true) Demo.env Demo.rename_request Demo.db))
    = Some task'
    /\ ~ (forall k, field_get k (body Demo.rename_request) = None ->
                    task_field k task' = task_field k Demo.task1).
Proof.
  eexists. split; [reflexivity|].
  intros H. specialize (H "updatedAt" eq_refl). discriminate H.
Qed.

(** ** Login *)

(** The one answer of a failed login. *)
Lemma invalid_credentials_shape :
  res_status invalid_credentials = STATUS_CODES.UNAUTHORIZED
  /\ res_body invalid_credentials
     = JObj [("success", JBool false); ("message", JStr "Invalid credentials")].
Proof.
  split; reflexivity.
Qed.




(** ** The authorization gate *)



Lemma findById_without_password (id : ObjectId) (us : list User) (u : User) :
  User_findById id us = Some u -> u_password u = None.
Proof.
  unfold User_findById. destruct (find _ us); simpl; intros H; inversion H.
  reflexivity.
Qed.

(** The gate never writes to the store, and what it attaches to the request
    is a user without password. *)
Lemma protect_outcomes (L : Libs) (E : Env) (req : Req) (s : Store) :
  (exists message, protect L E req s = (Respond (unauthorized message), s))
  \/ (exists u, protect L E req s = (Next (set_user (Some u) req), s)
                /\ u_password u = None).
Proof.
  unfold protect.
  destruct (has_bearer req); [|left; eexists; reflexivity].
  destruct (jwt_verify L E (bearer_token req)) as [e|p];
    [left; eexists; reflexivity|].
  destruct (User_findById (jwt_id p) (users s)) as [u|] eqn:Hu;
    [|left; eexists; reflexivity].
  right. exists u. split; [reflexivity|].
  exact (findById_without_password _ _ _ Hu).
Qed.



(** ** The validation gate *)

Section Validation.

Variables (l : Location) (field : string).

Lemma run_item_errors_grow (item : ChainItem) (st : Req * option string) :
  exists more,
    validation_errors (fst (run_item l field item st))
    = (validation_errors (fst st) ++ more)%list
    /\ Forall (fun e => fe_path e = field) more.
Proof.
  destruct st as (req, v). destruct item as [check message|f]; simpl.
  - destruct (check req v); simpl.
    + exists []. rewrite app_nil_r. split; [reflexivity|constructor].
    + eexists. split; [reflexivity|]. repeat constructor.
  - exists []. rewrite app_nil_r. split; [|constructor].
    destruct (opt_eqb _ _); [reflexivity|]. destruct l; reflexivity.
Qed.

Lemma run_items_errors_grow (items : list ChainItem) (st : Req * option string) :
  exists more,
    validation_errors (fst (run_items l field items st))
    = (validation_errors (fst st) ++ more)%list
    /\ Forall (fun e => fe_path e = field) more.
Proof.
  revert st. induction items as [|item items IH]; intros st; simpl.
  - exists []. rewrite app_nil_r. split; [reflexivity|constructor].
  - destruct (IH (run_item l field item st)) as (m2 & H2 & F2).
    destruct (run_item_errors_grow item st) as (m1 & H1 & F1).
    exists (m1 ++ m2)%list. unfold run_items in *. rewrite H2, H1, app_assoc.
    split; [reflexivity|]. apply Forall_app. split; assumption.
Qed.

Lemma run_items_app (pre post : list ChainItem) (st : Req * option string) :
  run_items l field (pre ++ post) st
  = run_items l field post (run_items l field pre st).
Proof.
  unfold run_items. apply fold_left_app.
Qed.

(** A validator that fails where the chain has got to leaves its message
    among the errors of the request. *)
Lemma failing_validator_recorded (pre post : list ChainItem)
    (check : Req -> option string -> bool) (message : string)
    (st : Req * option string) :
  check (fst (run_items l field pre st)) (snd (run_items l field pre st)) = false ->
  In message
    (map fe_msg
       (validation_errors
          (fst (run_items l field (pre ++ Validator check message :: post) st)))).
Proof.
  intros Hfail. rewrite run_items_app.
  change (run_items l field (Validator check message :: post) ?s)
    with (run_items l field post (run_item l field (Validator check message) s)).
  destruct (run_items_errors_grow post
              (run_item l field (Validator check message) (run_items l field pre st)))
    as (more & Hmore & _).
  rewrite Hmore. destruct (run_items l field pre st) as (req1, v1).
  simpl in Hfail |- *. rewrite Hfail. simpl.
  rewrite !map_app. apply in_or_app. left. apply in_or_app. right.
  simpl. left. reflexivity.
Qed.

End Validation.

Lemma run_chain_errors_grow (c : Chain) (req : Req) :
  exists more,
    validation_errors (run_chain c req) = (validation_errors req ++ more)%list
    /\ Forall (fun e => fe_path e = c_field c) more.
Proof.
  unfold run_chain.
  destruct (run_items_errors_grow (c_location c) (c_field c) (c_items c)
              (req, read_field (c_location c) (c_field c) req)) as (more & H & F).
  destruct (read_field (c_location c) (c_field c) req);
    [exists more; auto|].
  destruct (c_optional c); [|exists more; auto].
  exists []. rewrite app_nil_r. split; [reflexivity|constructor].
Qed.

Lemma run_chains_errors_grow (cs : list Chain) (req : Req) :
  exists more,
    validation_errors (run_chains cs req) = (validation_errors req ++ more)%list.
Proof.
  revert req. induction cs as [|c cs IH]; intros req; simpl.
  - exists []. rewrite app_nil_r. reflexivity.
  - destruct (IH (run_chain c req)) as (m2 & H2).
    destruct (run_chain_errors_grow c req) as (m1 & H1 & _).
    exists (m1 ++ m2)%list. unfold run_chains in *. rewrite H2, H1, app_assoc.
    reflexivity.
Qed.

Lemma run_chains_app (pre post : list Chain) (req : Req) :
  run_chains (pre ++ post) req = run_chains post (run_chains pre req).
Proof.
  unfold run_chains. apply fold_left_app.
Qed.

(** What [validate] lists is what the chains recorded. *)
Lemma entry_msg_of_error (e : FieldError) :
  entry_string "msg" (field_error_json e) = Some (fe_msg e)
  /\ entry_string "path" (field_error_json e) = Some (fe_path e).
Proof.
  unfold field_error_json. destruct (fe_value e); split; reflexivity.
Qed.

Lemma validate_lists_all (L : Libs) (E : Env) (req : Req) (s : Store) :
  validation_errors req <> [] ->
  exists r,
    validate L E req s = (Respond r, s)
    /\ res_status r = STATUS_CODES.UNPROCESSABLE_ENTITY
    /\ listed_messages r = map fe_msg (validation_errors req)
    /\ body_field "message" r
       = Some (JStr (Str.join ", " (map fe_msg (validation_errors req))))
    /\ (forall path,
          listed_for path r
          = map fe_msg
              (filter (fun e => String.eqb (fe_path e) path) (validation_errors req))).
Proof.
  intros Hne. unfold validate.
  destruct (validation_errors req) as [|e es] eqn:He; [congruence|].
  generalize (e :: es). intros errs.
  eexists. split; [reflexivity|]. split; [reflexivity|].
  unfold listed_messages, listed_for.
  change (error_entries _) with (map field_error_json errs).
  split; [|split; [reflexivity|]].
  - induction errs as [|x xs IH]; [reflexivity|].
    cbn [map flat_map]. rewrite (proj1 (entry_msg_of_error x)), IH. reflexivity.
  - intros path.
    induction errs as [|x xs IH]; [reflexivity|].
    cbn [map flat_map filter].
    rewrite (proj1 (entry_msg_of_error x)), (proj2 (entry_msg_of_error x)), IH.
    destruct (String.eqb (fe_path x) path); reflexivity.
Qed.

(** ** The order of the gates *)

Lemma route_shape (L : Libs) (ep : Endpoint) :
  route L ep
  = ((if protected ep then [protect_stage] else [])
     ++ rules (rule_set L ep)
     ++ (if has_validate ep then [validate_stage] else [])
     ++ [handler (controller ep)])%list.
Proof.
  destruct ep; reflexivity.
Qed.

Lemma dispatch_rules (cs : list Chain) (rest : list Stage) (L : Libs) (E : Env)
    (req : Req) (s : Store) (ran : list Gate) :
  dispatch (rules cs ++ rest) L E req s ran
  = dispatch rest L E (run_chains cs req) s
      (ran ++ repeat ValidationGate (List.length cs)).
Proof.
  revert req ran. induction cs as [|c cs IH]; intros req ran; simpl.
  - rewrite app_nil_r. reflexivity.
  - rewrite IH, <- app_assoc. reflexivity.
Qed.

Lemma protect_keeps_errors (L : Libs) (E : Env) (req req' : Req) (s s' : Store) :
  protect L E req s = (Next req', s') ->
  validation_errors req' = validation_errors req /\ s' = s.
Proof.
  destruct (protect_outcomes L E req s) as [(m & H)|(u & H & _)];
    rewrite H; intros Heq; inversion Heq; subst; auto.
Qed.

(** A request that comes out of the chains of its endpoint with errors gets
    the answer of [validate]. *)
Lemma handle_invalid (L : Libs) (E : Env) (ep : Endpoint) (req req' : Req)
    (s : Store) (r : Response) :
  after_authorization L E ep req s = Some req' ->
  has_validate ep = true ->
  validate L E (run_chains (rule_set L ep) req') s = (Respond r, s) ->
  response (handle L E ep req s) = r /\ store (handle L E ep req s) = s.
Proof.
  intros Hauth Hval Hv. unfold after_authorization in Hauth.
  unfold handle. rewrite route_shape, Hval.
  assert (Hgo : forall ran,
             let res := dispatch (rules (rule_set L ep)
                                  ++ [validate_stage] ++ [handler (controller ep)])
                          L E req' s ran in
             response res = r /\ store res = s).
  { intros ran. cbv zeta. rewrite dispatch_rules.
    cbn [app dispatch run validate_stage gate]. rewrite Hv. split; reflexivity. }
  destruct (protected ep).
  - cbn [app dispatch run protect_stage gate].
    destruct (protect L E req s) as ([r0|r0|e], s') eqn:Hp; try discriminate.
    inversion Hauth; subst.
    destruct (protect_keeps_errors _ _ _ _ _ _ Hp) as (_ & ->). apply Hgo.
  - inversion Hauth; subst. cbn [app]. apply Hgo.
Qed.

(** C4, as the code has it: the stack of an endpoint is the authorization
    gate (on every endpoint but signup and login), then the validation
    chains and [validate], then the controller; so the authorization gate
    runs before the validation gate, never after it.  A request the
    authorization gate refuses is answered 401 without being validated.  A
    request that comes out of the chains with validation errors is answered
    422 by [validate]: the controller does not run and the store is the one
    the request found. *)
Theorem C4_authorization_then_validation_then_handler :
  forall (L : Libs) (E : Env) (ep : Endpoint),
    gates L ep
    = ((if protected ep then [AuthorizationGate] else [])
       ++ repeat ValidationGate
            (List.length (rule_set L ep) + (if has_validate ep then 1 else 0))
       ++ [HandlerGate])%list
    /\ ordered AuthorizationGate ValidationGate (gates L ep) = true
    /\ ordered ValidationGate HandlerGate (gates L ep) = true
    /\ (forall (req : Req) (s : Store),
          after_authorization L E ep req s = None ->
          trace (handle L E ep req s) = [AuthorizationGate]
          /\ res_status (response (handle L E ep req s)) = STATUS_CODES.UNAUTHORIZED
          /\ store (handle L E ep req s) = s)
    /\ (forall (req req' : Req) (s : Store),
          after_authorization L E ep req s = Some req' ->
          validation_errors req = [] ->
          validation_errors (run_chains (rule_set L ep) req') <> [] ->
          res_status (response (handle L E ep req s))
          = STATUS_CODES.UNPROCESSABLE_ENTITY
          /\ store (handle L E ep req s) = s
          /\ ~ In HandlerGate (trace (handle L E ep req s))).
Proof.
  intros L E ep. split; [|split; [|split; [|split]]].
  - destruct ep; reflexivity.
  - destruct ep; reflexivity.
  - destruct ep; reflexivity.
  - intros req s Hauth. unfold after_authorization in Hauth.
    unfold handle. rewrite route_shape.
    destruct (protected ep); [|discriminate].
    cbn [app dispatch run protect_stage gate].
    destruct (protect_outcomes L E req s) as [(m & H)|(u & H & _)];
      rewrite H in Hauth |- *; [|discriminate].
    repeat split.
  - intros req req' s Hauth Hfresh Herrs. unfold after_authorization in Hauth.
    unfold handle. rewrite route_shape.
    assert (Hval : has_validate ep = true).
    { destruct ep; try reflexivity. exfalso. apply Herrs. simpl.
      destruct (protect L E req s) as ([r|r|e], s') eqn:Hp; try discriminate.
      inversion Hauth; subst.
      rewrite (proj1 (protect_keeps_errors _ _ _ _ _ _ Hp)). exact Hfresh. }
    rewrite Hval.
    assert (Hgo : forall ran,
               let res := dispatch (rules (rule_set L ep)
                                    ++ [validate_stage] ++ [handler (controller ep)])
                            L E req' s ran in
               res_status (response res) = STATUS_CODES.UNPROCESSABLE_ENTITY
               /\ store res = s
               /\ (~ In HandlerGate ran -> ~ In HandlerGate (trace res))).
    { intros ran. cbv zeta. rewrite dispatch_rules.
      destruct (validate_lists_all L E (run_chains (rule_set L ep) req') s Herrs)
        as (r & Hv & Hst & _).
      cbn [app dispatch run validate_stage gate]. rewrite Hv.
      cbn [trace response store]. repeat split; [exact Hst|].
      intros Hran Hin. apply in_app_or in Hin. destruct Hin as [Hin|Hin].
      - apply in_app_or in Hin. destruct Hin as [Hin|Hin]; [tauto|].
        apply repeat_spec in Hin. discriminate.
      - simpl in Hin. destruct Hin as [Hin|[]]. discriminate. }
    destruct (protected ep).
    + cbn [app dispatch run protect_stage gate].
      destruct (protect L E req s) as ([r|r|e], s') eqn:Hp; try discriminate.
      inversion Hauth; subst.
      destruct (protect_keeps_errors _ _ _ _ _ _ Hp) as (_ & ->).
      destruct (Hgo ([] ++ [AuthorizationGate])%list) as (H1 & H2 & H3).
      repeat split; auto. apply H3. simpl. intros [H|[]]. discriminate.
    + inversion Hauth; subst. cbn [app].
      destruct (Hgo []) as (H1 & H2 & H3). repeat split; auto.
Qed.

(** [PUT /profile] with a user name of one character: without a token the
    gate answers 401 and the rule set is not consulted; with the token of
    Bob the rule set refuses it and the controller does not run. *)
Lemma C4_witness :
  (trace (handle (Demo.libs true) Demo.env PUT_profile Demo.anonymous_short_name Demo.db)
   = [AuthorizationGate]
   /\ res_status (response (handle (Demo.libs true) Demo.env PUT_profile
                              Demo.anonymous_short_name Demo.db))
      = STATUS_CODES.UNAUTHORIZED
   /\ store (handle (Demo.libs true) Demo.env PUT_profile Demo.anonymous_short_name
               Demo.db) = Demo.db)
  /\ (res_status (response (handle (Demo.libs true) Demo.env PUT_profile
                              Demo.bob_short_name Demo.db))
      = STATUS_CODES.UNPROCESSABLE_ENTITY
      /\ store (handle (Demo.libs true) Demo.env PUT_profile Demo.bob_short_name Demo.db)
         = Demo.db
      /\ ~ In HandlerGate
             (trace (handle (Demo.libs true) Demo.env PUT_profile Demo.bob_short_name
                       Demo.db))).
Proof.
  split.
  - apply (proj1 (proj2 (proj2 (proj2
             (C4_authorization_then_validation_then_handler (Demo.libs true) Demo.env
                PUT_profile))))).
    reflexivity.
  - apply (proj2 (proj2 (proj2 (proj2
             (C4_authorization_then_validation_then_handler (Demo.libs true) Demo.env
                PUT_profile))))
             Demo.bob_short_name
             (set_user (Some (without_password Demo.bob)) Demo.bob_short_name)).
    + reflexivity.
    + reflexivity.
    + vm_compute. discriminate.
Defined.

(** The claim that validation runs before authorization fails on
    [PUT /profile]: the authorization gate is registered first, and an
    anonymous request with a body that breaks a rule of the rule set is
    answered 401, not 422. *)
Lemma C4_counterexample :
  ordered ValidationGate AuthorizationGate (gates (Demo.libs true) PUT_profile) = false
  /\ validation_errors
       (run_chains (rule_set (Demo.libs true) PUT_profile) Demo.anonymous_short_name)
     <> []
  /\ res_status (response (handle (Demo.libs true) Demo.env PUT_profile
                             Demo.anonymous_short_name Demo.db))
     = STATUS_CODES.UNAUTHORIZED
  /\ trace (handle (Demo.libs true) Demo.env PUT_profile Demo.anonymous_short_name
              Demo.db)
     = [AuthorizationGate].
Proof.
  repeat split; try reflexivity. vm_compute. discriminate.
Qed.

Lemma field_get_set_other (k k' v : string) (o : Fields) :
  k <> k' -> field_get k' (field_set k v o) = field_get k' o.
Proof.
  intros Hne. induction o as [|(k0, v0) r IH]; simpl.
  - apply String.eqb_neq in Hne. rewrite Hne. reflexivity.
  - destruct (String.eqb k0 k) eqn:H0; simpl.
    + apply String.eqb_eq in H0. subst k0.
      apply String.eqb_neq in Hne. rewrite Hne. reflexivity.
    + destruct (String.eqb k0 k'); [reflexivity|exact IH].
Qed.

(** A chain on a field of the body leaves the other fields of the body as
    they are. *)
Lemma run_items_other_field (field k : string) (items : list ChainItem)
    (st : Req * option string) :
  field <> k ->
  field_get k (body (fst (run_items InBody field items st)))
  = field_get k (body (fst st)).
Proof.
  intros Hne. revert st. induction items as [|item items IH]; intros st;
    [reflexivity|].
  change (run_items InBody field (item :: items) st)
    with (run_items InBody field items (run_item InBody field item st)).
  rewrite IH. destruct st as (req, v). destruct item as [check message|f]; simpl.
  - destruct (check req v); reflexivity.
  - destruct (opt_eqb _ _); [reflexivity|]. simpl.
    apply field_get_set_other. exact Hne.
Qed.

Lemma run_chain_other_field (c : Chain) (k : string) (req : Req) :
  c_location c = InBody -> c_field c <> k ->
  field_get k (body (run_chain c req)) = field_get k (body req).
Proof.
  intros Hl Hne. unfold run_chain. rewrite Hl.
  destruct (read_field InBody (c_field c) req);
    [apply (run_items_other_field _ _ _ (req, _) Hne)|].
  destruct (c_optional c); [reflexivity|].
  apply (run_items_other_field _ _ _ (req, _) Hne).
Qed.

Lemma filter_other_path (path field : string) (more : list FieldError) :
  Forall (fun e => fe_path e = field) more -> field <> path ->
  filter (fun e => String.eqb (fe_path e) path) more = [].
Proof.
  intros HF Hne. induction HF as [|e es He _ IH]; simpl; [reflexivity|].
  rewrite He. apply String.eqb_neq in Hne. rewrite Hne. exact IH.
Qed.

(** C9: when a rule of the rule set of an endpoint is violated, [validate]
    answers 422 and lists the message of that rule, whatever other rules are
    violated: every failing validator of every chain that applies is listed,
    and the message of the response is the list joined by commas; so it is
    at every endpoint for a request that got past the authorization gate,
    and the store is not touched.  A signup
    with the password "password" is answered with, for the password, the
    uppercase, the number and the special-character rules together. *)
Theorem C9_validation_lists_every_violated_rule :
  forall (L : Libs) (E : Env) (s : Store),
    (forall (cs : list Chain) (req : Req)
            (before after : list Chain) (c : Chain)
            (done rest : list ChainItem)
            (check : Req -> option string -> bool) (message : string),
        cs = (before ++ c :: after)%list ->
        c_items c = (done ++ Validator check message :: rest)%list ->
        chain_applies c (run_chains before req) = true ->
        check (fst (chain_state c done (run_chains before req)))
              (snd (chain_state c done (run_chains before req))) = false ->
        exists r,
          validate L E (run_chains cs req) s = (Respond r, s)
          /\ res_status r = STATUS_CODES.UNPROCESSABLE_ENTITY
          /\ In message (listed_messages r)
          /\ body_field "message" r = Some (JStr (Str.join ", " (listed_messages r))))
    /\ (forall (ep : Endpoint) (req req' : Req)
               (before after : list Chain) (c : Chain)
               (done rest : list ChainItem)
               (check : Req -> option string -> bool) (message : string),
          after_authorization L E ep req s = Some req' ->
          rule_set L ep = (before ++ c :: after)%list ->
          c_items c = (done ++ Validator check message :: rest)%list ->
          chain_applies c (run_chains before req') = true ->
          check (fst (chain_state c done (run_chains before req')))
                (snd (chain_state c done (run_chains before req'))) = false ->
          res_status (response (handle L E ep req s))
          = STATUS_CODES.UNPROCESSABLE_ENTITY
          /\ In message (listed_messages (response (handle L E ep req s)))
          /\ store (handle L E ep req s) = s)
    /\ (forall req : Req,
          validation_errors req = [] ->
          field_get "password" (body req) = Some "password" ->
          exists r,
            validate L E (run_chains (signupValidation L) req) s = (Respond r, s)
            /\ res_status r = STATUS_CODES.UNPROCESSABLE_ENTITY
            /\ listed_for "password" r
               = ["Password must contain at least one uppercase letter";
                  "Password must contain at least one number";
                  special_message]).
Proof.
  intros L E s.
  assert (Hgate : forall (cs : list Chain) (req : Req)
            (before after : list Chain) (c : Chain)
            (done rest : list ChainItem)
            (check : Req -> option string -> bool) (message : string),
        cs = (before ++ c :: after)%list ->
        c_items c = (done ++ Validator check message :: rest)%list ->
        chain_applies c (run_chains before req) = true ->
        check (fst (chain_state c done (run_chains before req)))
              (snd (chain_state c done (run_chains before req))) = false ->
        exists r,
          validate L E (run_chains cs req) s = (Respond r, s)
          /\ res_status r = STATUS_CODES.UNPROCESSABLE_ENTITY
          /\ In message (listed_messages r)
          /\ body_field "message" r = Some (JStr (Str.join ", " (listed_messages r))));
    [|split; [exact Hgate|split]].
  - intros cs req before after c done rest check message Hcs Hitems Happ Hfail.
    assert (Hin : In message (map fe_msg (validation_errors (run_chains cs req)))).
    { subst cs. rewrite run_chains_app.
      change (run_chains (c :: after) ?r) with (run_chains after (run_chain c r)).
      destruct (run_chains_errors_grow after (run_chain c (run_chains before req)))
        as (more & Hmore).
      rewrite Hmore, map_app. apply in_or_app. left.
      set (req0 := run_chains before req) in *.
      assert (Hrun : run_chain c req0
                     = fst (run_items (c_location c) (c_field c) (c_items c)
                              (req0, read_field (c_location c) (c_field c) req0))).
      { unfold run_chain. unfold chain_applies in Happ.
        destruct (read_field (c_location c) (c_field c) req0); [reflexivity|].
        destruct (c_optional c); [discriminate|reflexivity]. }
      rewrite Hrun, Hitems. apply failing_validator_recorded. exact Hfail. }
    destruct (validate_lists_all L E (run_chains cs req) s) as (r & Hv & Hst & Hl & Hm & _).
    { intros Hnil. rewrite Hnil in Hin. exact Hin. }
    exists r. rewrite Hl. auto.
  - intros ep req req' before after c done rest check message
      Hauth Hrules Hitems Happ Hfail.
    destruct (Hgate (rule_set L ep) req' before after c done rest check message
                Hrules Hitems Happ Hfail) as (r & Hv & Hst & Hin & _).
    assert (Hval : has_validate ep = true).
    { destruct ep; try reflexivity. destruct before; discriminate Hrules. }
    destruct (handle_invalid L E ep req req' s r Hauth Hval Hv) as (Hr & Hs).
    rewrite Hr, Hs. auto.
  - intros req Herrs Hpw.
    unfold run_chains, signupValidation. cbn [fold_left].
    set (c_email := mkChain InBody "email" false (email_items L)).
    set (c_username := mkChain InBody "username" false username_items).
    set (req1 := run_chain c_email req).
    set (req2 := run_chain c_username req1).
    assert (Hpw2 : field_get "password" (body req2) = Some "password").
    { unfold req2, req1.
      rewrite !run_chain_other_field by (reflexivity || discriminate). exact Hpw. }
    destruct (run_chain_errors_grow c_email req) as (m1 & H1 & F1).
    destruct (run_chain_errors_grow c_username req1) as (m2 & H2 & F2).
    fold req1 in H1. fold req2 in H2. rewrite H1, Herrs in H2. simpl in H2.
    match goal with
    | |- context [run_chain ?c (run_chain ?cp req2)] =>
        set (c_confirm := c); set (c_password := cp)
    end.
    set (req3 := run_chain c_password req2).
    assert (H3 : validation_errors req3
                 = ((m1 ++ m2)
                    ++ [mkFieldError "body" "password" (Some "password")
                          "Password must contain at least one uppercase letter";
                        mkFieldError "body" "password" (Some "password")
                          "Password must contain at least one number";
                        mkFieldError "body" "password" (Some "password")
                          special_message])%list).
    { unfold req3, run_chain, c_password. cbn [c_location c_field c_items c_optional].
      unfold read_field. rewrite Hpw2.
      unfold run_items. cbn [fold_left]. unfold run_item, standard, to_str.
      repeat match goal with
             | |- context [if ?b then _ else _] =>
                 let v := eval vm_compute in b in change b with v; cbv iota
             end.
      cbn [fst add_error validation_errors]. rewrite H2, <- !app_assoc. reflexivity. }
    destruct (run_chain_errors_grow c_confirm req3) as (m4 & H4 & F4).
    destruct (validate_lists_all L E (run_chain c_confirm req3) s)
      as (r & Hv & Hst & _ & _ & Hpath).
    { rewrite H4, H3. destruct m1, m2; discriminate. }
    exists r. split; [exact Hv|]. split; [exact Hst|].
    rewrite Hpath, H4, H3, !filter_app.
    rewrite (filter_other_path "password" "email" m1 F1) by discriminate.
    rewrite (filter_other_path "password" "username" m2 F2) by discriminate.
    rewrite (filter_other_path "password" "confirmPassword" m4 F4) by discriminate.
    reflexivity.
Qed.

(** A signup whose password is "password": the uppercase rule, the second
    validator of the password chain, fails; the endpoint answers 422 and
    lists it. *)
Lemma C9_witness :
  res_status (response (handle (Demo.libs true) Demo.env POST_signup Demo.weak_signup
                          Demo.db))
  = STATUS_CODES.UNPROCESSABLE_ENTITY
  /\ In "Password must contain at least one uppercase letter"
       (listed_messages (response (handle (Demo.libs true) Demo.env POST_signup
                                     Demo.weak_signup Demo.db)))
  /\ store (handle (Demo.libs true) Demo.env POST_signup Demo.weak_signup Demo.db)
     = Demo.db.
Proof.
  apply (proj1 (proj2 (C9_validation_lists_every_violated_rule (Demo.libs true)
                         Demo.env Demo.db))
           POST_signup Demo.weak_signup Demo.weak_signup
           [mkChain InBody "email" false (email_items (Demo.libs true));
            mkChain InBody "username" false username_items]
           [mkChain InBody "confirmPassword" false
              [Validator
                 (fun req value => opt_eqb value (field_get "password" (body req)))
                 "Passwords do not match"]]
           (mkChain InBody "password" false
              [Validator (standard (isLength VALIDATION_RULES.PASSWORD_MIN_LENGTH None))
                 "Password must be at least 8 characters long";
               Validator (standard (Str.any_char Str.is_upper))
                 "Password must contain at least one uppercase letter";
               Validator (standard (Str.any_char Str.is_lower))
                 "Password must contain at least one lowercase letter";
               Validator (standard (Str.any_char Str.is_digit))
                 "Password must contain at least one number";
               Validator (standard (Str.any_char is_special)) special_message])
           [Validator (standard (isLength VALIDATION_RULES.PASSWORD_MIN_LENGTH None))
              "Password must be at least 8 characters long"]
           [Validator (standard (Str.any_char Str.is_lower))
              "Password must contain at least one lowercase letter";
            Validator (standard (Str.any_char Str.is_digit))
              "Password must contain at least one number";
            Validator (standard (Str.any_char is_special)) special_message]
           (standard (Str.any_char Str.is_upper))
           "Password must contain at least one uppercase letter");
    reflexivity.
Defined.

(** ** Case and white space *)

Lemma lower_char_idem (c : ascii) : Str.lower_char (Str.lower_char c) = Str.lower_char c.
Proof.
  destruct c as [[] [] [] [] [] [] [] []]; reflexivity.
Qed.

Lemma is_space_lower_char (c : ascii) : Str.is_space (Str.lower_char c) = Str.is_space c.
Proof.
  destruct c as [[] [] [] [] [] [] [] []]; reflexivity.
Qed.

Lemma toLowerCase_idem (s : string) :
  Str.toLowerCase (Str.toLowerCase s) = Str.toLowerCase s.
Proof.
  induction s as [|c r IH]; simpl; [reflexivity|].
  rewrite lower_char_idem, IH. reflexivity.
Qed.

Lemma trimStart_toLowerCase (s : string) :
  Str.trimStart (Str.toLowerCase s) = Str.toLowerCase (Str.trimStart s).
Proof.
  induction s as [|c r IH]; simpl; [reflexivity|].
  rewrite is_space_lower_char. destruct (Str.is_space c); [exact IH|reflexivity].
Qed.

Lemma trimEnd_toLowerCase (s : string) :
  Str.trimEnd (Str.toLowerCase s) = Str.toLowerCase (Str.trimEnd s).
Proof.
  induction s as [|c r IH]; simpl; [reflexivity|].
  rewrite IH, is_space_lower_char.
  destruct (Str.trimEnd r); simpl; [destruct (Str.is_space c)|]; reflexivity.
Qed.

Lemma trim_toLowerCase (s : string) :
  Str.trim (Str.toLowerCase s) = Str.toLowerCase (Str.trim s).
Proof.
  unfold Str.trim. rewrite trimStart_toLowerCase, trimEnd_toLowerCase. reflexivity.
Qed.

(** A string whose lowercase form the setters leave alone is set to that
    form. *)
Lemma set_string_of_normalized_lower (s : string) :
  set_string (Str.toLowerCase s) = Str.toLowerCase s ->
  set_string s = Str.toLowerCase s.
Proof.
  unfold set_string. rewrite trim_toLowerCase, toLowerCase_idem. auto.
Qed.

Lemma trimEnd_no_space (s : string) :
  Str.all_chars (fun c => negb (Str.is_space c)) s = true -> Str.trimEnd s = s.
Proof.
  induction s as [|c r IH]; simpl; intros H; [reflexivity|].
  apply andb_prop in H. destruct H as (Hc & Hr). rewrite (IH Hr).
  destruct r; [|reflexivity].
  apply negb_true_iff in Hc. rewrite Hc. reflexivity.
Qed.

Lemma trim_no_space (s : string) :
  Str.all_chars (fun c => negb (Str.is_space c)) s = true -> Str.trim s = s.
Proof.
  intros H. unfold Str.trim.
  replace (Str.trimStart s) with s; [apply trimEnd_no_space; exact H|].
  destruct s as [|c r]; simpl in *; [reflexivity|].
  apply andb_prop in H. destruct H as (Hc & _).
  apply negb_true_iff in Hc. rewrite Hc. reflexivity.
Qed.

Lemma all_chars_weaken (p q : ascii -> bool) (s : string) :
  (forall c, p c = true -> q c = true) ->
  Str.all_chars p s = true -> Str.all_chars q s = true.
Proof.
  intros Hpq. induction s as [|c r IH]; simpl; intros H; [reflexivity|].
  apply andb_prop in H. destruct H as (Hc & Hr).
  rewrite (Hpq _ Hc), (IH Hr). reflexivity.
Qed.

Lemma username_char_no_space (c : ascii) :
  username_char c = true -> negb (Str.is_space c) = true.
Proof.
  destruct c as [[] [] [] [] [] [] [] []]; intros H;
    solve [reflexivity | discriminate H].
Qed.

Lemma first_failure_nil (checks : list (bool * string)) :
  first_failure checks = [] -> forall c, In c checks -> fst c = true.
Proof.
  unfold first_failure. intros H c Hc.
  destruct (find (fun c => negb (fst c)) checks) eqn:Hf; [discriminate|].
  apply negb_false_iff. exact (find_none _ _ Hf c Hc).
Qed.

(** A valid user name or email has no white space: [trim] leaves it. *)
Lemma valid_username_trim (v : string) :
  validate_username v = [] -> Str.trim v = v.
Proof.
  intros H. apply trim_no_space.
  pose proof (first_failure_nil _ H (username_pattern v, _)
                (or_intror (or_intror (or_intror (or_introl eq_refl))))) as Hp.
  simpl in Hp. unfold username_pattern in Hp. apply andb_prop in Hp.
  apply (all_chars_weaken _ _ _ username_char_no_space). tauto.
Qed.

Lemma valid_email_trim (v : string) :
  validate_email v = [] -> Str.trim v = v.
Proof.
  intros H. apply trim_no_space.
  pose proof (first_failure_nil _ H (email_pattern v, _)
                (or_intror (or_introl eq_refl))) as Hp.
  simpl in Hp. unfold email_pattern in Hp. apply andb_prop in Hp. tauto.
Qed.

(** ** Registration and the unique indexes *)

Lemma unique_violation_some (doc other : User) (us : list User) :
  In other us -> u_id other <> u_id doc ->
  u_username other = u_username doc \/ u_email other = u_email doc ->
  exists field value, unique_violation doc us = Some (field, value).
Proof.
  intros Hin Hid Hdup. unfold unique_violation.
  set (others := filter (fun u => negb (String.eqb (u_id u) (u_id doc))) us).
  assert (Hother : In other others).
  { apply filter_In. split; [exact Hin|].
    apply negb_true_iff. apply String.eqb_neq. exact Hid. }
  destruct (existsb (fun u => String.eqb (u_username u) (u_username doc)) others)
    eqn:Hname; [eauto|].
  destruct (existsb (fun u => String.eqb (u_email u) (u_email doc)) others)
    eqn:Hmail; [eauto|].
  exfalso. destruct Hdup as [Hdup|Hdup].
  - assert (existsb (fun u => String.eqb (u_username u) (u_username doc)) others = true).
    { apply existsb_exists. exists other. split; [exact Hother|].
      apply String.eqb_eq. exact Hdup. }
    congruence.
  - assert (existsb (fun u => String.eqb (u_email u) (u_email doc)) others = true).
    { apply existsb_exists. exists other. split; [exact Hother|].
      apply String.eqb_eq. exact Hdup. }
    congruence.
Qed.

Lemma existsb_user_id_false (us : list User) (u : User) (id : ObjectId) :
  existsb (fun x => String.eqb (u_id x) id) us = false -> In u us -> u_id u <> id.
Proof.
  intros H Hin Heq.
  assert (existsb (fun x => String.eqb (u_id x) id) us = true); [|congruence].
  apply existsb_exists. exists u. split; [exact Hin|]. apply String.eqb_eq. exact Heq.
Qed.

(** C5: a signup whose email or user name is, up to case, the one of a
    registered account is answered 409, by the check of the controller or,
    when that check misses the duplicate, by the unique index through
    [errorHandler]; the store, and with it the registered account, is left
    as it was.  The attempt is a well-formed one: its fields pass the
    validators of the schema, as those of every request that went through
    the validation gate do. *)
Theorem C5_duplicate_registration_conflicts :
  forall (L : Libs) (E : Env) (req : Req) (s : Store) (existing : User)
         (email username password : string),
    (forall u, In u (users s) -> normalized u) ->
    In existing (users s) ->
    field_get "email" (body req) = Some email ->
    field_get "username" (body req) = Some username ->
    field_get "password" (body req) = Some password ->
    Str.toLowerCase email = u_email existing
    \/ Str.toLowerCase username = u_username existing ->
    validate_user true (signup_document E email username password) = [] ->
    res_status (response (answer signup L E req s)) = STATUS_CODES.CONFLICT
    /\ store (answer signup L E req s) = s
    /\ In existing (users (store (answer signup L E req s))).
Proof.
  intros L E req s existing email username password Hnorm Hin He Hu Hp Hdup Hvalid.
  assert (Hgoal : res_status (response (answer signup L E req s)) = STATUS_CODES.CONFLICT
                  /\ store (answer signup L E req s) = s);
    [|destruct Hgoal as (H1 & H2); rewrite H2; auto].
  unfold answer. cbn [dispatch run handler gate]. unfold signup.
  rewrite He, Hu, Hp.
  destruct (User_findOne L _ false (users s)); [split; reflexivity|].
  unfold User_create.
  change (mkUser (fresh_id E) (set_opt (Some (Str.toLowerCase username)))
            (set_opt (Some email)) (Some password) (now E) (now E))
    with (signup_document E email username password).
  rewrite Hvalid.
  set (doc := pre_save L E true (signup_document E email username password)).
  destruct (existsb (fun u => String.eqb (u_id u) (u_id doc)) (users s)) eqn:Hid;
    [split; reflexivity|].
  destruct (unique_violation_some doc existing (users s) Hin) as (f & v & Hviol).
  - exact (existsb_user_id_false _ _ _ Hid Hin).
  - destruct (Hnorm existing Hin) as (Hn & Hm). unfold doc. simpl.
    destruct Hdup as [Hdup|Hdup].
    + right. symmetry. rewrite <- Hdup. apply set_string_of_normalized_lower.
      rewrite Hdup. exact Hm.
    + left. rewrite Hdup. symmetry. exact Hn.
  - rewrite Hviol. split; reflexivity.
Qed.

(** A second signup under the email of Alice in capitals, with a new user
    name, on a Mongoose that does not cast the filter: the controller's
    check misses it and the unique index refuses it. *)
Lemma C5_witness :
  res_status (response (answer signup (Demo.libs false) Demo.env Demo.second_signup Demo.db))
  = STATUS_CODES.CONFLICT
  /\ store (answer signup (Demo.libs false) Demo.env Demo.second_signup Demo.db) = Demo.db
  /\ In Demo.alice
       (users (store (answer signup (Demo.libs false) Demo.env Demo.second_signup Demo.db))).
Proof.
  apply (C5_duplicate_registration_conflicts (Demo.libs false) Demo.env
           Demo.second_signup Demo.db Demo.alice
           "ALICE@example.com" "alice2" "Passw0rd!").
  - intros u [Hu|[Hu|[]]]; subst u; split; reflexivity.
  - simpl. auto.
  - reflexivity.
  - reflexivity.
  - reflexivity.
  - left. reflexivity.
  - reflexivity.
Defined.

(** ** The uniqueness check of a profile update *)

Lemma pre_save_keeps_keys (L : Libs) (E : Env) (b : bool) (doc : User) :
  u_id (pre_save L E b doc) = u_id doc
  /\ u_username (pre_save L E b doc) = u_username doc
  /\ u_email (pre_save L E b doc) = u_email doc.
Proof.
  unfold pre_save. destruct b; simpl; auto.
Qed.

(** A save that meets the unique index fails with the duplicate-key error
    and writes nothing. *)
Lemma User_save_duplicate (L : Libs) (E : Env) (loaded doc other : User)
    (us : list User) :
  validate_user false doc = [] ->
  existsb (fun u => String.eqb (u_id u) (u_id doc)) us = true ->
  In other us -> u_id other <> u_id doc ->
  u_username other = u_username doc \/ u_email other = u_email doc ->
  exists field value, User_save L E loaded doc us = inl (DuplicateKeyError field value).
Proof.
  intros Hvalid Hself Hin Hid Hdup. unfold User_save. rewrite Hvalid.
  set (hashed := pre_save L E (negb (opt_eqb (u_password doc) (u_password loaded))) doc).
  destruct (pre_save_keeps_keys L E (negb (opt_eqb (u_password doc) (u_password loaded))) doc)
    as (Hi & Hn & Hm).
  fold hashed in Hi, Hn, Hm.
  set (stamped := if user_eqb_paths hashed loaded then hashed
                  else mkUser (u_id hashed) (u_username hashed) (u_email hashed)
                         (u_password hashed) (u_createdAt hashed) (now E)).
  assert (Hkeys : u_id stamped = u_id doc /\ u_username stamped = u_username doc
                  /\ u_email stamped = u_email doc).
  { unfold stamped. destruct (user_eqb_paths hashed loaded); simpl; auto. }
  destruct Hkeys as (Hi' & Hn' & Hm').
  rewrite Hi', Hself. simpl negb. cbv iota.
  destruct (unique_violation_some stamped other us Hin) as (f & v & Hviol).
  - congruence.
  - rewrite Hn', Hm'. exact Hdup.
  - rewrite Hviol. eauto.
Qed.

Lemma findById_in (id : ObjectId) (us : list User) (u : User) :
  User_findById id us = Some u ->
  u_id u = id /\ existsb (fun x => String.eqb (u_id x) id) us = true.
Proof.
  unfold User_findById. destruct (find _ us) as [x|] eqn:Hf; simpl; [|discriminate].
  intros H. inversion H; subst. simpl. apply find_some in Hf.
  destruct Hf as (Hin & Heq). split.
  - apply String.eqb_eq. exact Heq.
  - apply existsb_exists. exists x. auto.
Qed.

(** The filter casts a valid, lowercased value to itself. *)
Lemma cast_valid_username (L : Libs) (v : string) :
  validate_username (Str.toLowerCase v) = [] ->
  cast_string L (Str.toLowerCase v) = Str.toLowerCase v
  /\ set_string (Str.toLowerCase v) = Str.toLowerCase v.
Proof.
  intros H. assert (Hs : set_string (Str.toLowerCase v) = Str.toLowerCase v).
  { unfold set_string. rewrite (valid_username_trim _ H). apply toLowerCase_idem. }
  unfold cast_string. destruct (setters_on_query L); auto.
Qed.

Lemma cast_valid_email (L : Libs) (v : string) :
  validate_email (Str.toLowerCase v) = [] ->
  cast_string L (Str.toLowerCase v) = Str.toLowerCase v
  /\ set_string (Str.toLowerCase v) = Str.toLowerCase v.
Proof.
  intros H. assert (Hs : set_string (Str.toLowerCase v) = Str.toLowerCase v).
  { unfold set_string. rewrite (valid_email_trim _ H). apply toLowerCase_idem. }
  unfold cast_string. destruct (setters_on_query L); auto.
Qed.

Lemma valid_truthy (v : string) (checks : list (bool * string)) (m : string) :
  first_failure ((Str.truthy (Str.toLowerCase v), m) :: checks) = [] ->
  Str.truthy v = true.
Proof.
  intros H.
  pose proof (first_failure_nil _ H _ (or_introl eq_refl)) as Ht. simpl in Ht.
  destruct v; [discriminate|reflexivity].
Qed.

(** C10: when a profile update brings a user name and an email, the check
    of the controller looks for one other user that has both: it finds one
    exactly when such a user exists.  When no other user has both but some
    other user has one of them, the check finds nobody, the save is
    attempted and fails on the unique index, and [errorHandler] turns the
    duplicate-key error into 409; nothing is written. *)
Theorem C10_profile_check_is_conjunctive :
  forall (L : Libs) (E : Env) (req : Req) (s : Store) (caller self : User)
         (username email : string),
    user req = Some caller ->
    User_findById (u_id caller) (users s) = Some self ->
    field_get "username" (body req) = Some username ->
    field_get "email" (body req) = Some email ->
    validate_username (Str.toLowerCase username) = [] ->
    validate_email (Str.toLowerCase email) = [] ->
    (forall p, field_get "password" (body req) = Some p -> validate_password p = []) ->
    let check :=
      User_findOne L (profile_conflict_query (Some username) (Some email) (u_id self))
        false (users s) in
    ((exists u, check = Some u)
     <-> (exists u, In u (users s) /\ u_id u <> u_id self
                    /\ u_username u = Str.toLowerCase username
                    /\ u_email u = Str.toLowerCase email))
    /\ ((forall u, In u (users s) -> u_id u <> u_id self ->
                   ~ (u_username u = Str.toLowerCase username
                      /\ u_email u = Str.toLowerCase email)) ->
        (exists u, In u (users s) /\ u_id u <> u_id self
                   /\ (u_username u = Str.toLowerCase username
                       \/ u_email u = Str.toLowerCase email)) ->
        check = None
        /\ (exists field value,
              updateProfile L E req s = (NextErr (DuplicateKeyError field value), s))
        /\ res_status (response (answer updateProfile L E req s)) = STATUS_CODES.CONFLICT
        /\ store (answer updateProfile L E req s) = s).
Proof.
  intros L E req s caller self username email Hu Hself Hun Hem Hvn Hve Hvp check.
  destruct (cast_valid_username L _ Hvn) as (Hcn & Hsn).
  destruct (cast_valid_email L _ Hve) as (Hce & Hse).
  pose proof (valid_truthy _ _ _ Hvn) as Htn.
  pose proof (valid_truthy _ _ _ Hve) as Hte.
  assert (Hmatch : forall u,
             match_query L (profile_conflict_query (Some username) (Some email) (u_id self)) u
             = (String.eqb (u_username u) (Str.toLowerCase username)
                && (String.eqb (u_email u) (Str.toLowerCase email)
                    && (negb (String.eqb (u_id u) (u_id self)) && true)))%bool).
  { intros u. unfold profile_conflict_query. simpl truthy. rewrite Htn, Hte.
    simpl. rewrite Hcn, Hce. reflexivity. }
  assert (Hiff : (exists u, check = Some u)
                 <-> (exists u, In u (users s) /\ u_id u <> u_id self
                                /\ u_username u = Str.toLowerCase username
                                /\ u_email u = Str.toLowerCase email)).
  { unfold check, User_findOne. split.
    - intros (u & H).
      destruct (find _ (users s)) as [x|] eqn:Hf; [|discriminate].
      apply find_some in Hf. destruct Hf as (Hin & Hm). rewrite Hmatch in Hm.
      apply andb_prop in Hm. destruct Hm as (H1 & Hm).
      apply andb_prop in Hm. destruct Hm as (H2 & Hm).
      apply andb_prop in Hm. destruct Hm as (H3 & _).
      exists x. repeat split; auto.
      + apply String.eqb_neq. apply negb_true_iff. exact H3.
      + apply String.eqb_eq. exact H1.
      + apply String.eqb_eq. exact H2.
    - intros (u & Hin & Hid & H1 & H2).
      destruct (find _ (users s)) as [x|] eqn:Hf; [eauto|].
      pose proof (find_none _ _ Hf u Hin) as Hm. rewrite Hmatch in Hm.
      apply String.eqb_eq in H1. apply String.eqb_eq in H2.
      apply String.eqb_neq in Hid. rewrite H1, H2, Hid in Hm. discriminate. }
  split; [exact Hiff|].
  intros Hnoboth (other & Hin & Hid & Hone).
  assert (Hnone : check = None).
  { destruct check as [u|] eqn:Hc; [|reflexivity]. exfalso.
    destruct (proj1 Hiff (ex_intro _ u eq_refl)) as (x & Hx & Hxid & Hboth).
    exact (Hnoboth x Hx Hxid Hboth). }
  destruct (findById_in _ _ _ Hself) as (Hselfid & Hexists).
  assert (Hstep : exists field value,
             updateProfile L E req s = (NextErr (DuplicateKeyError field value), s)).
  { unfold updateProfile. rewrite Hu, Hself, Hun, Hem. simpl truthy. rewrite Htn, Hte.
    simpl orb. cbv iota. fold check. rewrite Hnone.
    set (doc := match field_get "password" (body req) with
                | Some v => if Str.truthy v
                            then set_password v
                                   (set_email (Str.toLowerCase email)
                                      (set_username (Str.toLowerCase username) self))
                            else set_email (Str.toLowerCase email)
                                   (set_username (Str.toLowerCase username) self)
                | None => set_email (Str.toLowerCase email)
                            (set_username (Str.toLowerCase username) self)
                end).
    assert (Hdoc : u_id doc = u_id self
                   /\ u_username doc = Str.toLowerCase username
                   /\ u_email doc = Str.toLowerCase email
                   /\ (u_password doc = u_password self
                       \/ exists p, u_password doc = Some p
                                    /\ field_get "password" (body req) = Some p)).
    { unfold doc. destruct (field_get "password" (body req)) as [p|];
        [destruct (Str.truthy p)|]; simpl; rewrite ?Hsn, ?Hse; repeat split; eauto. }
    destruct Hdoc as (Hdi & Hdn & Hde & Hdp).
    destruct (User_save_duplicate L E self doc other (users s)) as (f & v & Hsave).
    - unfold validate_user. rewrite Hdn, Hde, Hvn, Hve. simpl.
      destruct Hdp as [Hdp|(p & Hdp & Hp)].
      + rewrite Hdp, (findById_without_password _ _ _ Hself). reflexivity.
      + rewrite Hdp. apply Hvp. exact Hp.
    - rewrite Hdi, Hselfid. exact Hexists.
    - exact Hin.
    - rewrite Hdi. exact Hid.
    - rewrite Hdn, Hde. exact Hone.
    - rewrite Hsave. eauto. }
  split; [exact Hnone|]. split; [exact Hstep|].
  destruct Hstep as (f & v & Hstep).
  unfold answer. cbn [dispatch run handler gate]. rewrite Hstep. split; reflexivity.
Qed.

(** ** The password never leaves *)

Lemma mentions_map {A} (k : string) (f : A -> json) (l : list A) :
  (forall x, mentions_key k (f x) = false) ->
  mentions_key k (JArr (map f l)) = false.
Proof.
  intros Hf. induction l as [|x r IH]; [reflexivity|].
  simpl in IH |- *. rewrite Hf. exact IH.
Qed.

Lemma toPublicJSON_hides (u : User) : obj_mentions "password" (toPublicJSON u) = false.
Proof.
  reflexivity.
Qed.

Lemma user_toJSON_hides (u : User) : mentions_key "password" (user_toJSON u) = false.
Proof.
  unfold user_toJSON, user_toObject, user_transform.
  destruct (u_password u); reflexivity.
Qed.

Lemma task_toJSON_hides (t : Task) : mentions_key "password" (task_toJSON t) = false.
Proof.
  reflexivity.
Qed.

Lemma tasks_json_hides (ts : list Task) :
  mentions_key "password" (JArr (json_of_tasks ts)) = false.
Proof.
  apply mentions_map. exact task_toJSON_hides.
Qed.

Lemma field_error_json_hides (e : FieldError) :
  mentions_key "password" (field_error_json e) = false.
Proof.
  unfold field_error_json. destruct (fe_value e); reflexivity.
Qed.

Lemma errorHandler_hides (E : Env) (e : Error) : hides_password (errorHandler E e).
Proof.
  unfold hides_password.
  destruct e as [messages|field value|path value|statusCode message stack];
    try reflexivity.
  simpl. destruct (Str.truthy message), (development E); reflexivity.
Qed.

Lemma sendSuccess_public_hides (code : Z) (u : User) :
  hides_password (sendSuccess code (toPublicJSON u) "").
Proof.
  reflexivity.
Qed.

Lemma sendSuccess_token_hides (code : Z) (token : string) (u : User) :
  hides_password
    (sendSuccess code [("token", JStr token); ("user", JObj (toPublicJSON u))] "").
Proof.
  reflexivity.
Qed.

Lemma sendPaginatedResponse_hides (ts : list Task) (page limit : JsNum) (total : Z) :
  hides_password (sendPaginatedResponse (json_of_tasks ts) page limit total).
Proof.
  unfold hides_password, sendPaginatedResponse.
  pose proof (tasks_json_hides ts) as H.
  cbn [res_body]. simpl in H |- *. rewrite H.
  destruct page, (Math_ceil_div total limit), limit; reflexivity.
Qed.

#[local] Hint Resolve errorHandler_hides sendSuccess_public_hides
  sendSuccess_token_hides sendPaginatedResponse_hides : hides.

Lemma controllers_hide (L : Libs) (E : Env) (ep : Endpoint) :
  stage_hides L E (controller ep).
Proof.
  intros req s. destruct ep; cbn [controller].
  - unfold signup. hide_cases; reflexivity.
  - unfold login. hide_cases; reflexivity.
  - unfold getProfile. hide_cases; reflexivity.
  - unfold updateProfile. hide_cases; reflexivity.
  - unfold getTasks. hide_cases; try reflexivity.
    unfold hides_password. cbn [res_body]. apply tasks_json_hides.
  - unfold createTask. hide_cases; reflexivity.
  - unfold getTaskById. hide_cases; reflexivity.
  - unfold updateTask. hide_cases; reflexivity.
  - unfold deleteTask. hide_cases; reflexivity.
Qed.

Lemma protect_hides (L : Libs) (E : Env) : stage_hides L E protect.
Proof.
  intros req s.
  destruct (protect_outcomes L E req s) as [(m & H)|(u & H & _)]; rewrite H;
    [reflexivity|exact I].
Qed.

Lemma validate_hides (L : Libs) (E : Env) : stage_hides L E validate.
Proof.
  intros req s. unfold validate.
  destruct (validation_errors req) as [|e es]; [exact I|].
  cbn [fst outcome_hides]. unfold hides_password. cbn [res_body].
  pose proof (mentions_map "password" field_error_json (e :: es)
                field_error_json_hides) as H.
  simpl in H |- *. rewrite H. reflexivity.
Qed.

Lemma dispatch_hides (L : Libs) (E : Env) (stack : list Stage) :
  Forall (fun st => stage_hides L E (run st)) stack ->
  forall req s ran, hides_password (response (dispatch stack L E req s ran)).
Proof.
  induction 1 as [|st rest Hst _ IH]; intros req s ran; simpl; [reflexivity|].
  specialize (Hst req s).
  destruct (run st L E req s) as ([r|req'|e], s'); simpl in Hst |- *; auto.
Qed.

Lemma route_hides (L : Libs) (E : Env) (ep : Endpoint) :
  Forall (fun st => stage_hides L E (run st)) (route L ep).
Proof.
  rewrite route_shape.
  apply Forall_app; split; [|apply Forall_app; split; [|apply Forall_app; split]].
  - destruct (protected ep); constructor; [apply protect_hides|constructor].
  - unfold rules. apply Forall_map. apply Forall_forall. intros c _ req s. exact I.
  - destruct (has_validate ep); constructor; [apply validate_hides|constructor].
  - constructor; [apply controllers_hide|constructor].
Qed.


(** ** Responses do not depend on the stored passwords *)

Lemma find_view (p : User -> bool) (us : list User) :
  (forall u, p (without_password u) = p u) ->
  option_map without_password (find p us) = find p (map without_password us).
Proof.
  intros Hp. induction us as [|u r IH]; simpl; [reflexivity|].
  rewrite Hp. destruct (p u); [reflexivity|exact IH].
Qed.

Lemma existsb_filter_view (p q : User -> bool) (us : list User) :
  (forall u, p (without_password u) = p u) ->
  (forall u, q (without_password u) = q u) ->
  existsb q (filter p us) = existsb q (filter p (map without_password us)).
Proof.
  intros Hp Hq. induction us as [|u r IH]; simpl; [reflexivity|].
  rewrite Hp. destruct (p u); simpl; [rewrite Hq, IH|]; auto.
Qed.

Lemma existsb_view (q : User -> bool) (us : list User) :
  (forall u, q (without_password u) = q u) ->
  existsb q us = existsb q (map without_password us).
Proof.
  intros Hq. induction us as [|u r IH]; simpl; [reflexivity|].
  rewrite Hq, IH. reflexivity.
Qed.

Lemma match_query_view (L : Libs) (q : UserQuery) (u : User) :
  match_query L q (without_password u) = match_query L q u.
Proof.
  reflexivity.
Qed.

Section SameView.

Variables (L : Libs) (E : Env) (us1 us2 : list User).
Hypothesis Hview : map without_password us1 = map without_password us2.

Lemma findById_same (id : ObjectId) : User_findById id us1 = User_findById id us2.
Proof.
  unfold User_findById. rewrite !find_view by reflexivity. rewrite Hview. reflexivity.
Qed.

Lemma findOne_same (q : UserQuery) :
  User_findOne L q false us1 = User_findOne L q false us2.
Proof.
  unfold User_findOne.
  change (match find (match_query L q) ?us with
          | Some u => Some (without_password u)
          | None => None
          end) with (option_map without_password (find (match_query L q) us)).
  rewrite !find_view by reflexivity. rewrite Hview. reflexivity.
Qed.

(** With the password loaded, the user found is the same up to the
    password. *)
Lemma findOne_password_same (q : UserQuery) :
  option_map without_password (User_findOne L q true us1)
  = option_map without_password (User_findOne L q true us2).
Proof.
  assert (H : forall us,
             option_map without_password (User_findOne L q true us)
             = find (match_query L q) (map without_password us)).
  { intros us. rewrite <- find_view by reflexivity. unfold User_findOne.
    destruct (find (match_query L q) us); reflexivity. }
  rewrite !H, Hview. reflexivity.
Qed.

Lemma unique_violation_same (doc : User) :
  unique_violation doc us1 = unique_violation doc us2.
Proof.
  unfold unique_violation.
  rewrite (existsb_filter_view _ _ us1), (existsb_filter_view _ (fun u => String.eqb (u_email u) _) us1)
    by reflexivity.
  rewrite (existsb_filter_view _ _ us2), (existsb_filter_view _ (fun u => String.eqb (u_email u) _) us2)
    by reflexivity.
  rewrite Hview. reflexivity.
Qed.

Lemma existsb_id_same (id : ObjectId) :
  existsb (fun u => String.eqb (u_id u) id) us1
  = existsb (fun u => String.eqb (u_id u) id) us2.
Proof.
  rewrite (existsb_view _ us1), (existsb_view _ us2) by reflexivity.
  rewrite Hview. reflexivity.
Qed.

Lemma User_create_same (email username password : option string) :
  written (User_create L E email username password us1)
  = written (User_create L E email username password us2).
Proof.
  unfold User_create.
  destruct (validate_user true _); [|reflexivity].
  rewrite existsb_id_same.
  match goal with
  | |- context [existsb ?f us2] => destruct (existsb f us2)
  end; [reflexivity|].
  rewrite unique_violation_same.
  destruct (unique_violation _ us2) as [(f, v)|]; reflexivity.
Qed.

Lemma User_save_same (loaded doc : User) :
  written (User_save L E loaded doc us1) = written (User_save L E loaded doc us2).
Proof.
  unfold User_save.
  destruct (validate_user false doc); [|reflexivity].
  rewrite existsb_id_same.
  match goal with
  | |- context [existsb ?f us2] => destruct (existsb f us2)
  end; [|reflexivity].
  rewrite unique_violation_same.
  destruct (unique_violation _ us2) as [(f, v)|]; reflexivity.
Qed.

End SameView.

Lemma public_view_inv (s1 s2 : Store) :
  public_view s1 = public_view s2 ->
  map without_password (users s1) = map without_password (users s2)
  /\ tasks s1 = tasks s2.
Proof.
  unfold public_view. intros H. inversion H. auto.
Qed.

(** Every controller but [login] answers the same on two stores with the
    same public view. *)
Lemma controller_same (L : Libs) (E : Env) (ep : Endpoint) (req : Req) (s1 s2 : Store) :
  ep <> POST_login ->
  public_view s1 = public_view s2 ->
  fst (controller ep L E req s1) = fst (controller ep L E req s2).
Proof.
  intros Hep Hv. destruct (public_view_inv _ _ Hv) as (Hu & Ht).
  destruct ep; try congruence; cbn [controller].
  - unfold signup.
    destruct (field_get "username" (body req)) as [username|]; [|reflexivity].
    rewrite (findOne_same L _ _ Hu).
    destruct (User_findOne L _ false (users s2)); [reflexivity|].
    pose proof (User_create_same L E _ _ Hu (field_get "email" (body req))
                  (Some (Str.toLowerCase username))
                  (field_get "password" (body req))) as Hc.
    destruct (User_create L E _ _ _ (users s1)) as [e1|(d1, r1)],
             (User_create L E _ _ _ (users s2)) as [e2|(d2, r2)];
      simpl in Hc; inversion Hc; reflexivity.
  - unfold getProfile. destruct (user req) as [ru|]; [|reflexivity].
    rewrite (findById_same _ _ Hu). destruct (User_findById _ (users s2)); reflexivity.
  - unfold updateProfile. destruct (user req) as [ru|]; [|reflexivity].
    rewrite (findById_same _ _ Hu).
    destruct (User_findById _ (users s2)) as [self|]; [|reflexivity].
    rewrite (findOne_same L _ _ Hu).
    match goal with
    | |- fst (match ?c with _ => _ end) = fst (match ?c with _ => _ end) =>
        destruct c; [reflexivity|]
    end.
    match goal with
    | |- context [User_save L E self ?doc (users s1)] =>
        pose proof (User_save_same L E _ _ Hu self doc) as Hc;
        destruct (User_save L E self doc (users s1)) as [e1|(d1, r1)],
                 (User_save L E self doc (users s2)) as [e2|(d2, r2)]
    end; simpl in Hc; inversion Hc; reflexivity.
  - unfold getTasks. rewrite Ht. destruct (user req); [|reflexivity].
    destruct (_ && _)%bool.
    + destruct (findByUser _ _ _ _ _); reflexivity.
    + destruct (findByUser _ _ _ _ _); reflexivity.
  - unfold createTask. rewrite Ht. destruct (user req); [|reflexivity].
    destruct (Task_create _ _ _ _ _ _) as [e|(d, r)]; reflexivity.
  - unfold getTaskById. rewrite Ht. destruct (user req); [|reflexivity].
    destruct (find_owned _ _ _); reflexivity.
  - unfold updateTask. rewrite Ht. destruct (user req); [|reflexivity].
    destruct (find_owned _ _ _); [|reflexivity].
    destruct (Task_save _ _ _ _) as [e|(d, r)]; reflexivity.
  - unfold deleteTask. rewrite Ht. destruct (user req); [|reflexivity].
    destruct (field_get "id" (params req)); [|reflexivity].
    destruct (Task_findOneAndDelete _ _ _) as ([x|], r); reflexivity.
Qed.

(** [login] reads the stored password, but when it succeeds its answer is
    made of the identifier and the public projection of the user. *)
Lemma login_blind (L : Libs) (E : Env) : blind_stage L E login.
Proof.
  intros req s1 s2 Hv. destruct (public_view_inv _ _ Hv) as (Hu & _).
  unfold login.
  destruct (field_get "emailOrUsername" (body req)) as [identifier|];
    [|discriminate].
  pose proof (findOne_password_same L _ _ Hu (login_query identifier)) as Hf.
  destruct (User_findOne L _ true (users s1)) as [u1|],
           (User_findOne L _ true (users s2)) as [u2|];
    simpl in Hf; try discriminate.
  unfold without_password in Hf. injection Hf as Hid Hname Hmail Hc Hup.
  unfold comparePassword.
  destruct (field_get "password" (body req)) as [p|]; [|discriminate].
  destruct (u_password u1) as [h1|]; [|discriminate].
  destruct (u_password u2) as [h2|]; [|intros _; discriminate].
  destruct (bcrypt_compare L p h1); [|discriminate].
  destruct (bcrypt_compare L p h2); [|intros _; discriminate].
  intros _ _. cbn [negb fst final_response].
  unfold toPublicJSON. rewrite Hid, Hname, Hmail, Hc, Hup. reflexivity.
Qed.

Lemma controller_blind (L : Libs) (E : Env) (ep : Endpoint) :
  blind_stage L E (controller ep).
Proof.
  destruct ep; try exact (login_blind L E);
    intros req s1 s2 Hv _ _;
    match goal with
    | |- context [controller ?ep] =>
        rewrite (controller_same L E ep req s1 s2 ltac:(discriminate) Hv)
    end; reflexivity.
Qed.

Lemma protect_view (L : Libs) (E : Env) : view_stage L E protect.
Proof.
  intros req s1 s2 Hv. destruct (public_view_inv _ _ Hv) as (Hu & _).
  unfold protect.
  destruct (has_bearer req); [|auto].
  destruct (jwt_verify L E (bearer_token req)) as [e|decoded]; [auto|].
  rewrite (findById_same _ _ Hu).
  destruct (User_findById _ (users s2)); auto.
Qed.

Lemma validate_view (L : Libs) (E : Env) : view_stage L E validate.
Proof.
  intros req s1 s2 _. unfold validate. destruct (validation_errors req); auto.
Qed.

Lemma chain_view (L : Libs) (E : Env) (c : Chain) : view_stage L E (run (chain_stage c)).
Proof.
  intros req s1 s2 _. simpl. auto.
Qed.

(** Along a stack of such stages that ends in a blind one, two stores with
    the same public view give the same successful answer. *)
Lemma dispatch_blind (L : Libs) (E : Env) (before : list Stage) (last : Stage) :
  Forall (fun st => view_stage L E (run st)) before ->
  blind_stage L E (run last) ->
  forall req s1 s2 ran,
    public_view s1 = public_view s2 ->
    is_success (response (dispatch (before ++ [last]) L E req s1 ran)) = true ->
    is_success (response (dispatch (before ++ [last]) L E req s2 ran)) = true ->
    res_body (response (dispatch (before ++ [last]) L E req s1 ran))
    = res_body (response (dispatch (before ++ [last]) L E req s2 ran)).
Proof.
  intros Hbefore Hlast. induction Hbefore as [|st rest Hst _ IH];
    intros req s1 s2 ran Hv.
  - specialize (Hlast req s1 s2 Hv). cbn [app dispatch].
    destruct (run last L E req s1) as ([r1|q1|e1], t1),
             (run last L E req s2) as ([r2|q2|e2], t2);
      cbn [fst final_response response] in Hlast |- *; exact Hlast.
  - destruct (Hst req s1 s2 Hv) as (Hfst & H1 & H2).
    cbn [app dispatch].
    destruct (run st L E req s1) as (o1, t1), (run st L E req s2) as (o2, t2).
    simpl in Hfst, H1, H2. subst o2 t1 t2.
    destruct o1 as [r|q|e]; [auto|apply IH; exact Hv|auto].
Qed.

Lemma route_blind (L : Libs) (E : Env) (ep : Endpoint) :
  exists before,
    route L ep = (before ++ [handler (controller ep)])%list
    /\ Forall (fun st => view_stage L E (run st)) before.
Proof.
  exists ((if protected ep then [protect_stage] else [])
          ++ rules (rule_set L ep)
          ++ (if has_validate ep then [validate_stage] else []))%list.
  split; [rewrite route_shape, <- !app_assoc; reflexivity|].
  apply Forall_app; split; [|apply Forall_app; split].
  - destruct (protected ep); constructor; [apply protect_view|constructor].
  - unfold rules. apply Forall_map. apply Forall_forall. intros c _. apply chain_view.
  - destruct (has_validate ep); constructor; [apply validate_view|constructor].
Qed.

(** C2: no successful response of any endpoint has a [password] key, at any
    depth, and none depends on the passwords the store holds: two stores
    that differ in the stored passwords only get the same successful
    answers.  The public projection of a user has no [password], the
    [toJSON] transform of the user schema removes it, and the user the
    authorization gate attaches to the request was loaded without it. *)
Theorem C2_password_is_write_only :
  forall (L : Libs) (E : Env),
    (forall (ep : Endpoint) (req : Req) (s : Store),
        is_success (response (handle L E ep req s)) = true ->
        mentions_key "password" (res_body (response (handle L E ep req s))) = false)
    /\ (forall (ep : Endpoint) (req : Req) (s1 s2 : Store),
          public_view s1 = public_view s2 ->
          is_success (response (handle L E ep req s1)) = true ->
          is_success (response (handle L E ep req s2)) = true ->
          res_body (response (handle L E ep req s1))
          = res_body (response (handle L E ep req s2)))
    /\ (forall u : User, obj_mentions "password" (toPublicJSON u) = false)
    /\ (forall u : User, mentions_key "password" (user_toJSON u) = false)
    /\ (forall (req req' : Req) (s s' : Store),
          protect L E req s = (Next req', s') ->
          exists u, user req' = Some u /\ u_password u = None).
Proof.
  intros L E. split; [|split; [|split; [|split]]].
  - intros ep req s _. apply (dispatch_hides L E _ (route_hides L E ep)).
  - intros ep req s1 s2 Hv. unfold handle.
    destruct (route_blind L E ep) as (before & Hroute & Hbefore).
    rewrite Hroute. apply dispatch_blind; auto. apply controller_blind.
  - reflexivity.
  - exact user_toJSON_hides.
  - intros req req' s s' H.
    destruct (protect_outcomes L E req s) as [(m & H')|(u & H' & Hu)];
      rewrite H' in H; inversion H; subst.
    exists u. split; [reflexivity|exact Hu].
Qed.

(** ** The properties at work on the small instance *)

(** Alice's login succeeds and its answer has no [password] key; the profile
    of Bob reads the same from a store that holds other password hashes. *)
Lemma C2_witness :
  is_success (response (handle (Demo.libs true) Demo.env POST_login Demo.alice_login Demo.db))
  = true
  /\ mentions_key "password"
       (res_body (response (handle (Demo.libs true) Demo.env POST_login
                              Demo.alice_login Demo.db))) = false
  /\ res_body (response (handle (Demo.libs true) Demo.env GET_profile
                            Demo.bob_profile Demo.db))
     = res_body (response (handle (Demo.libs true) Demo.env GET_profile
                             Demo.bob_profile Demo.rehashed)).
Proof.
  split; [reflexivity|]. split.
  - apply (proj1 (C2_password_is_write_only (Demo.libs true) Demo.env)).
    reflexivity.
  - apply (proj1 (proj2 (C2_password_is_write_only (Demo.libs true) Demo.env)));
      reflexivity.
Defined.

(** The user name of Bob and the email of Carol are both taken, by two
    users: the check of the controller finds nobody and the save fails on
    the unique index. *)
Lemma C10_witness :
  User_findOne (Demo.libs true)
    (profile_conflict_query (Some "Bob") (Some "carol@example.com") "a1")
    false (users Demo.crowd) = None
  /\ res_status (response (answer updateProfile (Demo.libs true) Demo.env
                             Demo.greedy_update Demo.crowd))
     = STATUS_CODES.CONFLICT
  /\ store (answer updateProfile (Demo.libs true) Demo.env Demo.greedy_update Demo.crowd)
     = Demo.crowd.
Proof.
  destruct (proj2 (C10_profile_check_is_conjunctive (Demo.libs true) Demo.env
                     Demo.greedy_update Demo.crowd (without_password Demo.alice)
                     (without_password Demo.alice) "Bob" "carol@example.com"
                     eq_refl eq_refl eq_refl eq_refl eq_refl eq_refl
                     ltac:(intros p H; discriminate H)))
    as (H1 & _ & H3 & H4).
  - intros u [Hu|[Hu|[Hu|[]]]] _ (Hn & He); subst u; discriminate.
  - exists Demo.bob. split; [simpl; auto|]. split; [discriminate|].
    left. reflexivity.
  - auto.
Defined.

(* ================================================================= *)
(** * Further properties of the code *)

(** ** Tasks: deleting, creating, listing *)

Lemma remove_first_subset (p : Task -> bool) (ts : list Task) (x : Task) :
  In x (remove_first p ts) -> In x ts.
Proof.
  induction ts as [|t r IH]; simpl; [auto|].
  destruct (p t); simpl; intuition.
Qed.

(** Under unique identifiers, removing the task [t] leaves no task with its
    identifier and keeps every other task. *)
Lemma remove_first_unique (p : Task -> bool) (ts : list Task) (t : Task) :
  NoDup (map t_id ts) -> In t ts -> p t = true ->
  (forall x, p x = true -> t_id x = t_id t) ->
  (forall x, In x (remove_first p ts) -> t_id x <> t_id t)
  /\ (forall x, In x ts -> x <> t -> In x (remove_first p ts)).
Proof.
  intros Hnd Hin Hp Hid. induction ts as [|a r IH]; simpl in *; [contradiction|].
  inversion Hnd as [|? ? Hnotin Hnd']; subst.
  destruct (p a) eqn:Hpa.
  - assert (a = t).
    { apply (NoDup_map_inj t_id (a :: r)); simpl; auto. }
    subst a. split.
    + intros x Hx Heq. apply Hnotin. rewrite <- Heq. apply in_map. exact Hx.
    + intros x [Hx|Hx] Hne; [congruence|exact Hx].
  - destruct Hin as [Hin|Hin]; [congruence|].
    destruct (IH Hnd' Hin) as (H1 & H2). split.
    + intros x [Hx|Hx]; [|auto]. subst x. intros Heq. apply Hnotin.
      rewrite Heq. apply in_map. exact Hin.
    + intros x [Hx|Hx] Hne; [left; exact Hx|right; auto].
Qed.

(** X1: deleting is final.  The owner's [deleteTask] answers 200 with the
    confirmation message and removes that task and no other; the same
    request again, and a [getTaskById] for the identifier, answer 404. *)
Theorem delete_then_not_found :
  forall (L : Libs) (E : Env) (req : Req) (s : Store) (owner : User) (t : Task),
    NoDup (map t_id (tasks s)) ->
    In t (tasks s) ->
    t_userId t = u_id owner ->
    user req = Some owner ->
    field_get "id" (params req) = Some (t_id t) ->
    exists s',
      deleteTask L E req s
      = (Respond
           (mkResponse STATUS_CODES.OK
              (JObj [("success", JBool true);
                     ("message", JStr "Task deleted successfully")])), s')
      /\ users s' = users s
      /\ ~ In t (tasks s')
      /\ (forall x, In x (tasks s') <-> In x (tasks s) /\ x <> t)
      /\ deleteTask L E req s' = (Respond task_not_found, s')
      /\ getTaskById L E req s' = (Respond task_not_found, s').
Proof.
  intros L E req s owner t Hnd Hin Hown Hu Hid.
  pose proof (find_own_task _ _ Hnd Hin) as Hfind. rewrite Hown in Hfind.
  assert (Hp : owned_by (t_id t) (u_id owner) t = true)
    by (unfold owned_by; rewrite <- Hown, !String.eqb_refl; reflexivity).
  assert (Hpid : forall x, owned_by (t_id t) (u_id owner) x = true -> t_id x = t_id t).
  { intros x Hx. unfold owned_by in Hx. apply andb_prop in Hx.
    apply String.eqb_eq. tauto. }
  destruct (remove_first_unique _ _ _ Hnd Hin Hp Hpid) as (Hgone & Hkept).
  set (rest := remove_first (owned_by (t_id t) (u_id owner)) (tasks s)) in *.
  exists (set_tasks rest s).
  assert (Hnone : find (owned_by (t_id t) (u_id owner)) rest = None).
  { apply missing_find_none. exact Hgone. }
  split.
  { unfold deleteTask, Task_findOneAndDelete. rewrite Hu, Hid, Hfind. reflexivity. }
  split; [reflexivity|]. split.
  { intros Hin'. exact (Hgone t Hin' eq_refl). }
  split.
  { intros x. split.
    - intros Hx. split; [exact (remove_first_subset _ _ _ Hx)|].
      intros ->. exact (Hgone t Hx eq_refl).
    - intros (Hx & Hne). exact (Hkept x Hx Hne). }
  destruct (single_task_handlers_not_found L E req (set_tasks rest s) owner (t_id t)
              Hu Hid Hnone) as (Hg & _ & Hd).
  auto.
Qed.

Lemma delete_then_not_found_witness :
  exists s',
    fst (deleteTask (Demo.libs true) Demo.env Demo.alice_deletes Demo.db)
    = Respond
        (mkResponse STATUS_CODES.OK
           (JObj [("success", JBool true);
                  ("message", JStr "Task deleted successfully")]))
    /\ snd (deleteTask (Demo.libs true) Demo.env Demo.alice_deletes Demo.db) = s'
    /\ deleteTask (Demo.libs true) Demo.env Demo.alice_deletes s'
       = (Respond task_not_found, s').
Proof.
  destruct (delete_then_not_found (Demo.libs true) Demo.env Demo.alice_deletes Demo.db
              Demo.alice Demo.task1) as (s' & H1 & _ & _ & _ & H2 & _).
  - simpl. repeat constructor; simpl; intuition discriminate.
  - simpl. auto.
  - reflexivity.
  - reflexivity.
  - reflexivity.
  - exists s'. rewrite H1. auto.
Defined.

Lemma find_app_last (p : Task -> bool) (ts : list Task) (t : Task) :
  (forall x, In x ts -> p x = false) -> p t = true ->
  find p (ts ++ [t]) = Some t.
Proof.
  intros Hnone Hp. induction ts as [|a r IH]; simpl.
  - rewrite Hp. reflexivity.
  - rewrite (Hnone a (or_introl eq_refl)). apply IH.
    intros x Hx. apply Hnone. right. exact Hx.
Qed.

Lemma existsb_false_forall {A} (f : A -> bool) (l : list A) :
  existsb f l = false -> forall x, In x l -> f x = false.
Proof.
  intros H x Hx. destruct (f x) eqn:Hf; [|reflexivity].
  assert (existsb f l = true) by (apply existsb_exists; eauto). congruence.
Qed.

(** X2: what is created is what is read back.  When [createTask] answers,
    the task it stored and returned has the fresh identifier, the caller as
    owner whatever the body holds, the trimmed title and description, the
    status of the body or "todo", and the time of the request as both
    timestamps; the tasks that were there are untouched, and a
    [getTaskById] of the caller for the new identifier returns that very
    task. *)
Theorem create_then_get :
  forall (L : Libs) (E : Env) (req : Req) (s s' : Store) (owner : User) (r : Response),
    user req = Some owner ->
    createTask L E req s = (Respond r, s') ->
    exists task : Task,
      r = mkResponse STATUS_CODES.CREATED (task_toJSON task)
      /\ s' = mkStore (users s) (tasks s ++ [task])
      /\ t_id task = fresh_id E
      /\ t_userId task = u_id owner
      /\ t_title task = Str.trim (to_str (field_get "title" (body req)))
      /\ t_description task = Str.trim (to_str (field_get "description" (body req)))
      /\ t_status task
         = (if truthy (field_get "status" (body req))
            then to_str (field_get "status" (body req)) else "todo")
      /\ t_createdAt task = now E /\ t_updatedAt task = now E
      /\ validate_task task = []
      /\ (forall (L' : Libs) (E' : Env) (req' : Req),
            user req' = Some owner ->
            field_get "id" (params req') = Some (fresh_id E) ->
            getTaskById L' E' req' s'
            = (Respond (mkResponse STATUS_CODES.OK (task_toJSON task)), s')).
Proof.
  intros L E req s s' owner r Hu Hc. unfold createTask in Hc. rewrite Hu in Hc.
  unfold Task_create in Hc.
  set (task := mkTask (fresh_id E) _ _ _ (u_id owner) (now E) (now E)) in Hc.
  destruct (validate_task task) eqn:Hvalid; [|discriminate].
  destruct (existsb (fun t => String.eqb (t_id t) (t_id task)) (tasks s)) eqn:Hfresh;
    [discriminate|].
  inversion Hc; subst r s'. clear Hc.
  exists task. split; [reflexivity|]. split; [reflexivity|].
  split; [reflexivity|]. split; [reflexivity|].
  split.
  { unfold task. simpl. destruct (field_get "title" (body req)); reflexivity. }
  split.
  { unfold task. simpl. destruct (field_get "description" (body req)) as [[|c d]|];
      reflexivity. }
  split.
  { unfold task. simpl. destruct (field_get "status" (body req)) as [[|c d]|];
      reflexivity. }
  split; [reflexivity|]. split; [reflexivity|]. split; [exact Hvalid|].
  intros L' E' req' Hu' Hid'.
  unfold getTaskById, find_owned, Task_findOne. rewrite Hu', Hid'.
  cbn [set_tasks tasks].
  rewrite (find_app_last _ _ task); [reflexivity| |].
  - intros x Hx. pose proof (existsb_false_forall _ _ Hfresh x Hx) as Hne.
    simpl in Hne. unfold owned_by. rewrite Hne. reflexivity.
  - unfold owned_by. simpl. rewrite !String.eqb_refl. reflexivity.
Qed.

Lemma create_then_get_witness :
  exists task : Task,
    snd (createTask (Demo.libs true) Demo.env Demo.alice_creates Demo.db)
    = mkStore (users Demo.db) (tasks Demo.db ++ [task])
    /\ t_title task = "Call Bob"
    /\ t_status task = "todo"
    /\ t_userId task = "a1".
Proof.
  destruct (create_then_get (Demo.libs true) Demo.env Demo.alice_creates Demo.db
              (snd (createTask (Demo.libs true) Demo.env Demo.alice_creates Demo.db))
              Demo.alice
              (mkResponse STATUS_CODES.CREATED
                 (task_toJSON (mkTask "f9" "Call Bob" "" "todo" "a1" 1000000 1000000)))
              eq_refl eq_refl)
    as (task & _ & Hs & _ & Ho & Ht & _ & Hst & _).
  exists task. split; [exact Hs|]. split; [exact Ht|]. split; [exact Hst|exact Ho].
Defined.

Lemma insert_newest_in (t x : Task) (l : list Task) :
  In x (insert_newest t l) <-> x = t \/ In x l.
Proof.
  induction l as [|a r IH]; simpl; [intuition|].
  destruct (t_createdAt a <=? t_createdAt t); simpl; [intuition|].
  rewrite IH. intuition.
Qed.

Lemma sort_newest_first_in (x : Task) (l : list Task) :
  In x (sort_newest_first l) <-> In x l.
Proof.
  induction l as [|a r IH]; simpl; [tauto|].
  rewrite insert_newest_in, IH. intuition.
Qed.

Lemma insert_newest_sorted (t : Task) (l : list Task) :
  newest_first l -> newest_first (insert_newest t l).
Proof.
  induction l as [|a r IH]; simpl; [intuition|].
  intros (Ha & Hr). destruct (t_createdAt a <=? t_createdAt t) eqn:Hle; simpl.
  - apply Z.leb_le in Hle. repeat split; auto.
    intros x [Hx|Hx]; [subst; exact Hle|]. specialize (Ha x Hx). lia.
  - apply Z.leb_gt in Hle. split; [|auto].
    intros x Hx. apply insert_newest_in in Hx. destruct Hx as [Hx|Hx]; [subst; lia|auto].
Qed.

Lemma sort_newest_first_sorted (l : list Task) : newest_first (sort_newest_first l).
Proof.
  induction l as [|a r IH]; simpl; [exact I|]. apply insert_newest_sorted. exact IH.
Qed.

(** X3: the plain listing.  Without both [page] and [limit], [getTasks]
    answers 200 with a bare array of exactly the tasks of the caller that
    pass the status and search filters: nobody else's task is in it, they
    come newest first, and there are as many as [countByUser] counts. *)
Theorem listing_is_own_and_newest_first :
  forall (L : Libs) (E : Env) (req : Req) (s : Store) (owner : User),
    user req = Some owner ->
    (truthy (field_get "page" (query req))
     && truthy (field_get "limit" (query req)))%bool = false ->
    exists found : list Task,
      getTasks L E req s
      = (Respond (mkResponse STATUS_CODES.OK (JArr (map task_toJSON found))), s)
      /\ (forall t, In t found
                    <-> In t (tasks s)
                        /\ match_task L (build_query (u_id owner) (query_filters req)) t
                           = true)
      /\ (forall t, In t found -> t_userId t = u_id owner)
      /\ (forall t status,
            In t found ->
            field_get "status" (query req) = Some status -> Str.truthy status = true ->
            t_status t = status)
      /\ newest_first found
      /\ Z.of_nat (List.length found)
         = countByUser L (u_id owner) (query_filters req) (tasks s).
Proof.
  intros L E req s owner Hu Hpaging.
  exists (matching_tasks L (u_id owner) req s).
  assert (Hin : forall t, In t (matching_tasks L (u_id owner) req s)
                          <-> In t (tasks s)
                              /\ match_task L (build_query (u_id owner) (query_filters req)) t
                                 = true).
  { intros t. unfold matching_tasks. rewrite sort_newest_first_in. apply filter_In. }
  split.
  { unfold getTasks. rewrite Hu, Hpaging. reflexivity. }
  split; [exact Hin|]. split.
  { intros t Ht. apply Hin in Ht. destruct Ht as (_ & Hm).
    unfold match_task in Hm. apply andb_prop in Hm. destruct Hm as (Hm & _).
    apply andb_prop in Hm. destruct Hm as (Hm & _).
    apply String.eqb_eq in Hm. rewrite Hm. unfold build_query.
    destruct (truthy (f_status _)), (truthy (f_search _)); reflexivity. }
  split.
  { intros t status Ht Hst Htruthy. apply Hin in Ht. destruct Ht as (_ & Hm).
    unfold match_task in Hm. apply andb_prop in Hm. destruct Hm as (Hm & _).
    apply andb_prop in Hm. destruct Hm as (_ & Hm).
    assert (Hq : q_status (build_query (u_id owner) (query_filters req)) = Some status).
    { unfold build_query, query_filters. rewrite Hst. simpl. rewrite Htruthy. simpl.
      rewrite Htruthy.
      match goal with
      | |- q_status (if ?b then _ else _) = _ => destruct b; reflexivity
      end. }
    rewrite Hq in Hm. apply String.eqb_eq. exact Hm. }
  split; [apply sort_newest_first_sorted|].
  unfold matching_tasks, countByUser. rewrite sort_newest_first_length. reflexivity.
Qed.

Lemma listing_is_own_and_newest_first_witness :
  exists found : list Task,
    getTasks (Demo.libs true) Demo.env Demo.alice_lists Demo.db
    = (Respond (mkResponse STATUS_CODES.OK (JArr (map task_toJSON found))), Demo.db)
    /\ (forall t, In t found -> t_userId t = "a1").
Proof.
  destruct (listing_is_own_and_newest_first (Demo.libs true) Demo.env Demo.alice_lists
              Demo.db Demo.alice eq_refl eq_refl) as (found & H1 & _ & H3 & _).
  exists found. split; [exact H1|exact H3].
Defined.





(** ** Tokens and the optional gate *)

(** X5: [optionalAuth] never answers and never writes: it always hands the
    request on, changing at most the attached user.  Where [protect] lets a
    request through, [optionalAuth] hands on the same request; where
    [protect] refuses one, [optionalAuth] attaches nobody. *)
Theorem optionalAuth_never_rejects :
  forall (L : Libs) (E : Env) (req : Req) (s : Store),
    exists req',
      optionalAuth L E req s = (Next req', s)
      /\ req' = set_user (user req') req
      /\ (forall r s', protect L E req s = (Next r, s') -> req' = r)
      /\ ((exists message, protect L E req s = (Respond (unauthorized message), s)) ->
          req' = req \/ user req' = None).
Proof.
  intros L E req s. unfold optionalAuth, protect.
  destruct (has_bearer req).
  - destruct (jwt_verify L E (bearer_token req)) as [e|p].
    + exists req. split; [reflexivity|]. split; [destruct req; reflexivity|].
      split; [discriminate|auto].
    + exists (set_user (User_findById (jwt_id p) (users s)) req).
      split; [reflexivity|]. split; [reflexivity|].
      destruct (User_findById (jwt_id p) (users s)) as [u|]; split.
      * intros r s' H. inversion H. reflexivity.
      * intros (m & H). discriminate H.
      * discriminate.
      * intros _. right. reflexivity.
  - exists req. split; [reflexivity|]. split; [destruct req; reflexivity|].
    split; [discriminate|auto].
Qed.

Lemma optionalAuth_never_rejects_witness :
  optionalAuth (Demo.libs true) Demo.later Demo.alice_expired Demo.db
  = (Next Demo.alice_expired, Demo.db)
  /\ optionalAuth (Demo.libs true) Demo.env Demo.bob_profile Demo.db
     = (Next (set_user (Some (without_password Demo.bob)) Demo.bob_profile), Demo.db).
Proof.
  destruct (optionalAuth_never_rejects (Demo.libs true) Demo.later Demo.alice_expired
              Demo.db) as (r1 & H1 & _ & _ & Hrej).
  destruct (optionalAuth_never_rejects (Demo.libs true) Demo.env Demo.bob_profile
              Demo.db) as (r2 & H2 & _ & Hsame & _).
  split.
  - rewrite H1. f_equal. f_equal.
    destruct (Hrej (ex_intro _ "Token has expired" eq_refl)) as [H|H].
    + exact H.
    + vm_compute in H1. inversion H1. reflexivity.
  - rewrite H2. f_equal. f_equal. apply Hsame with (s' := Demo.db). reflexivity.
Defined.



(** ** Users: registration, login, profile *)

Lemma trimEnd_idem (s : string) : Str.trimEnd (Str.trimEnd s) = Str.trimEnd s.
Proof.
  induction s as [|c r IH]; simpl; [reflexivity|].
  destruct (Str.trimEnd r) as [|c' r'] eqn:Hr.
  - destruct (Str.is_space c) eqn:Hc; simpl; [reflexivity|]. rewrite Hc. reflexivity.
  - simpl in IH |- *. rewrite IH. reflexivity.
Qed.

Lemma trimEnd_head (c : ascii) (r : string) :
  Str.is_space c = false -> exists r', Str.trimEnd (String c r) = String c r'.
Proof.
  intros Hc. simpl. destruct (Str.trimEnd r); [rewrite Hc|]; eauto.
Qed.

Lemma trim_idem (s : string) : Str.trim (Str.trim s) = Str.trim s.
Proof.
  unfold Str.trim.
  assert (H : forall t, Str.trimStart (Str.trimEnd (Str.trimStart t))
                        = Str.trimEnd (Str.trimStart t)).
  { induction t as [|c r IH]; simpl; [reflexivity|].
    destruct (Str.is_space c) eqn:Hc; [exact IH|].
    destruct (trimEnd_head c r Hc) as (r' & Hr). rewrite Hr. simpl.
    rewrite Hc. reflexivity. }
  rewrite H. apply trimEnd_idem.
Qed.

Lemma set_string_idem (s : string) : set_string (set_string s) = set_string s.
Proof.
  unfold set_string. rewrite trim_toLowerCase, toLowerCase_idem, trim_idem.
  reflexivity.
Qed.

Lemma validate_user_parts (isNew : bool) (doc : User) :
  validate_user isNew doc = [] ->
  validate_username (u_username doc) = []
  /\ validate_email (u_email doc) = []
  /\ (isNew = true -> u_password doc <> None).
Proof.
  unfold validate_user. intros H.
  apply app_eq_nil in H. destruct H as (H1 & H).
  apply app_eq_nil in H. destruct H as (H2 & H3).
  repeat split; auto. intros -> Hp. rewrite Hp in H3. discriminate.
Qed.

Lemma unique_violation_none (doc : User) (us : list User) :
  unique_violation doc us = None ->
  forall u, In u us -> u_id u <> u_id doc ->
            u_username u <> u_username doc /\ u_email u <> u_email doc.
Proof.
  intros Hnone u Hin Hid.
  split; intros Heq;
    (destruct (unique_violation_some doc u us Hin Hid) as (f & v & H);
     [auto|congruence]).
Qed.

Lemma NoDup_map_snoc {A B} (f : A -> B) (l : list A) (x : A) :
  NoDup (map f l) -> (forall y, In y l -> f y <> f x) -> NoDup (map f (l ++ [x])).
Proof.
  intros Hnd Hx. rewrite map_app. simpl.
  apply NoDup_app; [exact Hnd|repeat constructor; simpl; tauto|].
  intros b Hb [Hb'|[]]. subst b. apply in_map_iff in Hb.
  destruct Hb as (y & Hy & Hin). exact (Hx y Hin Hy).
Qed.

(** What [User.create] leaves behind when it succeeds. *)
Lemma User_create_inr (L : Libs) (E : Env) (email username password : option string)
    (us us' : list User) (new : User) :
  User_create L E email username password us = inr (new, us') ->
  us' = (us ++ [new])%list
  /\ u_id new = fresh_id E
  /\ u_username new = set_opt username
  /\ u_email new = set_opt email
  /\ (exists p, password = Some p /\ u_password new = Some (bcrypt_hash L p (salt E)))
  /\ u_createdAt new = now E /\ u_updatedAt new = now E
  /\ validate_username (u_username new) = []
  /\ validate_email (u_email new) = []
  /\ (forall u, In u us ->
                u_id u <> u_id new /\ u_username u <> u_username new
                /\ u_email u <> u_email new).
Proof.
  unfold User_create.
  set (doc := mkUser (fresh_id E) _ _ password (now E) (now E)).
  destruct (validate_user true doc) eqn:Hvalid; [|discriminate].
  destruct (validate_user_parts _ _ Hvalid) as (Hvn & Hve & Hvp).
  destruct (existsb _ us) eqn:Hid; [discriminate|].
  destruct (unique_violation _ us) as [(f, v)|] eqn:Huniq; [discriminate|].
  intros H. inversion H; subst new us'. clear H.
  assert (Hids : forall u, In u us -> u_id u <> fresh_id E).
  { intros u Hu. exact (existsb_user_id_false _ _ _ Hid Hu). }
  destruct password as [p|]; [|exfalso; apply (Hvp eq_refl); reflexivity].
  repeat split; try reflexivity; try assumption.
  - exists p. split; reflexivity.
  - apply Hids. assumption.
  - apply (unique_violation_none _ _ Huniq u); auto.
  - apply (unique_violation_none _ _ Huniq u); auto.
Qed.

(** A [signup] that answers 201 went through [User.create]. *)
Lemma signup_created (L : Libs) (E : Env) (req : Req) (s s' : Store) (r : Response) :
  signup L E req s = (Respond r, s') ->
  res_status r = STATUS_CODES.CREATED ->
  exists (new : User) (username : string),
    field_get "username" (body req) = Some username
    /\ User_create L E (field_get "email" (body req)) (Some (Str.toLowerCase username))
         (field_get "password" (body req)) (users s)
       = inr (new, users s')
    /\ tasks s' = tasks s
    /\ r = mkResponse STATUS_CODES.CREATED
             (JObj [("success", JBool true);
                    ("token", JStr (generateToken L E (u_id new)));
                    ("user", JObj (toPublicJSON new))]).
Proof.
  intros Hs Hst. unfold signup in Hs.
  destruct (field_get "username" (body req)) as [username|]; [|discriminate].
  destruct (User_findOne L _ false (users s));
    [inversion Hs; subst; discriminate Hst|].
  destruct (User_create L E _ _ _ (users s)) as [e|(new, us')] eqn:Hc; [discriminate|].
  inversion Hs; subst r s'. exists new, username. repeat split; try reflexivity. exact Hc.
Qed.

(** X7: what a registration stores.  When [signup] answers 201, the store
    has one more user, after the others, who are untouched: it has the fresh
    identifier, the user name lowercased and trimmed, the email lowercased
    and trimmed, and as password not the one of the body but its bcrypt
    hash; no user had that identifier, user name or email before; the
    response carries a token for the identifier and the public projection
    of the new user. *)
Theorem signup_registers :
  forall (L : Libs) (E : Env) (req : Req) (s s' : Store) (r : Response),
    signup L E req s = (Respond r, s') ->
    res_status r = STATUS_CODES.CREATED ->
    exists (new : User) (username password : string),
      field_get "username" (body req) = Some username
      /\ field_get "password" (body req) = Some password
      /\ s' = mkStore (users s ++ [new]) (tasks s)
      /\ u_id new = fresh_id E
      /\ u_username new = set_string (Str.toLowerCase username)
      /\ u_email new = set_string (to_str (field_get "email" (body req)))
      /\ u_password new = Some (bcrypt_hash L password (salt E))
      /\ u_createdAt new = now E /\ u_updatedAt new = now E
      /\ validate_username (u_username new) = []
      /\ validate_email (u_email new) = []
      /\ (forall u, In u (users s) ->
                    u_id u <> u_id new /\ u_username u <> u_username new
                    /\ u_email u <> u_email new)
      /\ r = mkResponse STATUS_CODES.CREATED
               (JObj [("success", JBool true);
                      ("token", JStr (generateToken L E (u_id new)));
                      ("user", JObj (toPublicJSON new))]).
Proof.
  intros L E req s s' r Hs Hst.
  destruct (signup_created L E req s s' r Hs Hst) as (new & username & Hun & Hc & Ht & Hr).
  destruct (User_create_inr _ _ _ _ _ _ _ _ Hc)
    as (Hus & Hid & Hn & He & (p & Hp & Hh) & Hca & Hua & Hvn & Hve & Hfresh).
  exists new, username, p. destruct s' as [us' ts']. cbn [users tasks] in *. subst us' ts'.
  repeat split; try assumption; try (apply Hfresh; assumption).
  destruct (field_get "email" (body req)); exact He.
Qed.

Lemma signup_registers_witness :
  exists new : User,
    snd (signup (Demo.libs true) Demo.env Demo.carol_signup Demo.db)
    = mkStore (users Demo.db ++ [new]) (tasks Demo.db)
    /\ u_username new = "carol"
    /\ u_email new = "carol@example.com"
    /\ u_password new = Some (Demo.hash "Tr1cky!pw" "salt").
Proof.
  destruct (signup_registers (Demo.libs true) Demo.env Demo.carol_signup Demo.db
              (snd (signup (Demo.libs true) Demo.env Demo.carol_signup Demo.db))
              (mkResponse STATUS_CODES.CREATED
                 (JObj [("success", JBool true);
                        ("token", JStr "f9.secret");
                        ("user",
                         JObj (toPublicJSON
                                 (mkUser "f9" "carol" "carol@example.com" None
                                    1000000 1000000)))]))
              eq_refl eq_refl)
    as (new & un & pw & Hun & Hpw & Hs & _ & Hn & He & Hp & _).
  exists new. inversion Hun; inversion Hpw; subst un pw.
  split; [exact Hs|]. split; [exact Hn|]. split; [exact He|exact Hp].
Defined.

Lemma at_then_domain_has_at (s : string) :
  at_then_domain s = true -> Str.mem_char "@" s = true.
Proof.
  induction s as [|c r IH]; simpl; [discriminate|].
  intros H. apply orb_prop in H. destruct H as [H|H].
  - apply andb_prop in H. destruct H as (H & _). apply Ascii.eqb_eq in H. subst c.
    reflexivity.
  - rewrite (IH H). apply orb_true_r.
Qed.

Lemma valid_email_has_at (v : string) :
  validate_email v = [] -> Str.mem_char "@" v = true.
Proof.
  intros H.
  pose proof (first_failure_nil _ H (email_pattern v, _)
                (or_intror (or_introl eq_refl))) as Hp.
  simpl in Hp. unfold email_pattern in Hp. apply andb_prop in Hp.
  destruct Hp as (_ & Hp). destruct v as [|c r]; [discriminate|].
  simpl. rewrite (at_then_domain_has_at _ Hp). apply orb_true_r.
Qed.

Lemma username_chars_no_at (s : string) :
  Str.all_chars username_char s = true -> Str.mem_char "@" s = false.
Proof.
  induction s as [|c r IH]; simpl; [reflexivity|].
  intros H. apply andb_prop in H. destruct H as (Hc & Hr). rewrite (IH Hr).
  destruct c as [[] [] [] [] [] [] [] []]; solve [reflexivity | discriminate Hc].
Qed.

Lemma valid_username_no_at (v : string) :
  validate_username v = [] -> Str.mem_char "@" v = false.
Proof.
  intros H.
  pose proof (first_failure_nil _ H (username_pattern v, _)
                (or_intror (or_intror (or_intror (or_introl eq_refl))))) as Hp.
  simpl in Hp. unfold username_pattern in Hp. apply andb_prop in Hp.
  apply username_chars_no_at. tauto.
Qed.

Lemma find_user_app_last (p : User -> bool) (us : list User) (u : User) :
  (forall x, In x us -> p x = false) -> p u = true ->
  find p (us ++ [u]) = Some u.
Proof.
  intros Hnone Hp. induction us as [|a r IH]; simpl.
  - rewrite Hp. reflexivity.
  - rewrite (Hnone a (or_introl eq_refl)). apply IH.
    intros x Hx. apply Hnone. right. exact Hx.
Qed.

(** X8: who registered can log in.  After a [signup] that answered 201,
    on a store of valid users and with a bcrypt that recognises what it
    hashed, a [login] with the user name of the registration (as the
    validation gate leaves it, trimmed; in any case) and its password
    answers 200 with a token for the new user and its public projection. *)
Theorem login_after_signup :
  forall (L : Libs) (E E' : Env) (req req' : Req) (s s' : Store) (r : Response)
         (username password identifier : string),
    (forall u, In u (users s) -> validate_email (u_email u) = []) ->
    signup L E req s = (Respond r, s') ->
    res_status r = STATUS_CODES.CREATED ->
    field_get "username" (body req) = Some username ->
    field_get "password" (body req) = Some password ->
    Str.trim username = username ->
    bcrypt_compare L password (bcrypt_hash L password (salt E)) = true ->
    Str.toLowerCase identifier = Str.toLowerCase username ->
    field_get "emailOrUsername" (body req') = Some identifier ->
    field_get "password" (body req') = Some password ->
    exists new : User,
      In new (users s')
      /\ u_id new = fresh_id E
      /\ login L E' req' s'
         = (Respond
              (mkResponse STATUS_CODES.OK
                 (JObj [("success", JBool true);
                        ("token", JStr (generateToken L E' (u_id new)));
                        ("user", JObj (toPublicJSON new))])), s').
Proof.
  intros L E E' req req' s s' r username password identifier
    Hemails Hs Hst Hun Hpw Htrim Hbcrypt Hcase Hid Hpw'.
  destruct (signup_created L E req s s' r Hs Hst) as (new & un & Hun' & Hc & Ht & _).
  rewrite Hun in Hun'. inversion Hun'; subst un. rewrite Hpw in Hc.
  destruct (User_create_inr _ _ _ _ _ _ _ _ Hc)
    as (Hs' & Hnid & Hname & _ & (pw & Hpw2 & Hhash) & _ & _ & Hvn & _ & Hfresh).
  inversion Hpw2; subst pw. cbn [set_opt] in Hname.
  destruct s' as [us' ts']. cbn [users tasks] in *. subst us' ts'.
  assert (Hkey : set_string (Str.toLowerCase username) = Str.toLowerCase username).
  { unfold set_string. rewrite trim_toLowerCase, Htrim. apply toLowerCase_idem. }
  rewrite Hkey in Hname.
  assert (Hcast : cast_string L (Str.toLowerCase identifier) = u_username new).
  { rewrite Hcase, Hname. unfold cast_string.
    destruct (setters_on_query L); [exact Hkey|reflexivity]. }
  exists new. split; [apply in_or_app; right; left; reflexivity|].
  split; [exact Hnid|].
  unfold login. rewrite Hid, Hpw'. unfold User_findOne. cbn [users].
  rewrite (find_user_app_last _ _ new).
  - unfold comparePassword. rewrite Hhash, Hbcrypt. reflexivity.
  - intros x Hx. destruct (Hfresh x Hx) as (_ & Hxn & _).
    unfold match_query, login_query. cbn [existsb forallb match_cond].
    rewrite Hcast.
    replace (String.eqb (u_username x) (u_username new)) with false
      by (symmetry; apply String.eqb_neq; exact Hxn).
    replace (String.eqb (u_email x) (u_username new)) with false; [reflexivity|].
    symmetry. apply String.eqb_neq. intros Heq.
    pose proof (valid_email_has_at _ (Hemails x Hx)) as H1.
    pose proof (valid_username_no_at _ Hvn) as H2. congruence.
  - unfold match_query, login_query. cbn [existsb forallb match_cond].
    rewrite Hcast, String.eqb_refl. cbn. apply orb_true_r.
Qed.

Lemma login_after_signup_witness :
  exists new : User,
    In new (users (snd (signup (Demo.libs true) Demo.env Demo.carol_signup Demo.db)))
    /\ fst (login (Demo.libs true) Demo.later Demo.carol_login
              (snd (signup (Demo.libs true) Demo.env Demo.carol_signup Demo.db)))
       = Respond
           (mkResponse STATUS_CODES.OK
              (JObj [("success", JBool true);
                     ("token", JStr (generateToken (Demo.libs true) Demo.later (u_id new)));
                     ("user", JObj (toPublicJSON new))])).
Proof.
  destruct (login_after_signup (Demo.libs true) Demo.env Demo.later Demo.carol_signup
              Demo.carol_login Demo.db
              (snd (signup (Demo.libs true) Demo.env Demo.carol_signup Demo.db))
              (mkResponse STATUS_CODES.CREATED
                 (JObj [("success", JBool true);
                        ("token", JStr "f9.secret");
                        ("user",
                         JObj (toPublicJSON
                                 (mkUser "f9" "carol" "carol@example.com" None
                                    1000000 1000000)))]))
              "Carol" "Tr1cky!pw" "CAROL"
              ltac:(intros u [Hu|[Hu|[]]]; subst u; reflexivity)
              eq_refl eq_refl eq_refl eq_refl eq_refl eq_refl eq_refl eq_refl eq_refl)
    as (new & Hin & _ & Hlogin).
  exists new. split; [exact Hin|]. rewrite Hlogin. reflexivity.
Defined.

Lemma find_replace_user (doc : User) (us : list User) (id : ObjectId) :
  find (fun u => String.eqb (u_id u) id) (replace_user doc us)
  = if String.eqb id (u_id doc)
    then option_map (write_user doc) (find (fun u => String.eqb (u_id u) id) us)
    else find (fun u => String.eqb (u_id u) id) us.
Proof.
  induction us as [|a r IH]; simpl.
  - destruct (String.eqb id (u_id doc)); reflexivity.
  - destruct (String.eqb (u_id a) (u_id doc)) eqn:Ha; simpl.
    + apply String.eqb_eq in Ha. rewrite Ha, (String.eqb_sym (u_id doc) id).
      destruct (String.eqb id (u_id doc)); reflexivity.
    + destruct (String.eqb (u_id a) id) eqn:Hai.
      * apply String.eqb_eq in Hai. subst id. rewrite Ha. reflexivity.
      * exact IH.
Qed.

Lemma replace_user_ids (doc : User) (us : list User) :
  map u_id (replace_user doc us) = map u_id us.
Proof.
  induction us as [|a r IH]; simpl; [reflexivity|].
  destruct (String.eqb (u_id a) (u_id doc)); simpl; [reflexivity|].
  rewrite IH. reflexivity.
Qed.

(** X9: what a profile update writes.  When [updateProfile] answers 200,
    the tasks and every other user are as before, and the caller keeps
    identifier and creation date; the user name and the email are the sent
    ones, lowercased and trimmed, or the old ones where none was sent; the
    stored password is the bcrypt hash of the sent one, and stays the very
    hash it was, not hashed again, where none was sent.  The response is the
    public projection of the stored user. *)
Theorem profile_update_writes_what_was_sent :
  forall (L : Libs) (E : Env) (req : Req) (s s' : Store) (r : Response) (caller : User),
    user req = Some caller ->
    updateProfile L E req s = (Respond r, s') ->
    res_status r = STATUS_CODES.OK ->
    exists old new : User,
      stored_user (u_id caller) s = Some old
      /\ stored_user (u_id caller) s' = Some new
      /\ tasks s' = tasks s
      /\ map u_id (users s') = map u_id (users s)
      /\ (forall id, id <> u_id caller -> stored_user id s' = stored_user id s)
      /\ u_id new = u_id old
      /\ u_createdAt new = u_createdAt old
      /\ u_username new
         = match supplied "username" req with
           | Some v => set_string (Str.toLowerCase v)
           | None => u_username old
           end
      /\ u_email new
         = match supplied "email" req with
           | Some v => set_string (Str.toLowerCase v)
           | None => u_email old
           end
      /\ u_password new
         = match supplied "password" req with
           | Some v => Some (bcrypt_hash L v (salt E))
           | None => u_password old
           end
      /\ (u_updatedAt new = u_updatedAt old \/ u_updatedAt new = now E)
      /\ r = sendSuccess STATUS_CODES.OK (toPublicJSON new) "".
Proof.
  intros L E req s s' r caller Hu Hup Hst. unfold updateProfile in Hup.
  rewrite Hu in Hup. unfold User_findById in Hup.
  destruct (find (fun u => String.eqb (u_id u) (u_id caller)) (users s))
    as [old|] eqn:Hold; [|inversion Hup; subst; discriminate Hst].
  cbn [option_map] in Hup.
  match type of Hup with
  | match ?e with Some _ => _ | None => _ end = _ =>
      destruct e; [inversion Hup; subst; discriminate Hst|]
  end.
  unfold User_save in Hup.
  match type of Hup with
  | context [validate_user false ?d] => set (doc := d) in Hup
  end.
  destruct (validate_user false doc); [|discriminate].
  match type of Hup with
  | context [unique_violation ?d] => set (saved := d) in Hup
  end.
  destruct (negb (existsb _ (users s))); [discriminate|].
  destruct (unique_violation saved (users s)) as [(f, v)|]; [discriminate|].
  inversion Hup; subst r s'. clear Hup Hst.
  assert (Hdoc :
            u_id doc = u_id old /\ u_createdAt doc = u_createdAt old
            /\ u_updatedAt doc = u_updatedAt old
            /\ u_username doc
               = match supplied "username" req with
                 | Some v => set_string (Str.toLowerCase v)
                 | None => u_username old
                 end
            /\ u_email doc
               = match supplied "email" req with
                 | Some v => set_string (Str.toLowerCase v)
                 | None => u_email old
                 end
            /\ u_password doc = supplied "password" req).
  { unfold doc, supplied.
    destruct (field_get "username" (body req)) as [a|]; [destruct (Str.truthy a)|];
      (destruct (field_get "email" (body req)) as [b|]; [destruct (Str.truthy b)|]);
      (destruct (field_get "password" (body req)) as [c|]; [destruct (Str.truthy c)|]);
      repeat split; reflexivity. }
  destruct Hdoc as (Hid & Hc & Hupd & Hn & He & Hp).
  assert (Hsaved :
            u_id saved = u_id old /\ u_createdAt saved = u_createdAt old
            /\ u_username saved = u_username doc /\ u_email saved = u_email doc
            /\ u_password saved
               = option_map (fun p => bcrypt_hash L p (salt E)) (u_password doc)
            /\ (u_updatedAt saved = u_updatedAt old \/ u_updatedAt saved = now E)).
  { unfold saved, pre_save. cbn [without_password u_password].
    rewrite Hp. destruct (supplied "password" req) as [p|]; cbn [opt_eqb negb];
      match goal with
      | |- context [if ?b then _ else _] => destruct b
      end; cbn; rewrite ?Hp; cbn; auto 10. }
  destruct Hsaved as (Hsid & Hsc & Hsn & Hse & Hsp & Hsu).
  assert (Hold_id : u_id old = u_id caller).
  { apply find_some in Hold. apply String.eqb_eq. tauto. }
  exists old, (write_user saved old).
  unfold stored_user, set_users. cbn [users tasks].
  split; [exact Hold|]. split.
  { rewrite find_replace_user, Hold, Hsid, Hold_id, String.eqb_refl. reflexivity. }
  split; [reflexivity|]. split; [apply replace_user_ids|]. split.
  { intros id Hne. rewrite find_replace_user, Hsid, Hold_id.
    replace (String.eqb id (u_id caller)) with false
      by (symmetry; apply String.eqb_neq; exact Hne).
    reflexivity. }
  cbn [write_user u_id u_createdAt u_username u_email u_password u_updatedAt].
  split; [reflexivity|]. split; [exact Hsc|].
  split; [rewrite Hsn; exact Hn|]. split; [rewrite Hse; exact He|]. split.
  { rewrite Hsp, Hp. destruct (supplied "password" req); reflexivity. }
  split; [exact Hsu|].
  unfold toPublicJSON. cbn [write_user u_id u_createdAt u_username u_email u_updatedAt].
  rewrite Hsid. reflexivity.
Qed.

Lemma profile_update_writes_what_was_sent_witness :
  exists new : User,
    stored_user "a1" (snd (updateProfile (Demo.libs true) Demo.env Demo.alice_update Demo.db))
    = Some new
    /\ u_username new = "alice"
    /\ u_email new = "alice@new.example.com"
    /\ u_password new = Some (Demo.hash "N3w!passw" "salt").
Proof.
  destruct (profile_update_writes_what_was_sent (Demo.libs true) Demo.env
              Demo.alice_update Demo.db
              (snd (updateProfile (Demo.libs true) Demo.env Demo.alice_update Demo.db))
              (sendSuccess STATUS_CODES.OK
                 (toPublicJSON
                    (mkUser "a1" "alice" "alice@new.example.com" None 10 1000000)) "")
              (without_password Demo.alice) eq_refl eq_refl eq_refl)
    as (old & new & Hold & Hnew & _ & _ & _ & _ & _ & Hn & He & Hp & _).
  vm_compute in Hold. injection Hold as <-.
  exists new. split; [exact Hnew|]. split; [exact Hn|]. split; [exact He|exact Hp].
Defined.

(** ** The store stays well formed *)

Lemma run_items_user (l : Location) (field : string) (items : list ChainItem)
    (st : Req * option string) :
  user (fst (run_items l field items st)) = user (fst st).
Proof.
  unfold run_items. revert st. induction items as [|item r IH]; intros st; simpl;
    [reflexivity|].
  rewrite IH. destruct st as (req, value). destruct item as [check message|f]; simpl.
  - destruct (check req value); reflexivity.
  - destruct (opt_eqb _ _); [reflexivity|]. destruct l; reflexivity.
Qed.

Lemma run_chains_user (cs : list Chain) (req : Req) :
  user (run_chains cs req) = user req.
Proof.
  unfold run_chains. revert req. induction cs as [|c r IH]; intros req; simpl;
    [reflexivity|].
  rewrite IH. unfold run_chain.
  destruct (read_field _ _ req); [apply run_items_user|].
  destruct (c_optional c); [reflexivity|apply run_items_user].
Qed.

(** The store after a request is the one before, or the one the controller
    leaves on the request as the gates hand it over. *)
Lemma handle_store (L : Libs) (E : Env) (ep : Endpoint) (req : Req) (s : Store) :
  store (handle L E ep req s) = s
  \/ exists req',
       after_authorization L E ep req s = Some req'
       /\ store (handle L E ep req s)
          = snd (controller ep L E (run_chains (rule_set L ep) req') s).
Proof.
  unfold handle, after_authorization. rewrite route_shape.
  assert (Hgo : forall req' ran,
             let res := dispatch (rules (rule_set L ep)
                                  ++ (if has_validate ep then [validate_stage] else [])
                                  ++ [handler (controller ep)])
                          L E req' s ran in
             store res = s
             \/ store res = snd (controller ep L E (run_chains (rule_set L ep) req') s)).
  { intros req' ran. cbv zeta. rewrite dispatch_rules.
    set (req'' := run_chains (rule_set L ep) req').
    assert (Hlast : forall ran',
               store (dispatch [handler (controller ep)] L E req'' s ran')
               = snd (controller ep L E req'' s)).
    { intros ran'. cbn [dispatch run handler gate].
      destruct (controller ep L E req'' s) as ([r|r|e], s'); reflexivity. }
    destruct (has_validate ep); cbn [app]; [|right; apply Hlast].
    cbn [dispatch run validate_stage gate]. unfold validate.
    destruct (validation_errors req''); [right; apply Hlast|left; reflexivity]. }
  destruct (protected ep).
  - cbn [app dispatch run protect_stage gate].
    destruct (protect L E req s) as ([r|req'|e], s') eqn:Hp.
    + left. destruct (protect_outcomes L E req s) as [(m & H)|(u & H & _)];
        rewrite H in Hp; inversion Hp; reflexivity.
    + destruct (protect_keeps_errors _ _ _ _ _ _ Hp) as (_ & ->).
      destruct (Hgo req' ([] ++ [AuthorizationGate])%list) as [H|H]; [left; exact H|].
      right. exists req'. split; [reflexivity|exact H].
    + destruct (protect_outcomes L E req s) as [(m & H)|(u & H & _)];
        rewrite H in Hp; discriminate Hp.
  - cbn [app]. destruct (Hgo req []) as [H|H]; [left; exact H|].
    right. exists req. split; [reflexivity|exact H].
Qed.

Lemma protect_known_user (L : Libs) (E : Env) (req req' : Req) (s s' : Store) :
  protect L E req s = (Next req', s') -> known_user s req'.
Proof.
  unfold protect, known_user.
  destruct (has_bearer req); [|discriminate].
  destruct (jwt_verify L E (bearer_token req)) as [e|p]; [discriminate|].
  unfold User_findById.
  destruct (find _ (users s)) as [u|] eqn:Hu; [|discriminate].
  intros H. inversion H; subst. exists (without_password u). split; [reflexivity|].
  apply find_some in Hu. apply (in_map u_id _ u). tauto.
Qed.

Lemma remove_first_ids (p : Task -> bool) (ts : list Task) :
  NoDup (map t_id ts) -> NoDup (map t_id (remove_first p ts)).
Proof.
  induction ts as [|t r IH]; simpl; [auto|].
  intros H. inversion H as [|? ? Hnot Hr]; subst.
  destruct (p t); [exact Hr|]. simpl. constructor; [|auto].
  intros Hin. apply Hnot. apply in_map_iff in Hin. destruct Hin as (x & Hx & Hin).
  apply in_map_iff. exists x. split; [exact Hx|].
  exact (remove_first_subset _ _ _ Hin).
Qed.

Lemma replace_task_ids (doc : Task) (ts : list Task) :
  map t_id (replace_task doc ts) = map t_id ts.
Proof.
  induction ts as [|a r IH]; simpl; [reflexivity|].
  destruct (String.eqb (t_id a) (t_id doc)) eqn:Ha; simpl; [|rewrite IH; reflexivity].
  apply String.eqb_eq in Ha. rewrite Ha. reflexivity.
Qed.

Lemma replace_task_in (doc x : Task) (ts : list Task) :
  In x (replace_task doc ts) -> x = doc \/ In x ts.
Proof.
  induction ts as [|a r IH]; simpl; [auto|].
  destruct (String.eqb (t_id a) (t_id doc)); simpl; intuition.
Qed.

Lemma replace_user_in (doc x : User) (us : list User) :
  In x (replace_user doc us) ->
  In x us \/ exists old, In old us /\ u_id old = u_id doc /\ x = write_user doc old.
Proof.
  induction us as [|a r IH]; simpl; [auto|].
  destruct (String.eqb (u_id a) (u_id doc)) eqn:Ha; simpl.
  - apply String.eqb_eq in Ha. intros [H|H]; [|auto].
    right. exists a. auto.
  - intros [H|H]; [auto|]. destruct (IH H) as [H'|(old & H1 & H2 & H3)]; [auto|].
    right. exists old. auto.
Qed.

(** Writing [doc] over the document of its identifier keeps a unique index
    on [f] when no other document has the [f] of [doc]. *)
Lemma replace_user_unique (f : User -> string) (doc : User) (us : list User) :
  (forall old, f (write_user doc old) = f doc) ->
  NoDup (map u_id us) -> NoDup (map f us) ->
  (forall u, In u us -> u_id u <> u_id doc -> f u <> f doc) ->
  NoDup (map f (replace_user doc us)).
Proof.
  intros Hf. induction us as [|a r IH]; simpl; [auto|].
  intros Hids Hfs Hother.
  inversion Hids as [|? ? Hida Hidr]; inversion Hfs as [|? ? Hfa Hfr]; subst.
  destruct (String.eqb (u_id a) (u_id doc)) eqn:Ha; simpl.
  - apply String.eqb_eq in Ha. constructor; [|exact Hfr].
    rewrite Hf. intros Hin. apply in_map_iff in Hin. destruct Hin as (x & Hx & Hin).
    apply (Hother x); [right; exact Hin| |exact Hx].
    intros Heq. apply Hida. apply in_map_iff. exists x. split; [congruence|exact Hin].
  - apply String.eqb_neq in Ha. constructor; [|apply IH; auto].
    intros Hin. apply in_map_iff in Hin. destruct Hin as (x & Hx & Hin).
    destruct (replace_user_in _ _ _ Hin) as [Hin'|(old & _ & _ & ->)].
    + apply Hfa. apply in_map_iff. exists x. auto.
    + rewrite Hf in Hx. apply (Hother a); auto.
Qed.

(** What [doc.save()] on a user leaves behind when it succeeds. *)
Lemma User_save_inr (L : Libs) (E : Env) (loaded doc saved : User) (us us' : list User) :
  User_save L E loaded doc us = inr (saved, us') ->
  us' = replace_user saved us
  /\ u_id saved = u_id doc
  /\ u_username saved = u_username doc
  /\ u_email saved = u_email doc
  /\ validate_username (u_username doc) = []
  /\ validate_email (u_email doc) = []
  /\ unique_violation saved us = None.
Proof.
  unfold User_save.
  destruct (validate_user false doc) eqn:Hvalid; [|discriminate].
  destruct (validate_user_parts _ _ Hvalid) as (Hvn & Hve & _).
  match goal with
  | |- context [unique_violation ?d] => set (final := d)
  end.
  destruct (negb (existsb _ us)); [discriminate|].
  destruct (unique_violation final us) as [(f, v)|] eqn:Huniq; [discriminate|].
  intros H. inversion H; subst saved us'. clear H.
  assert (Hfinal : u_id final = u_id doc /\ u_username final = u_username doc
                   /\ u_email final = u_email doc).
  { unfold final, pre_save.
    destruct (opt_eqb (u_password doc) (u_password loaded)); cbn [negb];
      match goal with
      | |- context [user_eqb_paths ?a ?b] => destruct (user_eqb_paths a b)
      end; repeat split; reflexivity. }
  destruct Hfinal as (H1 & H2 & H3). repeat split; assumption.
Qed.

Lemma validate_task_paths (a b : Task) :
  t_title a = t_title b -> t_description a = t_description b ->
  t_status a = t_status b -> validate_task a = validate_task b.
Proof.
  unfold validate_task. intros -> -> ->. reflexivity.
Qed.

Lemma in_ids_snoc (id : ObjectId) (us : list User) (new : User) :
  In id (map u_id us) -> In id (map u_id (us ++ [new])).
Proof.
  rewrite map_app. intros H. apply in_or_app. left. exact H.
Qed.

Lemma signup_keeps (L : Libs) (E : Env) (req : Req) (s : Store) :
  wf_store s -> wf_store (snd (signup L E req s)).
Proof.
  intros Hwf. unfold signup.
  destruct (field_get "username" (body req)) as [username|]; [|exact Hwf].
  destruct (User_findOne L _ false (users s)); [exact Hwf|].
  destruct (User_create L E _ _ _ (users s)) as [e|(new, us')] eqn:Hc; [exact Hwf|].
  destruct (User_create_inr _ _ _ _ _ _ _ _ Hc)
    as (-> & Hid & Hn & He & (p & _ & Hh) & _ & _ & Hvn & Hve & Hfresh).
  destruct Hwf as (Hts & (Hi & Hu & Hm) & Hvalid & Htasks).
  cbn [snd]. unfold wf_store, set_users. cbn [users tasks].
  split; [exact Hts|]. split; [|split].
  - repeat split; apply NoDup_map_snoc; auto; intros y Hy; apply (Hfresh y Hy).
  - intros u Hu'. apply in_app_or in Hu'. destruct Hu' as [Hu'|[<-|[]]]; [auto|].
    repeat split; auto.
    + rewrite Hn. cbn [set_opt]. apply set_string_idem.
    + rewrite He. destruct (field_get "email" (body req)); [apply set_string_idem|].
      reflexivity.
    + rewrite Hh. discriminate.
  - intros t Ht. destruct (Htasks t Ht) as (H1 & H2).
    split; [exact H1|apply in_ids_snoc; exact H2].
Qed.

Lemma updateProfile_keeps (L : Libs) (E : Env) (req : Req) (s : Store) :
  wf_store s -> wf_store (snd (updateProfile L E req s)).
Proof.
  intros Hwf. unfold updateProfile.
  destruct (user req) as [caller|]; [|exact Hwf].
  unfold User_findById.
  destruct (find _ (users s)) as [old|] eqn:Hold; [|exact Hwf].
  cbn [option_map].
  match goal with
  | |- wf_store (snd (match ?e with Some _ => _ | None => _ end)) =>
      destruct e; [exact Hwf|]
  end.
  match goal with
  | |- context [User_save L E _ ?d _] => set (doc := d)
  end.
  destruct (User_save L E _ doc (users s)) as [e|(saved, us')] eqn:Hsave; [exact Hwf|].
  destruct (User_save_inr _ _ _ _ _ _ _ Hsave)
    as (-> & Hid & Hn & He & Hvn & Hve & Huniq).
  destruct Hwf as (Hts & (Hi & Hu & Hm) & Hvalid & Htasks).
  apply find_some in Hold. destruct Hold as (Hold & _).
  destruct (Hvalid old Hold) as ((Hon & Hoe) & _).
  assert (Hnorm : set_string (u_username doc) = u_username doc
                  /\ set_string (u_email doc) = u_email doc).
  { unfold doc.
    destruct (field_get "username" (body req)) as [a|]; [destruct (Str.truthy a)|];
      (destruct (field_get "email" (body req)) as [b|]; [destruct (Str.truthy b)|]);
      (destruct (field_get "password" (body req)) as [c|]; [destruct (Str.truthy c)|]);
      cbn [set_username set_email set_password without_password u_username u_email];
      split; auto using set_string_idem. }
  cbn [snd]. unfold wf_store, set_users. cbn [users tasks].
  split; [exact Hts|]. split; [|split].
  - split; [rewrite replace_user_ids; exact Hi|].
    split; apply replace_user_unique; auto; intros u Hin Hne;
      apply (unique_violation_none _ _ Huniq u Hin Hne).
  - intros u Hin. destruct (replace_user_in _ _ _ Hin) as [Hin'|(o & Ho & _ & ->)];
      [auto|].
    destruct (Hvalid o Ho) as (_ & _ & _ & Hpw).
    unfold valid_user, normalized.
    cbn [write_user u_username u_email u_password].
    rewrite Hn, He. repeat split; try tauto.
    destruct (u_password saved); [discriminate|exact Hpw].
  - intros t Ht. destruct (Htasks t Ht) as (H1 & H2).
    split; [exact H1|]. rewrite replace_user_ids. exact H2.
Qed.

Lemma createTask_keeps (L : Libs) (E : Env) (req : Req) (s : Store) :
  known_user s req -> wf_store s -> wf_store (snd (createTask L E req s)).
Proof.
  intros (u & Hu & Hknown) Hwf. unfold createTask. rewrite Hu. unfold Task_create.
  match goal with
  | |- context [validate_task ?d] => set (doc := d)
  end.
  destruct (validate_task doc) eqn:Hvalid; [|exact Hwf].
  destruct (existsb _ (tasks s)) eqn:Hid; [exact Hwf|].
  destruct Hwf as (Hts & Hus & Hvalid_users & Htasks).
  cbn [snd]. unfold wf_store, set_tasks. cbn [users tasks].
  split; [|split; [exact Hus|split; [exact Hvalid_users|]]].
  - apply NoDup_map_snoc; [exact Hts|]. intros y Hy Heq.
    pose proof (existsb_id _ _ _ Hy Heq) as H. congruence.
  - intros t Ht. apply in_app_or in Ht. destruct Ht as [Ht|[<-|[]]]; [auto|].
    split; [exact Hvalid|exact Hknown].
Qed.

Lemma updateTask_keeps (L : Libs) (E : Env) (req : Req) (s : Store) :
  wf_store s -> wf_store (snd (updateTask L E req s)).
Proof.
  intros Hwf. unfold updateTask.
  destruct (user req) as [caller|]; [|exact Hwf].
  destruct (find_owned req caller (tasks s)) as [task|] eqn:Hfind; [|exact Hwf].
  unfold Task_save.
  match goal with
  | |- context [validate_task ?d] => set (doc := d)
  end.
  destruct (validate_task doc) eqn:Hvalid; [|exact Hwf].
  match goal with
  | |- context [replace_task ?d] => set (saved := d)
  end.
  destruct (negb (existsb _ (tasks s))); [exact Hwf|].
  destruct Hwf as (Hts & Hus & Hvalid_users & Htasks).
  assert (Htask : In task (tasks s)).
  { unfold find_owned in Hfind. destruct (field_get "id" (params req)); [|discriminate].
    unfold Task_findOne in Hfind. apply find_owned_by in Hfind. tauto. }
  assert (Hsaved : validate_task saved = [] /\ t_userId saved = t_userId task).
  { destruct (apply_patch_frame (field_get "title" (body req))
                (field_get "description" (body req)) (field_get "status" (body req)) task)
      as (_ & Howner & _).
    fold doc in Howner. unfold saved.
    destruct (task_eqb_paths doc task); [split; assumption|].
    split; [|exact Howner]. rewrite <- Hvalid. apply validate_task_paths; reflexivity. }
  cbn [snd]. unfold wf_store, set_tasks. cbn [users tasks].
  split; [rewrite replace_task_ids; exact Hts|].
  split; [exact Hus|split; [exact Hvalid_users|]].
  intros x Hx. destruct (replace_task_in _ _ _ Hx) as [->|Hx']; [|auto].
  destruct Hsaved as (H1 & H2). split; [exact H1|]. rewrite H2.
  exact (proj2 (Htasks task Htask)).
Qed.

Lemma deleteTask_keeps (L : Libs) (E : Env) (req : Req) (s : Store) :
  wf_store s -> wf_store (snd (deleteTask L E req s)).
Proof.
  intros Hwf. unfold deleteTask, Task_findOneAndDelete.
  destruct (user req) as [caller|]; [|exact Hwf].
  destruct (field_get "id" (params req)) as [id|]; [|exact Hwf].
  destruct (find _ (tasks s)); [|exact Hwf].
  destruct Hwf as (Hts & Hus & Hvalid_users & Htasks).
  cbn [snd]. unfold wf_store, set_tasks. cbn [users tasks].
  split; [apply remove_first_ids; exact Hts|].
  split; [exact Hus|split; [exact Hvalid_users|]].
  intros x Hx. apply Htasks. exact (remove_first_subset _ _ _ Hx).
Qed.

(** The controllers that only read. *)
Lemma readers_keep_store (L : Libs) (E : Env) (ep : Endpoint) (req : Req) (s : Store) :
  match ep with
  | POST_login | GET_profile | GET_tasks | GET_tasks_id => True
  | _ => False
  end ->
  snd (controller ep L E req s) = s.
Proof.
  destruct ep; intros []; cbn [controller];
    unfold login, getProfile, getTasks, getTaskById;
    repeat match goal with
           | |- snd (match ?x with _ => _ end) = _ => destruct x
           | |- snd (if ?x then _ else _) = _ => destruct x
           | |- snd (let '(_, _) := ?x in _) = _ => destruct x
           end;
    reflexivity.
Qed.

(** X10: every request leaves the store well formed.  Whatever the
    request, on whatever endpoint, through the whole stack: task and user
    identifiers stay unique, user names and emails stay unique, every user
    has a user name and an email that went through the setters and pass the
    schema and has a password, every task passes the schema and belongs to
    a user of the store. *)
Theorem requests_keep_the_store_well_formed :
  forall (L : Libs) (E : Env) (ep : Endpoint) (req : Req) (s : Store),
    wf_store s -> wf_store (store (handle L E ep req s)).
Proof.
  intros L E ep req s Hwf.
  destruct (handle_store L E ep req s) as [->|(req' & Hauth & ->)]; [exact Hwf|].
  set (req'' := run_chains (rule_set L ep) req').
  destruct ep;
    first [ match goal with
            | |- wf_store (snd (controller ?e _ _ _ _)) =>
                rewrite (readers_keep_store L E e req'' s I); exact Hwf
            end
          | cbn [controller] ].
  - apply signup_keeps. exact Hwf.
  - apply updateProfile_keeps. exact Hwf.
  - apply createTask_keeps; [|exact Hwf].
    unfold after_authorization in Hauth. cbn [protected] in Hauth.
    destruct (protect L E req s) as ([r|r|e], s') eqn:Hp; try discriminate.
    inversion Hauth; subst r.
    destruct (protect_known_user _ _ _ _ _ _ Hp) as (u & Hu & Hin).
    exists u. split; [|exact Hin]. unfold req''. rewrite run_chains_user. exact Hu.
  - apply updateTask_keeps. exact Hwf.
  - apply deleteTask_keeps. exact Hwf.
Qed.

Lemma demo_store_well_formed : wf_store Demo.db.
Proof.
  unfold wf_store, unique_users. cbn [Demo.db users tasks].
  split; [|split; [split; [|split]|split]].
  - repeat constructor; simpl; intuition discriminate.
  - repeat constructor; simpl; intuition discriminate.
  - repeat constructor; simpl; intuition discriminate.
  - repeat constructor; simpl; intuition discriminate.
  - intros u [<-|[<-|[]]]; repeat split; try reflexivity; discriminate.
  - intros t [<-|[<-|[]]]; (split; [reflexivity|simpl; auto]).
Qed.

Lemma requests_keep_the_store_well_formed_witness :
  wf_store Demo.db
  /\ wf_store (store (handle (Demo.libs true) Demo.env POST_signup Demo.carol_signup
                        Demo.db)).
Proof.
  split; [exact demo_store_well_formed|].
  apply requests_keep_the_store_well_formed. exact demo_store_well_formed.
Defined.

(** ** Behind the gates *)








Lemma user_sanitized (l : Location) (field v : string) (req : Req) :
  user (sanitized l field v req) = user req.
Proof.
  unfold sanitized. destruct (opt_eqb _ _); [reflexivity|]. destruct l; reflexivity.
Qed.





















(** ** Stack traces stay inside *)










(** ** The origin check of CORS *)

Lemma prefix_app (p rest : string) : String.prefix p (p ++ rest) = true.
Proof.
  induction p as [|c r IH]; simpl; [destruct rest; reflexivity|].
  destruct (ascii_dec c c) as [_|Hne]; [exact IH|exfalso; apply Hne; reflexivity].
Qed.

Lemma prefix_inv (p s : string) :
  String.prefix p s = true -> exists rest, s = p ++ rest.
Proof.
  revert s. induction p as [|c r IH]; intros s; simpl.
  - intros _. exists s. reflexivity.
  - destruct s as [|d t]; simpl; [discriminate|].
    destruct (ascii_dec c d) as [->|_]; [|discriminate].
    intros H. destruct (IH t H) as (rest & ->). exists rest. reflexivity.
Qed.

(** X13: the origins CORS lets in.  The origin check accepts a request
    exactly when it has no origin (or an empty one) or when its origin
    starts with an allowed origin, taken without its final slash: whatever
    follows the allowed origin is not looked at, so that an origin that
    only begins like [http://localhost:3000] is accepted too. *)
Theorem cors_accepts_by_prefix :
  forall (FRONTEND_URL origin : option string),
    cors_origin FRONTEND_URL origin = true
    <-> (origin = None \/ origin = Some ""
         \/ exists allowed rest,
              In allowed (allowedOrigins FRONTEND_URL)
              /\ origin = Some (strip_trailing_slash allowed ++ rest)).
Proof.
  intros F origin. unfold cors_origin. split.
  - destruct origin as [[|c o]|]; cbn [truthy Str.truthy negb]; auto.
    intros H. right. right. apply existsb_exists in H.
    destruct H as (allowed & Hin & Hp). unfold Str.startsWith in Hp.
    destruct (prefix_inv _ _ Hp) as (rest & Hrest).
    exists allowed, rest. split; [exact Hin|]. cbn [to_str] in Hrest. rewrite Hrest.
    reflexivity.
  - intros [->|[->|(allowed & rest & Hin & ->)]]; try reflexivity.
    destruct (negb _); [reflexivity|].
    apply existsb_exists. exists allowed. split; [exact Hin|].
    unfold Str.startsWith. cbn [to_str]. apply prefix_app.
Qed.

Lemma cors_accepts_by_prefix_witness :
  cors_origin None (Some "http://localhost:3000.evil.example") = true
  /\ cors_origin None None = true.
Proof.
  split.
  - apply cors_accepts_by_prefix. right. right.
    exists "http://localhost:3000", ".evil.example".
    split; [simpl; tauto|reflexivity].
  - apply cors_accepts_by_prefix. left. reflexivity.
Defined.

(** ** What a request writes *)

Lemma controller_frame (L : Libs) (E : Env) (ep : Endpoint) (req : Req) (s : Store) :
  match ep with
  | POST_login | GET_profile | GET_tasks | GET_tasks_id => snd (controller ep L E req s) = s
  | POST_signup | PUT_profile => tasks (snd (controller ep L E req s)) = tasks s
  | POST_tasks | PUT_tasks_id | DELETE_tasks_id =>
      users (snd (controller ep L E req s)) = users s
  end
  /\ exists more,
       map u_id (users (snd (controller ep L E req s))) = (map u_id (users s) ++ more)%list.
Proof.
  assert (Hsame : forall s', users s' = users s ->
                             exists more, map u_id (users s') = (map u_id (users s) ++ more)%list).
  { intros s' ->. exists []. rewrite app_nil_r. reflexivity. }
  destruct ep;
    try (split; [apply readers_keep_store; exact I
                |apply Hsame; rewrite readers_keep_store by exact I; reflexivity]).
  - cbn [controller]. unfold signup.
    destruct (field_get "username" (body req)); [|split; [reflexivity|apply Hsame; reflexivity]].
    destruct (User_findOne L _ false (users s));
      [split; [reflexivity|apply Hsame; reflexivity]|].
    destruct (User_create L E _ _ _ (users s)) as [e|(new, us')] eqn:Hc;
      [split; [reflexivity|apply Hsame; reflexivity]|].
    destruct (User_create_inr _ _ _ _ _ _ _ _ Hc) as (-> & _).
    split; [reflexivity|]. cbn [snd set_users users]. exists [u_id new].
    apply map_app.
  - cbn [controller]. unfold updateProfile.
    destruct (user req); [|split; [reflexivity|apply Hsame; reflexivity]].
    destruct (User_findById _ (users s)); [|split; [reflexivity|apply Hsame; reflexivity]].
    match goal with
    | |- context [match ?e with Some _ => _ | None => _ end] =>
        destruct e; [split; [reflexivity|apply Hsame; reflexivity]|]
    end.
    match goal with
    | |- context [User_save L E ?a ?d ?us] =>
        destruct (User_save L E a d us) as [e|(saved, us')] eqn:Hsave
    end; [split; [reflexivity|apply Hsame; reflexivity]|].
    destruct (User_save_inr _ _ _ _ _ _ _ Hsave) as (-> & _).
    split; [reflexivity|]. cbn [snd set_users users]. exists [].
    rewrite replace_user_ids, app_nil_r. reflexivity.
  - cbn [controller]. unfold createTask.
    destruct (user req); [|split; [reflexivity|apply Hsame; reflexivity]].
    destruct (Task_create E _ _ _ _ (tasks s)) as [e|(task, ts)];
      split; try reflexivity; apply Hsame; reflexivity.
  - cbn [controller]. unfold updateTask.
    destruct (user req); [|split; [reflexivity|apply Hsame; reflexivity]].
    destruct (find_owned req _ (tasks s)); [|split; [reflexivity|apply Hsame; reflexivity]].
    destruct (Task_save E _ _ (tasks s)) as [e|(task, ts)];
      split; try reflexivity; apply Hsame; reflexivity.
  - cbn [controller]. unfold deleteTask.
    destruct (user req); [|split; [reflexivity|apply Hsame; reflexivity]].
    destruct (field_get "id" (params req));
      [|split; [reflexivity|apply Hsame; reflexivity]].
    destruct (Task_findOneAndDelete _ _ (tasks s)) as ([task|], ts);
      split; try reflexivity; apply Hsame; reflexivity.
Qed.

(** X14: what a request can write.  Through the whole stack, a login, a
    profile read, a listing and a task read leave the store as it is; a
    signup and a profile update leave the tasks as they are; the task
    requests leave the users as they are; and no request removes a user or
    changes the identifier of one. *)
Theorem requests_write_only_their_collection :
  forall (L : Libs) (E : Env) (ep : Endpoint) (req : Req) (s : Store),
    match ep with
    | POST_login | GET_profile | GET_tasks | GET_tasks_id =>
        store (handle L E ep req s) = s
    | POST_signup | PUT_profile => tasks (store (handle L E ep req s)) = tasks s
    | POST_tasks | PUT_tasks_id | DELETE_tasks_id =>
        users (store (handle L E ep req s)) = users s
    end
    /\ exists more,
         map u_id (users (store (handle L E ep req s)))
         = (map u_id (users s) ++ more)%list.
Proof.
  intros L E ep req s.
  destruct (handle_store L E ep req s) as [->|(req' & _ & ->)].
  - split; [destruct ep; reflexivity|]. exists []. rewrite app_nil_r. reflexivity.
  - apply controller_frame.
Qed.

(** ** The envelope of a success *)

Lemma obj_get_set (k k' : string) (v : json) (o : Obj) :
  obj_get k (obj_set k' v o) = if String.eqb k' k then Some v else obj_get k o.
Proof.
  induction o as [|(k0, v0) r IH]; simpl; [reflexivity|].
  destruct (String.eqb k0 k') eqn:H0; simpl.
  - apply String.eqb_eq in H0. subst k0. destruct (String.eqb k' k); reflexivity.
  - destruct (String.eqb k0 k) eqn:H1; [|exact IH].
    destruct (String.eqb k' k) eqn:H2; [|reflexivity].
    apply String.eqb_eq in H1. apply String.eqb_eq in H2. subst.
    rewrite String.eqb_refl in H0. discriminate.
Qed.

Lemma obj_get_app (k : string) (a b : Obj) :
  obj_get k (a ++ b)%list = match obj_get k a with Some v => Some v | None => obj_get k b end.
Proof.
  induction a as [|(k0, v0) r IH]; simpl; [reflexivity|].
  destruct (String.eqb k0 k); [reflexivity|exact IH].
Qed.

Lemma obj_get_spread (k : string) (o data : Obj) :
  obj_get k (obj_spread o data)
  = match obj_get_last k data with Some v => Some v | None => obj_get k o end.
Proof.
  unfold obj_spread, obj_get_last. revert o.
  induction data as [|(k0, v0) r IH]; intros o; simpl; [reflexivity|].
  rewrite IH, obj_get_app, obj_get_set. simpl.
  destruct (obj_get k (rev r)); [reflexivity|].
  destruct (String.eqb k0 k); reflexivity.
Qed.

(** X15: the envelope of [sendSuccess].  The response has the given
    status, and under every key what the object literal, the spread and the
    assignment leave there: the message, when one is given, whatever the
    data say; else the field of the data; else [true] under [success].  So
    data with a field [success] replace the flag. *)
Theorem sendSuccess_fields :
  forall (statusCode : Z) (data : Obj) (message k : string),
    exists fields,
      sendSuccess statusCode data message = mkResponse statusCode (JObj fields)
      /\ obj_get k fields
         = if (String.eqb k "message" && Str.truthy message)%bool
           then Some (JStr message)
           else match obj_get_last k data with
                | Some v => Some v
                | None => if String.eqb k "success" then Some (JBool true) else None
                end.
Proof.
  intros statusCode data message k. unfold sendSuccess. eexists. split; [reflexivity|].
  destruct (Str.truthy message).
  - rewrite obj_get_set, obj_get_spread, andb_true_r, (String.eqb_sym k "message").
    destruct (String.eqb "message" k); [reflexivity|].
    simpl. rewrite (String.eqb_sym k "success"). reflexivity.
  - rewrite obj_get_spread, andb_false_r. simpl.
    rewrite (String.eqb_sym k "success"). reflexivity.
Qed.
